(** * Shallow embedding of [models/swat_van3.py]

    The file embeds the forward-computation graph of the VAN variant defined
    in [src/models/swat_van3.py]: the per-stage lookup tables, the module
    constructors ([__init__]) and the [forward] methods, together with the
    shape rules of the tensor runtime (torch / einops) they are wired to.

    Python integers are [Z]; floats that only act as rates are [Q]; a tensor
    is its shape and an index function; Python exceptions are values of
    [exn]; the [forward] methods thread the runtime state (random generator
    and batch-norm buffers) explicitly. *)

From Stdlib Require Import ZArith QArith List String Lia.
From stdpp Require Import base option list gmap strings pretty.

Local Open Scope string_scope.
Local Open Scope list_scope.
Local Open Scope Z_scope.

(** ** Exceptions and results *)

Inductive reason :=
  | ChannelMismatch (expected got : Z)
  | KernelTooLarge
  | BadRank
  | BroadcastMismatch (a b : Z)
  | FeatureMismatch (expected got : Z)
  | ReshapeInvalid
  | NegativeSize.

Inductive exn :=
  | KeyError (k : Z)
  | IndexError
  | AttributeError (name : string)
  | ValueError
  | ZeroDivisionError
  | TypeError
  | EinopsError
  | RuntimeError (r : reason).

Inductive result (A : Type) :=
  | Ok (a : A)
  | Err (e : exn).
Arguments Ok {A} a.
Arguments Err {A} e.

#[global] Instance result_ret : MRet result := fun A a => Ok a.
#[global] Instance result_bind : MBind result := fun A B f m =>
  match m with Ok a => f a | Err e => Err e end.
#[global] Instance result_fmap : FMap result := fun A B f m =>
  match m with Ok a => Ok (f a) | Err e => Err e end.

(** [d[k]] on a dict literal, and [l[i]] on a list with [i >= 0]. *)
Definition dict_getitem {V} (d : gmap Z V) (k : Z) : result V :=
  match d !! k with Some v => Ok v | None => Err (KeyError k) end.

Definition list_getitem {V} (l : list V) (i : nat) : result V :=
  match l !! i with Some v => Ok v | None => Err IndexError end.

(** ** The fixed lookup tables *)

(** [DWConv.__init__]: [{0:5, 1:5, 2:5, 3:3}] *)
Definition DWConv_table : gmap Z Z :=
  <[0 := 5]> (<[1 := 5]> (<[2 := 5]> (<[3 := 3]> ∅))).

(** [Attention.__init__]: [{0:(16,2,2,1), 1:(8,4,4,3), 2:(5,8,8,5), 3:(2,16,16,7)}] *)
Definition Attention_table : gmap Z (Z * Z * Z * Z) :=
  <[0 := (16, 2, 2, 1)]> (<[1 := (8, 4, 4, 3)]>
  (<[2 := (5, 8, 8, 5)]> (<[3 := (2, 16, 16, 7)]> ∅))).

(** [OverlapPatchEmbed.__init__]: [{1:(16,8,2,2,5), 2:(8,5,4,4,7), 3:(5,2,8,8,9)}] *)
Definition PatchEmbed_table : gmap Z (Z * Z * Z * Z * Z) :=
  <[1 := (16, 8, 2, 2, 5)]> (<[2 := (8, 5, 4, 4, 7)]>
  (<[3 := (5, 2, 8, 8, 9)]> ∅)).

(** ** Tensors *)

Record tensor (E : Type) := Tensor { shape : list Z; data : list Z -> E }.
Arguments Tensor {E} shape data.
Arguments shape {E} t.
Arguments data {E} t idx.

(** A multi-index is valid for a shape when it has the same rank and every
    component lies in [0, d). *)
Definition valid_index (s idx : list Z) : Prop :=
  Forall2 (fun d k => 0 <= k < d) s idx.

(** All valid multi-indices of a shape, in row-major order. *)
Fixpoint indices (s : list Z) : list (list Z) :=
  match s with
  | [] => [[]]
  | d :: s' => k ← seqZ 0 d; (fun r => k :: r) <$> indices s'
  end.

(** The elements of a tensor in row-major order (what [x.flatten().tolist()]
    returns). *)
Definition to_list {E} (x : tensor E) : list E := data x <$> indices (shape x).

Definition numel (s : list Z) : Z := foldr Z.mul 1 s.

(** Row-major offset of a multi-index, and its inverse. *)
Fixpoint ravel (s idx : list Z) : Z :=
  match s, idx with
  | d :: s', k :: idx' => k * numel s' + ravel s' idx'
  | _, _ => 0
  end.

Fixpoint unravel (s : list Z) (off : Z) : list Z :=
  match s with
  | [] => []
  | d :: s' => off / numel s' :: unravel s' (off mod numel s')
  end.

(** ** einops.rearrange, the two patterns used by the source *)

(** [rearrange(x, 'b (c p1 p2) n1 n2 -> b c (n1 p1) (n2 p2)', p1=p1, p2=p2)].
    The axis [c] is not given: einops infers it as [C / (p1*p2)] and raises
    when the channel axis cannot be divided in chunks of [p1*p2]. *)
Definition rearrange_c2s {E} (p1 p2 : Z) (x : tensor E) : result (tensor E) :=
  match shape x with
  | [b; ch; n1; n2] =>
      if bool_decide (0 < p1 ∧ 0 < p2 ∧ ch `mod` (p1 * p2) = 0) then
        Ok (Tensor [b; ch / (p1 * p2); n1 * p1; n2 * p2]
              (fun idx => match idx with
                          | [ib; ic; iy; ix] =>
                              data x [ib; (ic * p1 + iy `mod` p1) * p2 + ix `mod` p2;
                                      iy / p1; ix / p2]
                          | _ => data x idx
                          end))
      else Err EinopsError
  | _ => Err EinopsError
  end.

(** [rearrange(x, 'b c (n1 p1) (n2 p2) -> b (c p1 p2) n1 n2', p1=p1, p2=p2)]. *)
Definition rearrange_s2c {E} (p1 p2 : Z) (x : tensor E) : result (tensor E) :=
  match shape x with
  | [b; c; hh; ww] =>
      if bool_decide (0 < p1 ∧ 0 < p2 ∧ hh `mod` p1 = 0 ∧ ww `mod` p2 = 0) then
        Ok (Tensor [b; c * p1 * p2; hh / p1; ww / p2]
              (fun idx => match idx with
                          | [ib; k; i1; i2] =>
                              data x [ib; k / (p1 * p2);
                                      i1 * p1 + (k / p2) `mod` p1;
                                      i2 * p2 + k `mod` p2]
                          | _ => data x idx
                          end))
      else Err EinopsError
  | _ => Err EinopsError
  end.

(** ** Layer primitives of the runtime: their configuration *)

(** [nn.Conv2d]: the hyper-parameters are stored as pairs, as torch does. *)
Record Conv2d := mkConv2d {
  conv_name : string;
  in_channels : Z;
  out_channels : Z;
  kernel_size : Z * Z;
  stride : Z * Z;
  padding : Z * Z;
  dilation : Z * Z;
  groups : Z;
  bias : bool }.

Record BatchNorm2d := mkBatchNorm2d { bn_name : string; num_features : Z }.
Record LayerNorm := mkLayerNorm { ln_name : string; normalized_shape : Z; eps : Q }.
Record Linear := mkLinear { lin_name : string; in_features : Z; out_features : Z }.
Record Dropout := mkDropout { p_drop : Q }.
Record Param := mkParam { p_name : string; p_shape : list Z }.

(** [timm.models.layers.to_2tuple] on an integer. *)
Definition to_2tuple (k : Z) : Z * Z := (k, k).

(** [nn.Conv2d(in, out, kernel_size, stride, padding, dilation, groups, bias)]:
    torch raises ValueError for a non-positive [groups] or channel counts
    that [groups] does not divide, and cannot allocate a weight of negative
    size. *)
Definition nn_Conv2d (name : string) (cin cout : Z) (ks st pad dil : Z * Z)
    (g : Z) (b : bool) : result Conv2d :=
  if bool_decide (g <= 0) then Err ValueError
  else if bool_decide (cin `mod` g ≠ 0) then Err ValueError
  else if bool_decide (cout `mod` g ≠ 0) then Err ValueError
  else if bool_decide (cout < 0 ∨ cin < 0 ∨ ks.1 < 0 ∨ ks.2 < 0)
       then Err (RuntimeError NegativeSize)
  else Ok (mkConv2d name cin cout ks st pad dil g b).

Definition nn_BatchNorm2d (name : string) (n : Z) : result BatchNorm2d :=
  if bool_decide (n < 0) then Err (RuntimeError NegativeSize)
  else Ok (mkBatchNorm2d name n).

Definition nn_LayerNorm (e : Q) (name : string) (n : Z) : result LayerNorm :=
  if bool_decide (n < 0) then Err (RuntimeError NegativeSize)
  else Ok (mkLayerNorm name n e).

Definition nn_Linear (name : string) (fin fout : Z) : result Linear :=
  if bool_decide (fin < 0 ∨ fout < 0) then Err (RuntimeError NegativeSize)
  else Ok (mkLinear name fin fout).

Definition nn_Dropout (p : Q) : result Dropout :=
  if Qle_bool 0 p && Qle_bool p 1 then Ok (mkDropout p) else Err ValueError.

(** [nn.Parameter(torch.zeros(...))] of the given shape *)
Definition nn_Parameter (name : string) (s : list Z) : result Param :=
  if bool_decide (Forall (fun d => 0 <= d) s) then Ok (mkParam name s)
  else Err (RuntimeError NegativeSize).

(** ** The tensor runtime

    Element arithmetic and the values computed by the layer primitives are
    supplied by the runtime; the embedding fixes only how they are wired and
    which shapes they accept and return. *)
Class Runtime := {
  elt : Type;
  Rng : Type;
  Buf : Type;
  fadd : elt -> elt -> elt;
  fmul : elt -> elt -> elt;
  fhalf : elt;
  fgelu : elt -> elt;
  fmean : list elt -> elt;
  param_data : Param -> list Z -> elt;
  conv2d_data : Conv2d -> tensor elt -> list Z -> elt;
  bn_eval_data : BatchNorm2d -> Buf -> tensor elt -> list Z -> elt;
  bn_train_data : BatchNorm2d -> tensor elt -> list Z -> elt;
  bn_train_buf : BatchNorm2d -> tensor elt -> Buf -> Buf;
  layer_norm_data : LayerNorm -> tensor elt -> list Z -> elt;
  linear_data : Linear -> tensor elt -> list Z -> elt;
  dropout_data : Q -> Rng -> tensor elt -> list Z -> elt;
  drop_path_data : Q -> Rng -> tensor elt -> list Z -> elt;
  rng_next : Rng -> Rng }.

(** ** Shape-only tensor operations used by the source *)

Definition tmap {E} (f : E -> E) (x : tensor E) : tensor E :=
  Tensor (shape x) (fun idx => f (data x idx)).

(** [x.clone()] *)
Definition clone {E} (x : tensor E) : tensor E := x.

(** [x.shape[0]] *)
Definition shape0 {E} (x : tensor E) : result Z :=
  match shape x with b :: _ => Ok b | [] => Err IndexError end.

(** [x.flatten(2)] *)
Definition flatten2 {E} (x : tensor E) : result (tensor E) :=
  match shape x with
  | b :: c :: rest =>
      let s := [b; c; numel rest] in
      Ok (Tensor s (fun idx => data x (unravel (shape x) (ravel s idx))))
  | _ => Err IndexError
  end.

(** [x.transpose(1, 2)] *)
Definition transpose12 {E} (x : tensor E) : result (tensor E) :=
  match shape x with
  | a :: b :: c :: rest =>
      Ok (Tensor (a :: c :: b :: rest)
            (fun idx => match idx with
                        | i :: j :: k :: r => data x (i :: k :: j :: r)
                        | _ => data x idx
                        end))
  | _ => Err IndexError
  end.

(** [x.reshape(d1, ..., dk, -1)]: the last size is inferred. *)
Definition reshape_infer_last {E} (known : list Z) (x : tensor E)
    : result (tensor E) :=
  let n := numel (shape x) in
  let k := numel known in
  if bool_decide (Exists (fun d => d < 0) known) then Err (RuntimeError ReshapeInvalid)
  else if bool_decide (k = 0) then Err (RuntimeError ReshapeInvalid)
  else if bool_decide (n `mod` k ≠ 0) then Err (RuntimeError ReshapeInvalid)
  else
    let s := known ++ [n / k] in
    Ok (Tensor s (fun idx => data x (unravel (shape x) (ravel s idx)))).

(** [x.permute(0, 3, 1, 2).contiguous()] *)
Definition permute0312 {E} (x : tensor E) : result (tensor E) :=
  match shape x with
  | [b; h; w; c] =>
      Ok (Tensor [b; c; h; w]
            (fun idx => match idx with
                        | [ib; ic; ih; iw] => data x [ib; ih; iw; ic]
                        | _ => data x idx
                        end))
  | _ => Err (RuntimeError BadRank)
  end.

(** [x.repeat(r1, ..., rk)] with as many counts as [x] has axes (the only
    use in the source): the tensor is tiled, element [i] of the result along
    an axis of size [d] being element [i mod d] of [x]. *)
Definition tensor_repeat {E} (reps : list Z) (x : tensor E) : result (tensor E) :=
  if bool_decide (length reps ≠ length (shape x)) then Err (RuntimeError BadRank)
  else if bool_decide (Exists (fun r => r < 0) reps) then Err (RuntimeError NegativeSize)
  else Ok (Tensor (zip_with Z.mul (shape x) reps)
             (fun idx => data x (zip_with Z.modulo idx (shape x)))).

(** [x.unsqueeze(-1)] *)
Definition unsqueeze_last {E} (x : tensor E) : tensor E :=
  Tensor (shape x ++ [1]) (fun idx => data x (take (length idx - 1)%nat idx)).

(** Broadcasting of two shapes, aligned on the last axis; the arguments of
    [broadcast_rev] are reversed shapes. *)
Fixpoint broadcast_rev (a b : list Z) : result (list Z) :=
  match a, b with
  | [], _ => Ok b
  | _, [] => Ok a
  | x :: a', y :: b' =>
      r ← broadcast_rev a' b';
      if bool_decide (x = y) then Ok (x :: r)
      else if bool_decide (x = 1) then Ok (y :: r)
      else if bool_decide (y = 1) then Ok (x :: r)
      else Err (RuntimeError (BroadcastMismatch x y))
  end.

Definition broadcast_shapes (a b : list Z) : result (list Z) :=
  reverse <$> broadcast_rev (reverse a) (reverse b).

(** The index an operand of shape [s] is read at, for an index [idx] of the
    broadcast result. *)
Definition bidx (s idx : list Z) : list Z :=
  zip_with (fun d k => if bool_decide (d = 1) then 0 else k)
           s (drop (length idx - length s)%nat idx).

Definition tensor_binop {E} (f : E -> E -> E) (x y : tensor E) : result (tensor E) :=
  s ← broadcast_shapes (shape x) (shape y);
  Ok (Tensor s (fun idx => f (data x (bidx (shape x) idx)) (data y (bidx (shape y) idx)))).

(** Output size of a convolution along one axis. *)
Definition conv_out (n k s p d : Z) : Z := (n + 2 * p - d * (k - 1) - 1) / s + 1.

(** [timm.models.layers.DropPath(p)] or [nn.Identity()] *)
Inductive DropPathModule :=
  | DropPath (drop_prob : Q)
  | Identity.

Section Forward.
Context `{RT : Runtime}.

Abbreviation tens := (tensor elt).

(** The part of the runtime a forward call can change: the random generator
    (dropout, stochastic depth) and the batch-norm running statistics. *)
Record state := mkState { rng : Rng; buf : Buf }.

Definition M (A : Type) : Type := state -> result A * state.

#[global] Instance M_ret : MRet M := fun A a st => (Ok a, st).
#[global] Instance M_bind : MBind M := fun A B f m st =>
  match m st with
  | (Ok a, st') => f a st'
  | (Err e, st') => (Err e, st')
  end.

Definition lift {A} (r : result A) : M A := fun st => (r, st).

Definition param_tensor (p : Param) : tens := Tensor (p_shape p) (param_data p).

Definition tadd (x y : tens) : result tens := tensor_binop fadd x y.
Definition tmul (x y : tens) : result tens := tensor_binop fmul x y.
(** [0.5 * x] *)
Definition thalf (x : tens) : tens := tmap (fmul fhalf) x.
(** [nn.GELU()] *)
Definition nn_GELU (x : tens) : tens := tmap fgelu x.

(** [x.mean(dim=1)] *)
Definition mean1 (x : tens) : result tens :=
  match shape x with
  | b :: n :: rest =>
      Ok (Tensor (b :: rest)
            (fun idx => match idx with
                        | ib :: r => fmean ((fun k => data x (ib :: k :: r)) <$> seqZ 0 n)
                        | [] => fmean []
                        end))
  | _ => Err IndexError
  end.

(** [nn.Conv2d.forward] on a batched input: torch checks the channel count
    against the weight, then that the padded input is not smaller than the
    dilated kernel. *)
Definition Conv2d_out (m : Conv2d) (x : tens) (b h w : Z) : tens :=
  Tensor [b; out_channels m;
          conv_out h (kernel_size m).1 (stride m).1 (padding m).1 (dilation m).1;
          conv_out w (kernel_size m).2 (stride m).2 (padding m).2 (dilation m).2]
         (conv2d_data m x).

Definition Conv2d_forward (m : Conv2d) (x : tens) : result tens :=
  match shape x with
  | [b; c; h; w] =>
      if bool_decide ((stride m).1 <= 0 ∨ (stride m).2 <= 0)
      then Err (RuntimeError NegativeSize)
      else if bool_decide (c ≠ in_channels m)
      then Err (RuntimeError (ChannelMismatch (in_channels m) c))
      else if bool_decide
                (h + 2 * (padding m).1 < (dilation m).1 * ((kernel_size m).1 - 1) + 1
                 ∨ w + 2 * (padding m).2 < (dilation m).2 * ((kernel_size m).2 - 1) + 1)
      then Err (RuntimeError KernelTooLarge)
      else Ok (Conv2d_out m x b h w)
  | _ => Err (RuntimeError BadRank)
  end.

(** [nn.BatchNorm2d.forward]: in training mode the batch statistics are used
    and the running statistics updated; in evaluation mode the running
    statistics are read and nothing is written. *)
Definition BatchNorm2d_forward (m : BatchNorm2d) (training : bool) (x : tens)
    : M tens := fun st =>
  match shape x with
  | [b; c; h; w] =>
      if training && bool_decide (b * h * w = 1) then (Err ValueError, st)
      else if bool_decide (c ≠ num_features m)
      then (Err (RuntimeError (FeatureMismatch (num_features m) c)), st)
      else if training
      then (Ok (Tensor (shape x) (bn_train_data m x)),
            mkState (rng st) (bn_train_buf m x (buf st)))
      else (Ok (Tensor (shape x) (bn_eval_data m (buf st) x)), st)
  | _ => (Err ValueError, st)
  end.

(** [nn.LayerNorm.forward] over the last axis. *)
Definition LayerNorm_forward (m : LayerNorm) (x : tens) : result tens :=
  match last (shape x) with
  | Some c =>
      if bool_decide (c = normalized_shape m)
      then Ok (Tensor (shape x) (layer_norm_data m x))
      else Err (RuntimeError (FeatureMismatch (normalized_shape m) c))
  | None => Err (RuntimeError BadRank)
  end.

(** [nn.Linear.forward] over the last axis. *)
Definition Linear_forward (m : Linear) (x : tens) : result tens :=
  match last (shape x) with
  | Some c =>
      if bool_decide (c = in_features m)
      then Ok (Tensor (removelast (shape x) ++ [out_features m]) (linear_data m x))
      else Err (RuntimeError (FeatureMismatch (in_features m) c))
  | None => Err (RuntimeError BadRank)
  end.

(** [nn.Dropout.forward]: the identity unless the module is in training
    mode, where a random mask is drawn. *)
Definition Dropout_forward (m : Dropout) (training : bool) (x : tens) : M tens :=
  fun st =>
    if training
    then (Ok (Tensor (shape x) (dropout_data (p_drop m) (rng st) x)),
          mkState (rng_next (rng st)) (buf st))
    else (Ok x, st).

(** [DropPath.forward] of timm: [if drop_prob == 0. or not training: return x],
    otherwise a random per-sample mask; [nn.Identity] returns its input. *)
Definition DropPath_forward (m : DropPathModule) (training : bool) (x : tens)
    : M tens := fun st =>
  match m with
  | Identity => (Ok x, st)
  | DropPath p =>
      if Qeq_bool p 0 || negb training then (Ok x, st)
      else (Ok (Tensor (shape x) (drop_path_data p (rng st) x)),
            mkState (rng_next (rng st)) (buf st))
  end.

End Forward.

(** ** The modules of the source: attributes and constructors

    Every constructor takes the qualified name of the module it builds (the
    prefix of its entries in [state_dict()]), so that two layers with equal
    hyper-parameters keep distinct weights.  [act_layer] is [nn.GELU] at
    every call site of the source and is not a constructor argument here;
    [self.apply(self._init_weights)] only draws the initial weights. *)

(** [a // b] *)
Definition floordiv (a b : Z) : result Z :=
  if bool_decide (b = 0) then Err ZeroDivisionError else Ok (a / b).

(** [a or b] where [a] is an integer or [None] *)
Definition py_or (a : option Z) (b : Z) : Z :=
  match a with
  | Some v => if bool_decide (v = 0) then b else v
  | None => b
  end.

(** A required attribute that only some constructor paths set. *)
Definition req {A} (name : string) (o : option A) : result A :=
  match o with Some a => Ok a | None => Err (AttributeError name) end.

Record DWConv := mkDWConv { dw_ks : Z; dw_dwconv : Conv2d }.

Definition DWConv_init (name : string) (dim layer : Z) : result DWConv :=
  ks ← dict_getitem DWConv_table layer;
  dwconv ← nn_Conv2d (name +:+ ".dwconv") dim dim (to_2tuple ks) (1, 1)
              (to_2tuple (ks / 2)) (1, 1) dim true;
  Ok (mkDWConv ks dwconv).

Record Mlp := mkMlp {
  mlp_fc1 : Conv2d;
  mlp_dwconv : DWConv;
  mlp_fc2 : Conv2d;
  mlp_drop : Dropout;
  mlp_layer : Z;
  mlp_norm1 : option BatchNorm2d;
  mlp_norm2 : BatchNorm2d }.

Definition Mlp_init (name : string) (in_features : Z)
    (hidden_features out_features : option Z) (drop : Q) (layer : Z) : result Mlp :=
  let out_features := py_or out_features in_features in
  let hidden_features := py_or hidden_features in_features in
  fc1 ← nn_Conv2d (name +:+ ".fc1") in_features hidden_features
          (1, 1) (1, 1) (0, 0) (1, 1) 1 true;
  dwconv ← DWConv_init (name +:+ ".dwconv") hidden_features layer;
  fc2 ← nn_Conv2d (name +:+ ".fc2") hidden_features out_features
          (1, 1) (1, 1) (0, 0) (1, 1) 1 true;
  drop ← nn_Dropout drop;
  norm1 ← (if bool_decide (1 < layer)
           then Some <$> nn_BatchNorm2d (name +:+ ".norm1") hidden_features
           else Ok None);
  norm2 ← nn_BatchNorm2d (name +:+ ".norm2") hidden_features;
  Ok (mkMlp fc1 dwconv fc2 drop layer norm1 norm2).

Record LKA := mkLKA {
  lka_conv0 : Conv2d;
  lka_conv_spatial : Conv2d;
  lka_conv1 : Conv2d }.

Definition LKA_init (name : string) (dim : Z) : result LKA :=
  conv0 ← nn_Conv2d (name +:+ ".conv0") dim dim (5, 5) (1, 1) (2, 2) (1, 1) dim true;
  conv_spatial ← nn_Conv2d (name +:+ ".conv_spatial") dim dim (7, 7) (1, 1) (9, 9)
                   (3, 3) dim true;
  conv1 ← nn_Conv2d (name +:+ ".conv1") dim dim (1, 1) (1, 1) (0, 0) (1, 1) 1 true;
  Ok (mkLKA conv0 conv_spatial conv1).

Record Attention := mkAttention {
  att_layer : Z;
  att_proj_1 : Conv2d;
  att_spatial_gating_unit : LKA;
  att_proj_2 : Conv2d;
  att_c : Z;
  att_h : Z;
  att_w : Z;
  att_ks : Z;
  att_proj_1c : Conv2d }.

Definition Attention_init (name : string) (d_model layer : Z) : result Attention :=
  proj_1 ← nn_Conv2d (name +:+ ".proj_1") d_model d_model
             (1, 1) (1, 1) (0, 0) (1, 1) 1 true;
  sgu ← LKA_init (name +:+ ".spatial_gating_unit") d_model;
  proj_2 ← nn_Conv2d (name +:+ ".proj_2") d_model d_model
             (1, 1) (1, 1) (0, 0) (1, 1) 1 true;
  '(c, h, w, ks) ← dict_getitem Attention_table layer;
  proj_1c ← nn_Conv2d (name +:+ ".proj_1c") c c (to_2tuple ks) (1, 1)
              (to_2tuple (ks / 2)) (1, 1) 1 true;
  Ok (mkAttention layer proj_1 sgu proj_2 c h w ks proj_1c).

Record Block := mkBlock {
  blk_norm1 : BatchNorm2d;
  blk_attn : Attention;
  blk_drop_path : DropPathModule;
  blk_norm2 : BatchNorm2d;
  blk_mlp : Mlp;
  blk_layer_scale_1 : Param;
  blk_layer_scale_2 : Param }.

(** [mlp_ratio] is an integer in every preset, so [int(dim * mlp_ratio)] is
    the product. *)
Definition Block_init (name : string) (dim mlp_ratio : Z) (drop drop_path : Q)
    (layer : Z) : result Block :=
  norm1 ← nn_BatchNorm2d (name +:+ ".norm1") dim;
  attn ← Attention_init (name +:+ ".attn") dim layer;
  let dp := if negb (Qle_bool drop_path 0) then DropPath drop_path else Identity in
  norm2 ← nn_BatchNorm2d (name +:+ ".norm2") dim;
  let mlp_hidden_dim := dim * mlp_ratio in
  mlp ← Mlp_init (name +:+ ".mlp") dim (Some mlp_hidden_dim) None drop layer;
  layer_scale_1 ← nn_Parameter (name +:+ ".layer_scale_1") [dim];
  layer_scale_2 ← nn_Parameter (name +:+ ".layer_scale_2") [dim];
  Ok (mkBlock norm1 attn dp norm2 mlp layer_scale_1 layer_scale_2).

(** The attributes of [OverlapPatchEmbed] differ between [layer == 0] and the
    other layers; the positional bias is stored under a computed name
    ([setattr(self, f"pos_embed{layer+1}", ...)]). *)
Record OverlapPatchEmbed := mkOverlapPatchEmbed {
  pe_img_size : Z;
  pe_layer : Z;
  pe_proj1 : option Conv2d;
  pe_proj2 : Conv2d;
  pe_norm1 : option BatchNorm2d;
  pe_norm2 : BatchNorm2d;
  pe_c : Z;
  pe_cout : option Z;
  pe_h : Z;
  pe_w : Z;
  pe_ks : option Z;
  pe_H : Z;
  pe_W : Z;
  pe_params : gmap string Param }.

Definition OverlapPatchEmbed_init (name : string)
    (img_size patch_size stride in_chans embed_dim layer : Z)
    : result OverlapPatchEmbed :=
  let patch_size := to_2tuple patch_size in
  if bool_decide (layer = 0) then
    proj1 ← nn_Conv2d (name +:+ ".proj1") in_chans embed_dim patch_size
              (to_2tuple stride) (patch_size.1 / 2, patch_size.2 / 2) (1, 1) 1 true;
    proj2 ← nn_Conv2d (name +:+ ".proj2") embed_dim (embed_dim / 4) (3, 3) (1, 1)
              (3 / 2, 3 / 2) (1, 1) 1 true;
    norm1 ← nn_BatchNorm2d (name +:+ ".norm1") embed_dim;
    norm2 ← nn_BatchNorm2d (name +:+ ".norm2") (embed_dim / 4);
    let '(c, h, w) := (16, 2, 2) in
    H ← floordiv img_size (h * stride);
    W ← floordiv img_size (w * stride);
    pos_embed1 ← nn_Parameter (name +:+ ".pos_embed1") [1; embed_dim; h; w];
    Ok (mkOverlapPatchEmbed img_size layer (Some proj1) proj2 (Some norm1) norm2
          c None h w None H W (<["pos_embed1" := pos_embed1]> ∅))
  else
    '(c, cout, h, w, ks) ← dict_getitem PatchEmbed_table layer;
    proj2 ← nn_Conv2d (name +:+ ".proj2") c cout (to_2tuple ks) (1, 1)
              (to_2tuple (ks / 2)) (1, 1) 1 true;
    norm2 ← nn_BatchNorm2d (name +:+ ".norm2") cout;
    H ← floordiv img_size stride;
    W ← floordiv img_size stride;
    pos_embed ← nn_Parameter (name +:+ ".pos_embed" +:+ pretty (layer + 1))
                  [1; cout; h * 2; w * 2];
    Ok (mkOverlapPatchEmbed img_size layer None proj2 None norm2
          c (Some cout) h w (Some ks) H W
          (<["pos_embed" +:+ pretty (layer + 1) := pos_embed]> ∅)).

(** ** The backbone object

    [VAN.__init__] stores its stages with [setattr] under computed names and
    [forward_features] reads them back with [getattr]; the object is therefore
    a finite map from attribute names to values. *)

Inductive Head :=
  | HeadLinear (m : Linear)
  | HeadIdentity.

Inductive attr :=
  | AInt (z : Z)
  | ANat (n : nat)
  | ADepths (l : list nat)
  | APatchEmbed (m : OverlapPatchEmbed)
  | ABlocks (l : list Block)
  | ANorm (m : LayerNorm)
  | AHead (h : Head)
  | ACfg.

Abbreviation VAN := (gmap string attr).

Definition getattr (self : VAN) (name : string) : result attr :=
  match self !! name with Some a => Ok a | None => Err (AttributeError name) end.

(** [for a in l: s = f(a, s)] with exceptions *)
Fixpoint foldM {A S} (f : A -> S -> result S) (l : list A) (s : S) : result S :=
  match l with
  | [] => Ok s
  | a :: l' => s' ← f a s; foldM f l' s'
  end.

(** [[x.item() for x in torch.linspace(lo, hi, n)]] *)
Definition linspace (lo hi : Q) (n : nat) : list Q :=
  (fun k => lo + (hi - lo) * inject_Z (Z.of_nat k) / inject_Z (Z.of_nat n - 1))%Q
    <$> seq 0 n.

(** The arguments of [VAN.__init__]; [depths] holds natural numbers and
    [mlp_ratios] integers, as in every preset. *)
Record VAN_args := mkVAN_args {
  img_size : Z;
  in_chans : Z;
  num_classes : Z;
  embed_dims : list Z;
  mlp_ratios : list Z;
  drop_rate : Q;
  drop_path_rate : Q;
  norm_layer : string -> Z -> result LayerNorm;
  depths : list nat;
  num_stages : nat;
  flag : bool }.

(** One iteration of the loop [for i in range(num_stages)] of
    [VAN.__init__]; the accumulator is [(self, cur)]. *)
Definition VAN_init_stage (a : VAN_args) (dpr : list Q) (i : nat)
    (acc : VAN * nat) : result (VAN * nat) :=
  let '(self, cur) := acc in
  let layer := Z.of_nat i in
  prev ← (if bool_decide (i = 0%nat) then Ok (in_chans a)
          else (fun e => e / 1) <$> list_getitem (embed_dims a) (i - 1));
  dim ← list_getitem (embed_dims a) i;
  patch_embed ← OverlapPatchEmbed_init ("patch_embed" +:+ pretty (i + 1)%nat)
                  (if bool_decide (i = 0%nat) then img_size a
                   else img_size a / 2 ^ (layer + 1))
                  (if bool_decide (i = 0%nat) then 5 else 3)
                  (if bool_decide (i = 0%nat) then 2 else 2)
                  prev dim layer;
  depth ← list_getitem (depths a) i;
  block ← mapM (fun j =>
                  ratio ← list_getitem (mlp_ratios a) i;
                  dp ← list_getitem dpr (cur + j);
                  Block_init ("block" +:+ pretty (i + 1)%nat +:+ "." +:+ pretty j)
                    dim ratio (drop_rate a) dp layer)
               (seq 0 depth);
  norm ← norm_layer a ("norm" +:+ pretty (i + 1)%nat) dim;
  Ok (<["norm" +:+ pretty (i + 1)%nat := ANorm norm]>
        (<["block" +:+ pretty (i + 1)%nat := ABlocks block]>
           (<["patch_embed" +:+ pretty (i + 1)%nat := APatchEmbed patch_embed]> self)),
      (cur + depth)%nat).

Definition VAN_init (a : VAN_args) : result VAN :=
  let self : VAN := ∅ in
  let self := if negb (flag a) then <["num_classes" := AInt (num_classes a)]> self
              else self in
  let self := <["depths" := ADepths (depths a)]> self in
  let self := <["num_stages" := ANat (num_stages a)]> self in
  let dpr := linspace 0 (drop_path_rate a) (sum_list (depths a)) in
  '(self, cur) ← foldM (VAN_init_stage a dpr) (seq 0 (num_stages a)) (self, 0%nat);
  head ← (if bool_decide (0 < num_classes a)
          then e ← list_getitem (embed_dims a) 3;
               HeadLinear <$> nn_Linear "head" e (num_classes a)
          else Ok HeadIdentity);
  Ok (<["head" := AHead head]> self).

(** [VAN.reset_classifier]: the assignment to [num_classes] happens before
    the head is rebuilt and is kept when rebuilding raises. *)
Definition reset_classifier (self : VAN) (num_classes : Z) : result unit * VAN :=
  let self := <["num_classes" := AInt num_classes]> self in
  if bool_decide (0 < num_classes) then
    match getattr self "embed_dim" with
    | Ok (AInt d) =>
        match nn_Linear "head" d num_classes with
        | Ok l => (Ok (), <["head" := AHead (HeadLinear l)]> self)
        | Err e => (Err e, self)
        end
    | Ok _ => (Err TypeError, self)
    | Err e => (Err e, self)
    end
  else (Ok (), <["head" := AHead HeadIdentity]> self).

(** The keyword arguments a preset forwards to [VAN.__init__] (those it does
    not fix itself), with the defaults of [VAN.__init__]. *)
Record kwargs := mkKwargs {
  kw_img_size : Z;
  kw_in_chans : Z;
  kw_num_classes : Z;
  kw_drop_rate : Q;
  kw_drop_path_rate : Q;
  kw_num_stages : nat;
  kw_flag : bool }.

Definition default_kwargs : kwargs := mkKwargs 224 3 1000 0 0 4 false.

(** The body shared by the presets, for [pretrained=False]. *)
Definition preset (dims ratios : list Z) (ds : list nat) (kw : kwargs) : result VAN :=
  model ← VAN_init (mkVAN_args (kw_img_size kw) (kw_in_chans kw) (kw_num_classes kw)
                      dims ratios (kw_drop_rate kw) (kw_drop_path_rate kw)
                      (nn_LayerNorm (1 # 1000000)) ds (kw_num_stages kw) (kw_flag kw));
  Ok (<["default_cfg" := ACfg]> model).

Definition van_tiny : kwargs -> result VAN :=
  preset [32; 64; 160; 256] [8; 8; 4; 4] [3; 3; 5; 2]%nat.
Definition van_small : kwargs -> result VAN :=
  preset [64; 128; 320; 512] [8; 8; 4; 4] [2; 2; 4; 2]%nat.
Definition van_base : kwargs -> result VAN :=
  preset [64; 128; 320; 512] [8; 8; 4; 4] [3; 3; 12; 3]%nat.
Definition van_large : kwargs -> result VAN :=
  preset [64; 128; 320; 512] [8; 8; 4; 4] [3; 5; 27; 3]%nat.

(** The models [van_tiny()] and [van_small()] return with default arguments. *)
Definition van_tiny_model : VAN :=
  match van_tiny default_kwargs with Ok m => m | Err _ => ∅ end.
Definition van_small_model : VAN :=
  match van_small default_kwargs with Ok m => m | Err _ => ∅ end.

(** The models the constructors of the source can return. *)
Definition constructed (m : VAN) : Prop :=
  (∃ a, VAN_init a = Ok m) ∨ (∃ dims ratios ds kw, preset dims ratios ds kw = Ok m).

(** The width and the number of blocks a constructed model uses at stage
    [i] (counted from 1, as the attribute names are). *)
Definition stage_width (self : VAN) (i : nat) : result (Z * list Z) :=
  nm ← getattr self ("norm" +:+ pretty i);
  bl ← getattr self ("block" +:+ pretty i);
  match nm, bl with
  | ANorm norm, ABlocks block =>
      Ok (normalized_shape norm, (fun b => num_features (blk_norm1 b)) <$> block)
  | _, _ => Err TypeError
  end.

Definition stage_depth (self : VAN) (i : nat) : result nat :=
  bl ← getattr self ("block" +:+ pretty i);
  match bl with
  | ABlocks block => Ok (length block)
  | _ => Err TypeError
  end.

(** ** The forward methods *)

Section Modules.
Context `{RT : Runtime}.

Abbreviation tens := (tensor elt).

(** [DWConv.forward] *)
Definition DWConv_forward (m : DWConv) (x : tens) : result tens :=
  Conv2d_forward (dw_dwconv m) x.

(** [Mlp.forward] *)
Definition Mlp_forward (m : Mlp) (training : bool) (x : tens) : M tens :=
  x ← (if bool_decide (1 < mlp_layer m) then
         x ← lift (Conv2d_forward (mlp_fc1 m) x);
         norm1 ← lift (req "norm1" (mlp_norm1 m));
         x ← BatchNorm2d_forward norm1 training x;
         mret (nn_GELU x)
       else
         lift (Conv2d_forward (mlp_fc1 m) x));
  x ← lift (DWConv_forward (mlp_dwconv m) x);
  x ← BatchNorm2d_forward (mlp_norm2 m) training x;
  let x := nn_GELU x in
  x ← lift (Conv2d_forward (mlp_fc2 m) x);
  x ← Dropout_forward (mlp_drop m) training x;
  mret x.

(** [LKA.forward] *)
Definition LKA_forward (m : LKA) (x : tens) : result tens :=
  let u := clone x in
  attn ← Conv2d_forward (lka_conv0 m) x;
  attn ← Conv2d_forward (lka_conv_spatial m) attn;
  attn ← Conv2d_forward (lka_conv1 m) attn;
  tmul u attn.

(** [Attention.forward] *)
Definition Attention_forward (m : Attention) (x : tens) : result tens :=
  let shorcut := clone x in
  x_ ← rearrange_c2s (att_h m) (att_w m) x;
  x_ ← Conv2d_forward (att_proj_1c m) x_;
  x_ ← rearrange_s2c (att_h m) (att_w m) x_;
  p ← Conv2d_forward (att_proj_1 m) x;
  s ← tadd p x_;
  let x := thalf s in
  let x := nn_GELU x in
  x ← LKA_forward (att_spatial_gating_unit m) x;
  x ← Conv2d_forward (att_proj_2 m) x;
  tadd x shorcut.

(** [self.layer_scale_k.unsqueeze(-1).unsqueeze(-1)] *)
Definition layer_scale (p : Param) : tens :=
  unsqueeze_last (unsqueeze_last (param_tensor p)).

(** [Block.forward] *)
Definition Block_forward (m : Block) (training : bool) (x : tens) : M tens :=
  n ← BatchNorm2d_forward (blk_norm1 m) training x;
  a ← lift (Attention_forward (blk_attn m) n);
  a ← lift (tmul (layer_scale (blk_layer_scale_1 m)) a);
  a ← DropPath_forward (blk_drop_path m) training a;
  x ← lift (tadd x a);
  n ← BatchNorm2d_forward (blk_norm2 m) training x;
  f ← Mlp_forward (blk_mlp m) training n;
  f ← lift (tmul (layer_scale (blk_layer_scale_2 m)) f);
  f ← DropPath_forward (blk_drop_path m) training f;
  x ← lift (tadd x f);
  mret x.

(** [self.pos_embedK.repeat(1, 1, self.H, self.W)] *)
Definition pos_embed_repeat (m : OverlapPatchEmbed) (name : string) : result tens :=
  pos ← req name (pe_params m !! name);
  tensor_repeat [1; 1; pe_H m; pe_W m] (param_tensor pos).

(** [_, _, H, W = x.shape] *)
Definition shape_HW (x : tens) : result (Z * Z) :=
  match shape x with
  | [_; _; H; W] => Ok (H, W)
  | _ => Err ValueError
  end.

(** [OverlapPatchEmbed.forward], returning [(x, H, W)] *)
Definition OverlapPatchEmbed_forward (m : OverlapPatchEmbed) (training : bool)
    (x : tens) : M (tens * Z * Z) :=
  x ← (if bool_decide (pe_layer m = 0) then
         proj1 ← lift (req "proj1" (pe_proj1 m));
         p ← lift (Conv2d_forward proj1 x);
         r ← lift (pos_embed_repeat m "pos_embed1");
         s ← lift (tadd p r);
         norm1 ← lift (req "norm1" (pe_norm1 m));
         x ← BatchNorm2d_forward norm1 training s;
         let x := nn_GELU x in
         x ← lift (Conv2d_forward (pe_proj2 m) x);
         x ← BatchNorm2d_forward (pe_norm2 m) training x;
         lift (rearrange_s2c (pe_h m) (pe_w m) x)
       else
         x2 ← lift (rearrange_c2s (pe_h m) (pe_w m) x);
         p ← lift (Conv2d_forward (pe_proj2 m) x2);
         r ← lift (pos_embed_repeat m ("pos_embed" +:+ pretty (pe_layer m + 1)));
         s ← lift (tadd p r);
         x2 ← BatchNorm2d_forward (pe_norm2 m) training s;
         lift (rearrange_s2c (pe_h m * 2) (pe_w m * 2) x2));
  '(H, W) ← lift (shape_HW x);
  mret (x, H, W).

(** [for blk in block: x = blk(x)] *)
Fixpoint blocks_forward (l : list Block) (training : bool) (x : tens) : M tens :=
  match l with
  | [] => mret x
  | blk :: l' => x ← Block_forward blk training x; blocks_forward l' training x
  end.

(** One iteration of the loop of [VAN.forward_features]. *)
Definition stage_forward (self : VAN) (num_stages : nat) (B : Z) (training : bool)
    (i : nat) (x : tens) : M tens :=
  pe ← lift (getattr self ("patch_embed" +:+ pretty (i + 1)%nat));
  bl ← lift (getattr self ("block" +:+ pretty (i + 1)%nat));
  nm ← lift (getattr self ("norm" +:+ pretty (i + 1)%nat));
  match pe, bl, nm with
  | APatchEmbed patch_embed, ABlocks block, ANorm norm =>
      '(x, H, W) ← OverlapPatchEmbed_forward patch_embed training x;
      x ← blocks_forward block training x;
      x ← lift (flatten2 x);
      x ← lift (transpose12 x);
      x ← lift (LayerNorm_forward norm x);
      if bool_decide (Z.of_nat i ≠ Z.of_nat num_stages - 1)
      then x ← lift (reshape_infer_last [B; H; W] x); lift (permute0312 x)
      else mret x
  | _, _, _ => lift (Err TypeError)
  end.

Fixpoint stages_forward (self : VAN) (num_stages : nat) (B : Z) (training : bool)
    (stages : list nat) (x : tens) : M tens :=
  match stages with
  | [] => mret x
  | i :: stages' =>
      x ← stage_forward self num_stages B training i x;
      stages_forward self num_stages B training stages' x
  end.

(** [VAN.forward_features] *)
Definition VAN_forward_features (self : VAN) (training : bool) (x : tens) : M tens :=
  B ← lift (shape0 x);
  ns ← lift (getattr self "num_stages");
  match ns with
  | ANat num_stages =>
      x ← stages_forward self num_stages B training (seq 0 num_stages) x;
      lift (mean1 x)
  | _ => lift (Err TypeError)
  end.

(** [VAN.forward] *)
Definition VAN_forward (self : VAN) (training : bool) (x : tens) : M tens :=
  x ← VAN_forward_features self training x;
  hd ← lift (getattr self "head");
  match hd with
  | AHead (HeadLinear head) => lift (Linear_forward head x)
  | AHead HeadIdentity => mret x
  | _ => lift (Err TypeError)
  end.

(** Two successive calls of [model(x)] on the same input: the second call
    runs in the state the first one left. *)
Definition two_calls (self : VAN) (training : bool) (x : tens) (st : state)
    : result tens * result tens :=
  let '(r1, st1) := VAN_forward self training x st in
  let '(r2, _) := VAN_forward self training x st1 in
  (r1, r2).

(** A computation that leaves the state as it found it and whose outcome
    depends on the batch-norm buffers only, not on the random generator. *)
Definition eval_pure {A} (m : M A) : Prop :=
  ∀ st, (m st).2 = st ∧ ∀ st', buf st' = buf st -> (m st').1 = (m st).1.

End Modules.

(** A small runtime over the integers on which the definitions can be run:
    every layer primitive passes its input through. *)
Definition ZRuntime : Runtime := {|
  elt := Z; Rng := nat; Buf := nat;
  fadd := Z.add; fmul := Z.mul; fhalf := 1; fgelu := fun v => v;
  fmean := fun l => foldr Z.add 0 l;
  param_data := fun _ _ => 1;
  conv2d_data := fun _ x idx => data x idx;
  bn_eval_data := fun _ _ x idx => data x idx;
  bn_train_data := fun _ x idx => data x idx;
  bn_train_buf := fun _ _ b => S b;
  layer_norm_data := fun _ x idx => data x idx;
  linear_data := fun _ x idx => data x idx;
  dropout_data := fun _ _ x idx => data x idx;
  drop_path_data := fun _ _ x idx => data x idx;
  rng_next := S |}.

(** A tensor whose elements are their own row-major offsets. *)
Definition sample_tensor (s : list Z) : tensor Z := Tensor s (ravel s).

(** An initial state of that runtime. *)
Definition sample_state : @state ZRuntime := mkState (RT := ZRuntime) 0%nat 0%nat.

(** What one iteration of the loop of [VAN.__init__] builds for stage [i]:
    the patch embedding, the list of blocks and the norm, from the arguments
    of the constructor. *)
Definition stage_built (a : VAN_args) (i : nat) (pe : OverlapPatchEmbed)
    (bl : list Block) (nm : LayerNorm) : Prop :=
  ∃ prev dim depth,
    (if bool_decide (i = 0%nat) then prev = in_chans a
     else ∃ e, embed_dims a !! (i - 1)%nat = Some e ∧ prev = e / 1) ∧
    embed_dims a !! i = Some dim ∧
    OverlapPatchEmbed_init ("patch_embed" +:+ pretty (i + 1)%nat)
      (if bool_decide (i = 0%nat) then img_size a
       else img_size a / 2 ^ (Z.of_nat i + 1))
      (if bool_decide (i = 0%nat) then 5 else 3) 2 prev dim (Z.of_nat i) = Ok pe ∧
    depths a !! i = Some depth ∧ length bl = depth ∧
    Forall (fun b => ∃ name ratio dp,
                       Block_init name dim ratio (drop_rate a) dp (Z.of_nat i) = Ok b)
           bl ∧
    norm_layer a ("norm" +:+ pretty (i + 1)%nat) dim = Ok nm.

(** The same constructor arguments with another [num_stages]. *)
Definition with_num_stages (a : VAN_args) (n : nat) : VAN_args :=
  mkVAN_args (img_size a) (in_chans a) (num_classes a) (embed_dims a)
    (mlp_ratios a) (drop_rate a) (drop_path_rate a) (norm_layer a) (depths a)
    n (flag a).

(** A small instance of the constructor's arguments, with the widths of
    [van_small] and one block per stage, and the model built from it. *)
Definition sample_args : VAN_args :=
  mkVAN_args 32 3 10 [64; 128; 320; 512] [8; 8; 4; 4] 0 0
    (nn_LayerNorm (1 # 1000000)) [1; 1; 1; 1]%nat 4 false.

Definition sample_model : VAN :=
  match VAN_init sample_args with Ok m => m | Err _ => ∅ end.

(** The default arguments of [VAN.__init__] and the model [VAN()] builds
    from them ([nn.LayerNorm] has [eps = 1e-5]). *)
Definition default_args : VAN_args :=
  mkVAN_args 224 3 1000 [64; 128; 256; 512] [4; 4; 4; 4] 0 0
    (nn_LayerNorm (1 # 100000)) [3; 4; 6; 3]%nat 4 false.

Definition default_model : VAN :=
  match VAN_init default_args with Ok m => m | Err _ => ∅ end.


(** * Properties *)

(** ** Basic facts about the result monad and the constructors *)

Lemma bind_Ok {A B} (a : A) (f : A -> result B) : (Ok a ≫= f) = f a.
Proof. reflexivity. Qed.

Lemma bind_Err {A B} (e : exn) (f : A -> result B) : (Err e ≫= f) = Err e.
Proof. reflexivity. Qed.

Lemma dict_getitem_Some {V} (d : gmap Z V) k v :
  d !! k = Some v -> dict_getitem d k = Ok v.
Proof. unfold dict_getitem. by intros ->. Qed.

Lemma dict_getitem_None {V} (d : gmap Z V) k :
  d !! k = None -> dict_getitem d k = Err (KeyError k).
Proof. unfold dict_getitem. by intros ->. Qed.

Lemma nn_Conv2d_Ok name cin cout ks st pad dil g b :
  0 < g -> cin `mod` g = 0 -> cout `mod` g = 0 ->
  0 <= cin -> 0 <= cout -> 0 <= ks.1 -> 0 <= ks.2 ->
  nn_Conv2d name cin cout ks st pad dil g b
  = Ok (mkConv2d name cin cout ks st pad dil g b).
Proof.
  intros. unfold nn_Conv2d.
  repeat (case_bool_decide; [lia|]). reflexivity.
Qed.

Lemma nn_BatchNorm2d_Ok name n :
  0 <= n -> nn_BatchNorm2d name n = Ok (mkBatchNorm2d name n).
Proof. intros. unfold nn_BatchNorm2d. case_bool_decide; [lia|done]. Qed.

Lemma DWConv_table_outside layer :
  layer < 0 ∨ 3 < layer -> DWConv_table !! layer = None.
Proof.
  intros. unfold DWConv_table.
  rewrite !lookup_insert_ne by lia. apply lookup_empty.
Qed.

Lemma Attention_table_outside layer :
  layer < 0 ∨ 3 < layer -> Attention_table !! layer = None.
Proof.
  intros. unfold Attention_table.
  rewrite !lookup_insert_ne by lia. apply lookup_empty.
Qed.

Lemma PatchEmbed_table_outside layer :
  layer < 1 ∨ 3 < layer -> PatchEmbed_table !! layer = None.
Proof.
  intros. unfold PatchEmbed_table.
  rewrite !lookup_insert_ne by lia. apply lookup_empty.
Qed.

Lemma Attention_table_inv layer c h w ks :
  Attention_table !! layer = Some (c, h, w, ks) ->
  (layer = 0 ∧ (c, h, w, ks) = (16, 2, 2, 1)) ∨
  (layer = 1 ∧ (c, h, w, ks) = (8, 4, 4, 3)) ∨
  (layer = 2 ∧ (c, h, w, ks) = (5, 8, 8, 5)) ∨
  (layer = 3 ∧ (c, h, w, ks) = (2, 16, 16, 7)).
Proof.
  unfold Attention_table. intros H.
  repeat (rewrite lookup_insert in H; case_decide;
          [subst; inversion H; subst; tauto|]).
  by rewrite lookup_empty in H.
Qed.

Lemma PatchEmbed_table_inv layer c cout h w ks :
  PatchEmbed_table !! layer = Some (c, cout, h, w, ks) ->
  (layer = 1 ∧ (c, cout, h, w, ks) = (16, 8, 2, 2, 5)) ∨
  (layer = 2 ∧ (c, cout, h, w, ks) = (8, 5, 4, 4, 7)) ∨
  (layer = 3 ∧ (c, cout, h, w, ks) = (5, 2, 8, 8, 9)).
Proof.
  unfold PatchEmbed_table. intros H.
  repeat (rewrite lookup_insert in H; case_decide;
          [subst; inversion H; subst; tauto|]).
  by rewrite lookup_empty in H.
Qed.

Lemma DWConv_table_inv layer ks :
  DWConv_table !! layer = Some ks ->
  (0 <= layer <= 2 ∧ ks = 5) ∨ (layer = 3 ∧ ks = 3).
Proof.
  unfold DWConv_table. intros H.
  repeat (rewrite lookup_insert in H; case_decide;
          [subst; inversion H; subst; lia|]).
  by rewrite lookup_empty in H.
Qed.

(** C2.  The three lookup tables hold exactly the entries of the source:
    the Attention split (c,h,w,kernel) per stage, the DWConv kernel per stage
    and the OverlapPatchEmbed split (c,cout,h,w,kernel) for stages 1-3; for a
    stage index outside 0..3 none of the tables has an entry and the
    constructors of DWConv, Mlp, Attention and OverlapPatchEmbed fail (with
    the KeyError of the lookup) instead of defaulting. *)
Theorem lookup_tables_verbatim (layer : Z) (Hout : layer < 0 ∨ 3 < layer) :
  (Attention_table !! 0 = Some (16, 2, 2, 1) ∧
   Attention_table !! 1 = Some (8, 4, 4, 3) ∧
   Attention_table !! 2 = Some (5, 8, 8, 5) ∧
   Attention_table !! 3 = Some (2, 16, 16, 7)) ∧
  (DWConv_table !! 0 = Some 5 ∧ DWConv_table !! 1 = Some 5 ∧
   DWConv_table !! 2 = Some 5 ∧ DWConv_table !! 3 = Some 3) ∧
  (PatchEmbed_table !! 1 = Some (16, 8, 2, 2, 5) ∧
   PatchEmbed_table !! 2 = Some (8, 5, 4, 4, 7) ∧
   PatchEmbed_table !! 3 = Some (5, 2, 8, 8, 9)) ∧
  (Attention_table !! layer = None ∧ DWConv_table !! layer = None ∧
   PatchEmbed_table !! layer = None) ∧
  (∀ name dim, DWConv_init name dim layer = Err (KeyError layer)) ∧
  (∀ name d_model,
     ∃ e, Attention_init name d_model layer = Err e ∧
          (0 < d_model -> e = KeyError layer)) ∧
  (∀ name fin hid fout drop,
     ∃ e, Mlp_init name fin hid fout drop layer = Err e ∧
          (0 <= fin ∧ 0 <= py_or hid fin -> e = KeyError layer)) ∧
  (∀ name img_size patch_size stride in_chans embed_dim,
     OverlapPatchEmbed_init name img_size patch_size stride in_chans embed_dim layer
     = Err (KeyError layer)).
Proof.
  repeat split; try reflexivity.
  - by apply Attention_table_outside.
  - by apply DWConv_table_outside.
  - apply PatchEmbed_table_outside; lia.
  - intros. unfold DWConv_init.
    by rewrite dict_getitem_None by (by apply DWConv_table_outside).
  - intros name d. unfold Attention_init.
    destruct (nn_Conv2d (name +:+ ".proj_1") d d _ _ _ _ 1 true) as [p1|e] eqn:E1;
      [|exists e; split; [done|]; intros Hd;
        rewrite nn_Conv2d_Ok in E1 by (simpl; auto using Z.mod_1_r with lia); done].
    destruct (LKA_init _ d) as [sgu|e] eqn:E2;
      [|exists e; split; [done|]; intros Hd; unfold LKA_init in E2;
        rewrite !nn_Conv2d_Ok in E2
          by (simpl; auto using Z.mod_1_r, Z_mod_same_full with lia); done].
    destruct (nn_Conv2d (name +:+ ".proj_2") d d _ _ _ _ 1 true) as [p2|e] eqn:E3;
      [|exists e; split; [done|]; intros Hd;
        rewrite nn_Conv2d_Ok in E3 by (simpl; auto using Z.mod_1_r with lia); done].
    exists (KeyError layer). rewrite !bind_Ok.
    by rewrite dict_getitem_None by (by apply Attention_table_outside).
  - intros name fin hid fout drop. unfold Mlp_init.
    destruct (nn_Conv2d (name +:+ ".fc1") fin _ _ _ _ _ 1 true) as [p1|e] eqn:E1;
      [|exists e; split; [done|]; intros Hd;
        rewrite nn_Conv2d_Ok in E1 by (simpl; auto using Z.mod_1_r with lia); done].
    exists (KeyError layer). rewrite bind_Ok. unfold DWConv_init.
    by rewrite dict_getitem_None by (by apply DWConv_table_outside).
  - intros. unfold OverlapPatchEmbed_init.
    case_bool_decide; [lia|].
    rewrite dict_getitem_None by (apply PatchEmbed_table_outside; lia). done.
Qed.

Lemma lookup_tables_verbatim_witness :
  (4 < 0 ∨ 3 < 4) ∧
  Attention_table !! 4 = None ∧
  DWConv_init "block1.0.mlp.dwconv" 512 4 = Err (KeyError 4) ∧
  OverlapPatchEmbed_init "patch_embed5" 7 3 2 512 1024 4 = Err (KeyError 4).
Proof.
  split; [lia|].
  destruct (lookup_tables_verbatim 4 ltac:(lia))
    as (_ & _ & _ & (Ha & _) & Hd & _ & _ & Hp).
  auto.
Defined.

(** ** The channel-to-space rearrange and its inverse *)

Lemma indices_valid (s idx : list Z) : idx ∈ indices s -> valid_index s idx.
Proof.
  revert idx. induction s as [|d s IH]; intros idx; simpl.
  - intros ->%list_elem_of_singleton. constructor.
  - intros (k & Hidx & Hk)%list_elem_of_bind.
    apply elem_of_seqZ in Hk.
    apply list_elem_of_fmap in Hidx as (r & -> & Hr).
    constructor; [lia|]. by apply IH.
Qed.

Lemma to_list_ext {E} (x y : tensor E) :
  shape x = shape y ->
  (∀ idx, valid_index (shape y) idx -> data x idx = data y idx) ->
  to_list x = to_list y.
Proof.
  intros Hs Hd. unfold to_list. rewrite Hs.
  apply list_eq. intros i. rewrite !list_lookup_fmap.
  destruct (indices (shape y) !! i) as [idx|] eqn:Hi; simpl; [|done].
  f_equal. apply Hd, indices_valid. by eapply list_elem_of_lookup_2.
Qed.

Lemma split_index (k p1 p2 : Z) :
  0 < p1 -> 0 < p2 ->
  (k / (p1 * p2) * p1 + (k / p2) `mod` p1) * p2 + k `mod` p2 = k.
Proof.
  intros H1 H2.
  replace (k / (p1 * p2)) with (k / p2 / p1)
    by (rewrite Z.div_div by lia; f_equal; lia).
  pose proof (Z.div_mod (k / p2) p1 ltac:(lia)).
  pose proof (Z.div_mod k p2 ltac:(lia)).
  nia.
Qed.

Lemma tile_index (i r p : Z) :
  0 <= r < p -> (i * p + r) / p = i ∧ (i * p + r) `mod` p = r.
Proof.
  intros Hr. split.
  - rewrite Z.add_comm, Z.div_add by lia. rewrite Z.div_small by lia. lia.
  - rewrite Z.add_comm, Z.mod_add by lia. by apply Z.mod_small.
Qed.

Lemma rearrange_c2s_shape {E} (p1 p2 : Z) (x : tensor E) b c n1 n2 :
  0 < p1 -> 0 < p2 -> shape x = [b; c * p1 * p2; n1; n2] ->
  ∃ y, rearrange_c2s p1 p2 x = Ok y ∧ shape y = [b; c; n1 * p1; n2 * p2] ∧
       ∀ ib ic iy ix,
         data y [ib; ic; iy; ix]
         = data x [ib; (ic * p1 + iy `mod` p1) * p2 + ix `mod` p2; iy / p1; ix / p2].
Proof.
  intros H1 H2 Hs. unfold rearrange_c2s. rewrite Hs.
  assert (Hm : (c * p1 * p2) `mod` (p1 * p2) = 0)
    by (rewrite <- Z.mul_assoc; apply Z.mod_mul; lia).
  assert (Hd : c * p1 * p2 / (p1 * p2) = c)
    by (rewrite <- Z.mul_assoc; apply Z.div_mul; lia).
  rewrite bool_decide_true by done. rewrite Hd.
  eexists; split; [reflexivity|]. split; reflexivity.
Qed.

Lemma rearrange_s2c_shape {E} (p1 p2 : Z) (y : tensor E) b c n1 n2 :
  0 < p1 -> 0 < p2 -> shape y = [b; c; n1 * p1; n2 * p2] ->
  ∃ z, rearrange_s2c p1 p2 y = Ok z ∧ shape z = [b; c * p1 * p2; n1; n2] ∧
       ∀ ib k i1 i2,
         data z [ib; k; i1; i2]
         = data y [ib; k / (p1 * p2); i1 * p1 + (k / p2) `mod` p1; i2 * p2 + k `mod` p2].
Proof.
  intros H1 H2 Hs. unfold rearrange_s2c. rewrite Hs.
  rewrite bool_decide_true
    by (repeat split; try done; apply Z.mod_mul; lia).
  rewrite !Z.div_mul by lia.
  eexists; split; [reflexivity|]. split; reflexivity.
Qed.

(** The round trip for arbitrary positive factors. *)
Lemma rearrange_roundtrip {E} (p1 p2 : Z) (x : tensor E) b c n1 n2 :
  0 < p1 -> 0 < p2 -> shape x = [b; c * p1 * p2; n1; n2] ->
  ∃ y z, rearrange_c2s p1 p2 x = Ok y ∧ shape y = [b; c; n1 * p1; n2 * p2] ∧
         rearrange_s2c p1 p2 y = Ok z ∧ shape z = shape x ∧
         (∀ idx, valid_index (shape x) idx -> data z idx = data x idx) ∧
         to_list z = to_list x.
Proof.
  intros H1 H2 Hs.
  destruct (rearrange_c2s_shape p1 p2 x b c n1 n2) as (y & Hy & Hsy & Hdy); try done.
  destruct (rearrange_s2c_shape p1 p2 y b c n1 n2) as (z & Hz & Hsz & Hdz); try done.
  assert (Hval : ∀ idx, valid_index (shape x) idx -> data z idx = data x idx).
  { intros idx Hv. rewrite Hs in Hv.
    apply Forall2_cons_inv_l in Hv as (ib & r1 & _ & Hv & ->).
    apply Forall2_cons_inv_l in Hv as (k & r2 & _ & Hv & ->).
    apply Forall2_cons_inv_l in Hv as (i1 & r3 & _ & Hv & ->).
    apply Forall2_cons_inv_l in Hv as (i2 & r4 & _ & Hv & ->).
    apply Forall2_nil_inv_l in Hv as ->.
    rewrite Hdz, Hdy.
    pose proof (Z.mod_pos_bound (k / p2) p1 H1).
    pose proof (Z.mod_pos_bound k p2 H2).
    destruct (tile_index i1 ((k / p2) `mod` p1) p1) as [-> ->]; [done|].
    destruct (tile_index i2 (k `mod` p2) p2) as [-> ->]; [done|].
    by rewrite split_index. }
  exists y, z. repeat split; try done.
  - by rewrite Hsz, Hs.
  - apply to_list_ext; [by rewrite Hsz, Hs|done].
Qed.

(** C5.  For every stage's (c,h,w) split (the one of Attention and the one
    of OverlapPatchEmbed) and every tensor of shape (B, c*h*w, N1, N2), the
    channel-to-space rearrange yields (B, c, N1*h, N2*w) and the inverse
    rearrange applied to it gives back the shape and every element of the
    input. *)
Theorem rearrange_inverse_identity {E} (layer c h w k : Z) (x : tensor E)
    (B N1 N2 : Z)
    (Hstage : Attention_table !! layer = Some (c, h, w, k) ∨
              ∃ cout, PatchEmbed_table !! layer = Some (c, cout, h, w, k))
    (Hshape : shape x = [B; c * h * w; N1; N2]) :
  ∃ y z, rearrange_c2s h w x = Ok y ∧ shape y = [B; c; N1 * h; N2 * w] ∧
         rearrange_s2c h w y = Ok z ∧ shape z = shape x ∧
         (∀ idx, valid_index (shape x) idx -> data z idx = data x idx) ∧
         to_list z = to_list x.
Proof.
  apply rearrange_roundtrip; [| |done].
  - destruct Hstage as [H|[cout H]].
    + apply Attention_table_inv in H. intuition congruence || (simplify_eq; lia).
    + apply PatchEmbed_table_inv in H. intuition congruence || (simplify_eq; lia).
  - destruct Hstage as [H|[cout H]].
    + apply Attention_table_inv in H. intuition congruence || (simplify_eq; lia).
    + apply PatchEmbed_table_inv in H. intuition congruence || (simplify_eq; lia).
Qed.

Example rearrange_c2s_sample :
  to_list <$> rearrange_c2s 2 2 (sample_tensor [1; 4; 1; 2])
  = Ok [0; 2; 1; 3; 4; 6; 5; 7].
Proof. reflexivity. Qed.

Lemma rearrange_inverse_identity_witness :
  (Attention_table !! 0 = Some (16, 2, 2, 1) ∨
   ∃ cout, PatchEmbed_table !! 0 = Some (16, cout, 2, 2, 1)) ∧
  shape (sample_tensor [1; 64; 3; 3]) = [1; 16 * 2 * 2; 3; 3] ∧
  ∃ y z, rearrange_c2s 2 2 (sample_tensor [1; 64; 3; 3]) = Ok y ∧
         shape y = [1; 16; 3 * 2; 3 * 2] ∧
         rearrange_s2c 2 2 y = Ok z ∧ shape z = shape (sample_tensor [1; 64; 3; 3]) ∧
         (∀ idx, valid_index (shape (sample_tensor [1; 64; 3; 3])) idx ->
                 data z idx = data (sample_tensor [1; 64; 3; 3]) idx) ∧
         to_list z = to_list (sample_tensor [1; 64; 3; 3]).
Proof.
  set (x := sample_tensor [1; 64; 3; 3]).
  split; [left; reflexivity|]. split; [reflexivity|].
  apply (rearrange_inverse_identity 0 16 2 2 1 x 1 3 3);
    [left; reflexivity|reflexivity].
Defined.

(** ** Shapes of the primitives *)

Lemma nn_Conv2d_inv name cin cout ks st pad dil g b m :
  nn_Conv2d name cin cout ks st pad dil g b = Ok m ->
  m = mkConv2d name cin cout ks st pad dil g b ∧
  0 < g ∧ cin `mod` g = 0 ∧ cout `mod` g = 0 ∧ 0 <= cin ∧ 0 <= cout.
Proof.
  unfold nn_Conv2d. repeat case_bool_decide; try done.
  intros [= <-]. repeat split; lia.
Qed.

Lemma nn_BatchNorm2d_inv name n m :
  nn_BatchNorm2d name n = Ok m -> m = mkBatchNorm2d name n ∧ 0 <= n.
Proof.
  unfold nn_BatchNorm2d. case_bool_decide; [done|]. intros [= <-]. split; [done|lia].
Qed.

Lemma bind_Ok_inv {A B} (m : result A) (f : A -> result B) b :
  m ≫= f = Ok b -> ∃ a, m = Ok a ∧ f a = Ok b.
Proof. destruct m; [eauto|done]. Qed.

Lemma broadcast_rev_same s : broadcast_rev s s = Ok s.
Proof.
  induction s as [|d s IH]; [done|]. simpl. rewrite IH. simpl.
  by rewrite bool_decide_true.
Qed.

Lemma broadcast_shapes_same s : broadcast_shapes s s = Ok s.
Proof.
  unfold broadcast_shapes. rewrite broadcast_rev_same. simpl.
  by rewrite reverse_involutive.
Qed.

Lemma bidx_valid (s idx : list Z) : valid_index s idx -> bidx s idx = idx.
Proof.
  intros Hv. unfold bidx.
  rewrite (Forall2_length _ _ _ Hv), Nat.sub_diag, drop_0.
  induction Hv as [|d k s idx Hk Hv IH]; [done|]. simpl.
  rewrite IH. f_equal. case_bool_decide; lia.
Qed.

Lemma tensor_binop_same {E} (f : E -> E -> E) (x y : tensor E) :
  shape x = shape y ->
  ∃ z, tensor_binop f x y = Ok z ∧ shape z = shape x ∧
       ∀ idx, valid_index (shape x) idx -> data z idx = f (data x idx) (data y idx).
Proof.
  intros Hs. unfold tensor_binop. rewrite <- Hs, broadcast_shapes_same.
  eexists; split; [reflexivity|]. split; [done|].
  intros idx Hv. simpl. by rewrite bidx_valid.
Qed.

Section Shapes.
Context `{RT : Runtime}.

(** A convolution of stride 1 whose padding is half the dilated kernel
    extent keeps the spatial size. *)
Lemma Conv2d_forward_same (m : Conv2d) (x : tensor elt) b c h w :
  shape x = [b; c; h; w] ->
  stride m = (1, 1) -> c = in_channels m ->
  2 * (padding m).1 = (dilation m).1 * ((kernel_size m).1 - 1) ->
  2 * (padding m).2 = (dilation m).2 * ((kernel_size m).2 - 1) ->
  0 < h -> 0 < w ->
  Conv2d_forward m x = Ok (Tensor [b; out_channels m; h; w] (conv2d_data m x)).
Proof.
  intros Hs Hst Hc Hp1 Hp2 Hh Hw. unfold Conv2d_forward, Conv2d_out. rewrite Hs, Hst.
  simpl. repeat (case_bool_decide; [lia|]).
  unfold conv_out. simpl. rewrite !Z.div_1_r.
  do 2 f_equal. repeat (try lia; f_equal).
Qed.

Lemma LKA_init_inv name dim m :
  LKA_init name dim = Ok m ->
  0 < dim ∧
  m = mkLKA
        (mkConv2d (name +:+ ".conv0") dim dim (5, 5) (1, 1) (2, 2) (1, 1) dim true)
        (mkConv2d (name +:+ ".conv_spatial") dim dim (7, 7) (1, 1) (9, 9) (3, 3) dim true)
        (mkConv2d (name +:+ ".conv1") dim dim (1, 1) (1, 1) (0, 0) (1, 1) 1 true).
Proof.
  unfold LKA_init. intros H.
  apply bind_Ok_inv in H as (c0 & (-> & Hg & _)%nn_Conv2d_inv & H).
  apply bind_Ok_inv in H as (c1 & (-> & _)%nn_Conv2d_inv & H).
  apply bind_Ok_inv in H as (c2 & (-> & _)%nn_Conv2d_inv & H).
  by inversion H.
Qed.

Lemma LKA_forward_ok (name : string) (dim : Z) (m : LKA) (x : tensor elt)
    (B H W : Z)
    (Hinit : LKA_init name dim = Ok m)
    (Hshape : shape x = [B; dim; H; W]) (HH : 0 < H) (HW : 0 < W) :
  lka_conv0 m
  = mkConv2d (name +:+ ".conv0") dim dim (5, 5) (1, 1) (2, 2) (1, 1) dim true ∧
  lka_conv_spatial m
  = mkConv2d (name +:+ ".conv_spatial") dim dim (7, 7) (1, 1) (9, 9) (3, 3) dim true ∧
  lka_conv1 m
  = mkConv2d (name +:+ ".conv1") dim dim (1, 1) (1, 1) (0, 0) (1, 1) 1 true ∧
  ∃ a0 a1 attn out,
    Conv2d_forward (lka_conv0 m) x = Ok a0 ∧ shape a0 = shape x ∧
    Conv2d_forward (lka_conv_spatial m) a0 = Ok a1 ∧ shape a1 = shape x ∧
    Conv2d_forward (lka_conv1 m) a1 = Ok attn ∧ shape attn = shape x ∧
    LKA_forward m x = Ok out ∧ shape out = shape x ∧
    ∀ idx, valid_index (shape x) idx ->
           data out idx = fmul (data x idx) (data attn idx).
Proof.
  apply LKA_init_inv in Hinit as [Hdim ->]. simpl.
  do 3 (split; [reflexivity|]).
  unfold LKA_forward. simpl.
  set (c0 := mkConv2d (name +:+ ".conv0") _ _ _ _ _ _ _ _).
  set (c1 := mkConv2d (name +:+ ".conv_spatial") _ _ _ _ _ _ _ _).
  set (c2 := mkConv2d (name +:+ ".conv1") _ _ _ _ _ _ _ _).
  pose proof (Conv2d_forward_same c0 x B dim H W Hshape) as E0.
  rewrite E0 by (done || (simpl; lia)). rewrite bind_Ok.
  set (a0 := Tensor _ (conv2d_data c0 x)).
  pose proof (Conv2d_forward_same c1 a0 B dim H W eq_refl) as E1.
  rewrite E1 by (done || (simpl; lia)). rewrite bind_Ok.
  set (a1 := Tensor _ (conv2d_data c1 a0)).
  pose proof (Conv2d_forward_same c2 a1 B dim H W eq_refl) as E2.
  rewrite E2 by (done || (simpl; lia)). rewrite bind_Ok.
  set (attn := Tensor _ (conv2d_data c2 a1)).
  unfold tmul, clone.
  destruct (tensor_binop_same fmul x attn) as (out & Hout & Hso & Hdo);
    [by rewrite Hshape|].
  exists a0, a1, attn, out. rewrite Hshape in *. repeat split; try done.
  - apply E1; (done || (simpl; lia)).
  - apply E2; (done || (simpl; lia)).
Qed.

(** C9.  The Gated-Spatial Unit built for [dim] channels holds a depthwise
    5x5 convolution (padding 2, groups = dim), a depthwise 7x7 convolution
    with dilation 3 (padding 9, groups = dim) and a pointwise 1x1 convolution;
    on an input (B, dim, H, W) it applies them in that order to the input,
    each keeping the shape, and returns the elementwise product of the input
    and the result, of the shape of the input. *)
Theorem LKA_forward_spec (name : string) (dim : Z) (m : LKA) (x : tensor elt)
    (B H W : Z)
    (Hinit : LKA_init name dim = Ok m)
    (Hshape : shape x = [B; dim; H; W]) (HH : 0 < H) (HW : 0 < W) :
  lka_conv0 m
  = mkConv2d (name +:+ ".conv0") dim dim (5, 5) (1, 1) (2, 2) (1, 1) dim true ∧
  lka_conv_spatial m
  = mkConv2d (name +:+ ".conv_spatial") dim dim (7, 7) (1, 1) (9, 9) (3, 3) dim true ∧
  lka_conv1 m
  = mkConv2d (name +:+ ".conv1") dim dim (1, 1) (1, 1) (0, 0) (1, 1) 1 true ∧
  ∃ a0 a1 attn out,
    Conv2d_forward (lka_conv0 m) x = Ok a0 ∧ shape a0 = shape x ∧
    Conv2d_forward (lka_conv_spatial m) a0 = Ok a1 ∧ shape a1 = shape x ∧
    Conv2d_forward (lka_conv1 m) a1 = Ok attn ∧ shape attn = shape x ∧
    LKA_forward m x = Ok out ∧ shape out = shape x ∧
    ∀ idx, valid_index (shape x) idx ->
           data out idx = fmul (data x idx) (data attn idx).
Proof. by apply (LKA_forward_ok name dim m x B H W). Qed.

Lemma Attention_init_inv name d layer m c h w ks :
  Attention_table !! layer = Some (c, h, w, ks) ->
  Attention_init name d layer = Ok m ->
  0 < d ∧
  m = mkAttention layer
        (mkConv2d (name +:+ ".proj_1") d d (1, 1) (1, 1) (0, 0) (1, 1) 1 true)
        (mkLKA
           (mkConv2d ((name +:+ ".spatial_gating_unit") +:+ ".conv0") d d
              (5, 5) (1, 1) (2, 2) (1, 1) d true)
           (mkConv2d ((name +:+ ".spatial_gating_unit") +:+ ".conv_spatial") d d
              (7, 7) (1, 1) (9, 9) (3, 3) d true)
           (mkConv2d ((name +:+ ".spatial_gating_unit") +:+ ".conv1") d d
              (1, 1) (1, 1) (0, 0) (1, 1) 1 true))
        (mkConv2d (name +:+ ".proj_2") d d (1, 1) (1, 1) (0, 0) (1, 1) 1 true)
        c h w ks
        (mkConv2d (name +:+ ".proj_1c") c c (ks, ks) (1, 1) (ks / 2, ks / 2) (1, 1) 1 true).
Proof.
  unfold Attention_init. intros Ht H.
  apply bind_Ok_inv in H as (p1 & (-> & _)%nn_Conv2d_inv & H).
  apply bind_Ok_inv in H as (sgu & (Hd & ->)%LKA_init_inv & H).
  apply bind_Ok_inv in H as (p2 & (-> & _)%nn_Conv2d_inv & H).
  rewrite (dict_getitem_Some _ _ _ Ht), bind_Ok in H.
  apply bind_Ok_inv in H as (p1c & (-> & _)%nn_Conv2d_inv & H).
  split; [done|]. by inversion H.
Qed.

(** The successful run of [Attention.forward], step by step. *)
Lemma Attention_forward_ok (name : string) (layer c h w ks : Z) (m : Attention)
    (x : tensor elt) (B H W : Z) :
  Attention_table !! layer = Some (c, h, w, ks) ->
  Attention_init name (c * h * w) layer = Ok m ->
  shape x = [B; c * h * w; H; W] -> 0 < H -> 0 < W ->
  ∃ x1 x2 x3 p s g q out,
    rearrange_c2s h w x = Ok x1 ∧ shape x1 = [B; c; H * h; W * w] ∧
    Conv2d_forward (att_proj_1c m) x1 = Ok x2 ∧ shape x2 = [B; c; H * h; W * w] ∧
    rearrange_s2c h w x2 = Ok x3 ∧ shape x3 = shape x ∧
    Conv2d_forward (att_proj_1 m) x = Ok p ∧ shape p = shape x ∧
    tadd p x3 = Ok s ∧ shape s = shape x ∧
    (∀ idx, valid_index (shape x) idx ->
            data (thalf s) idx = fmul fhalf (fadd (data p idx) (data x3 idx))) ∧
    LKA_forward (att_spatial_gating_unit m) (nn_GELU (thalf s)) = Ok g ∧
    shape g = shape x ∧
    Conv2d_forward (att_proj_2 m) g = Ok q ∧ shape q = shape x ∧
    tadd q (clone x) = Ok out ∧
    Attention_forward m x = Ok out ∧ shape out = shape x ∧
    (∀ idx, valid_index (shape x) idx ->
            data out idx = fadd (data q idx) (data x idx)).
Proof.
  intros Ht Hinit Hs HH HW.
  destruct (Attention_init_inv _ _ _ _ _ _ _ _ Ht Hinit) as [Hd ->].
  assert (Hpos : 0 < h ∧ 0 < w ∧ 0 < c ∧ 2 * (ks / 2) = ks - 1).
  { apply Attention_table_inv in Ht.
    destruct Ht as [[_ [= -> -> -> ->]]|[[_ [= -> -> -> ->]]|
                   [[_ [= -> -> -> ->]]|[_ [= -> -> -> ->]]]]]; by compute. }
  destruct Hpos as (Hh & Hw & Hc & Hks).
  set (d := c * h * w) in *.
  unfold Attention_forward, clone. simpl.
  destruct (rearrange_c2s_shape h w x B c H W Hh Hw Hs) as (x1 & E1 & S1 & _).
  rewrite E1, bind_Ok.
  set (p1c := mkConv2d (name +:+ ".proj_1c") _ _ _ _ _ _ _ _).
  pose proof (Conv2d_forward_same p1c x1 B c (H * h) (W * w) S1) as E2.
  rewrite E2 by (done || (simpl; lia)). rewrite bind_Ok.
  set (x2 := Tensor _ (conv2d_data p1c x1)).
  destruct (rearrange_s2c_shape h w x2 B c H W Hh Hw eq_refl) as (x3 & E3 & S3 & _).
  rewrite E3, bind_Ok.
  set (p1 := mkConv2d (name +:+ ".proj_1") _ _ _ _ _ _ _ _).
  pose proof (Conv2d_forward_same p1 x B d H W Hs) as E4.
  rewrite E4 by (done || (simpl; lia)). rewrite bind_Ok.
  set (p := Tensor _ (conv2d_data p1 x)).
  destruct (tensor_binop_same fadd p x3) as (s & E5 & S5 & D5); [by rewrite S3|].
  unfold tadd. rewrite E5, bind_Ok.
  set (sgu := mkLKA _ _ _).
  destruct (LKA_forward_ok (name +:+ ".spatial_gating_unit") d sgu
              (nn_GELU (thalf s)) B H W)
    as (_ & _ & _ & a0 & a1 & attn & g & _ & _ & _ & _ & _ & _ & E6 & S6 & _);
    [|done|done|done|].
  { unfold LKA_init.
    rewrite !nn_Conv2d_Ok
      by (simpl; auto using Z.mod_1_r, Z_mod_same_full with lia). done. }
  rewrite E6, bind_Ok.
  set (p2 := mkConv2d (name +:+ ".proj_2") _ _ _ _ _ _ _ _).
  assert (S6' : shape g = [B; d; H; W]) by (rewrite S6; simpl; by rewrite S5).
  pose proof (Conv2d_forward_same p2 g B d H W S6') as E7.
  rewrite E7 by (done || (simpl; lia)). rewrite bind_Ok.
  set (q := Tensor _ (conv2d_data p2 g)).
  destruct (tensor_binop_same fadd q x) as (out & E8 & S8 & D8); [by rewrite Hs|].
  rewrite E8.
  exists x1, x2, x3, p, s, g, q, out.
  repeat split; try done.
  - by apply E2; (done || (simpl; lia)).
  - by rewrite S3, Hs.
  - by rewrite S5, Hs.
  - intros idx Hv. f_equal. apply D5. simpl. by rewrite <- Hs.
  - by rewrite S6', Hs.
  - by apply E7; (done || (simpl; lia)).
  - by rewrite S8, Hs.
  - intros idx Hv. apply D8. simpl. by rewrite <- Hs.
Qed.

(** C3.  For an input (B,C,H,W) with C = c*h*w of the stage's tuple, the
    Mixed Attention Unit keeps the input as shortcut, rearranges it to
    (B,c,H*h,W*w), applies a c-to-c convolution of kernel ks and padding
    ks/2, rearranges back to the input shape, takes 0.5 times the sum of the
    pointwise projection of the input and that branch, applies the
    activation, the Gated-Spatial Unit and one second pointwise projection
    (no second rearrange), and adds the shortcut; the output has the shape
    of the input. *)
Theorem Attention_forward_spec (name : string) (layer c h w ks : Z)
    (m : Attention) (x : tensor elt) (B H W : Z)
    (Hstage : Attention_table !! layer = Some (c, h, w, ks))
    (Hinit : Attention_init name (c * h * w) layer = Ok m)
    (Hshape : shape x = [B; c * h * w; H; W]) (HH : 0 < H) (HW : 0 < W) :
  att_proj_1c m
  = mkConv2d (name +:+ ".proj_1c") c c (ks, ks) (1, 1) (ks / 2, ks / 2) (1, 1) 1 true ∧
  att_proj_1 m
  = mkConv2d (name +:+ ".proj_1") (c * h * w) (c * h * w)
      (1, 1) (1, 1) (0, 0) (1, 1) 1 true ∧
  att_proj_2 m
  = mkConv2d (name +:+ ".proj_2") (c * h * w) (c * h * w)
      (1, 1) (1, 1) (0, 0) (1, 1) 1 true ∧
  ∃ x1 x2 x3 p s g q out,
    rearrange_c2s h w x = Ok x1 ∧ shape x1 = [B; c; H * h; W * w] ∧
    Conv2d_forward (att_proj_1c m) x1 = Ok x2 ∧ shape x2 = [B; c; H * h; W * w] ∧
    rearrange_s2c h w x2 = Ok x3 ∧ shape x3 = shape x ∧
    Conv2d_forward (att_proj_1 m) x = Ok p ∧ shape p = shape x ∧
    tadd p x3 = Ok s ∧ shape s = shape x ∧
    (∀ idx, valid_index (shape x) idx ->
            data (thalf s) idx = fmul fhalf (fadd (data p idx) (data x3 idx))) ∧
    LKA_forward (att_spatial_gating_unit m) (nn_GELU (thalf s)) = Ok g ∧
    shape g = shape x ∧
    Conv2d_forward (att_proj_2 m) g = Ok q ∧ shape q = shape x ∧
    tadd q (clone x) = Ok out ∧
    Attention_forward m x = Ok out ∧ shape out = shape x ∧
    (∀ idx, valid_index (shape x) idx ->
            data out idx = fadd (data q idx) (data x idx)).
Proof.
  pose proof (Attention_forward_ok name layer c h w ks m x B H W
                Hstage Hinit Hshape HH HW) as Hok.
  destruct (Attention_init_inv _ _ _ _ _ _ _ _ Hstage Hinit) as [_ Hm].
  rewrite Hm in *. simpl in *. auto.
Qed.

(** C7 (amended).  When the channel count C of the input differs from c*h*w
    of the stage, [Attention.forward] raises and returns nothing: the
    rearrange raises when h*w does not divide C; otherwise the rearrange
    succeeds with C/(h*w) channels, which differ from c, and the c-to-c
    convolution raises on that channel count.  No tensor is produced, so the
    channel axis is neither truncated nor padded. *)
Theorem Attention_forward_wrong_channels (name : string) (layer c h w ks d_model : Z)
    (m : Attention) (x : tensor elt) (B C H W : Z)
    (Hstage : Attention_table !! layer = Some (c, h, w, ks))
    (Hinit : Attention_init name d_model layer = Ok m)
    (Hshape : shape x = [B; C; H; W])
    (HC : C ≠ c * h * w) :
  (C `mod` (h * w) ≠ 0 ∧
   rearrange_c2s h w x = Err EinopsError ∧
   Attention_forward m x = Err EinopsError) ∨
  (C `mod` (h * w) = 0 ∧
   (∃ x1, rearrange_c2s h w x = Ok x1 ∧ shape x1 = [B; C / (h * w); H * h; W * w]) ∧
   Attention_forward m x = Err (RuntimeError (ChannelMismatch c (C / (h * w))))).
Proof.
  destruct (Attention_init_inv _ _ _ _ _ _ _ _ Hstage Hinit) as [Hd ->].
  assert (Hpos : 0 < h ∧ 0 < w).
  { apply Attention_table_inv in Hstage.
    destruct Hstage as [[_ [= -> -> -> ->]]|[[_ [= -> -> -> ->]]|
                       [[_ [= -> -> -> ->]]|[_ [= -> -> -> ->]]]]]; by compute. }
  destruct Hpos as [Hh Hw].
  unfold Attention_forward, clone. simpl.
  unfold rearrange_c2s. rewrite Hshape.
  destruct (decide (C `mod` (h * w) = 0)) as [Hm|Hm].
  - right. rewrite bool_decide_true by done. rewrite bind_Ok.
    split; [done|]. split; [eauto|].
    unfold Conv2d_forward. simpl.
    case_bool_decide as Hq; [done|]. exfalso. apply HC.
    assert (Hq' : C / (h * w) = c)
      by (destruct (decide (C / (h * w) = c)); [done|by destruct Hq]).
    rewrite (Z.div_mod C (h * w)) by lia. rewrite Hq', Hm. lia.
  - left. rewrite bool_decide_false by tauto. done.
Qed.

(** ** Stateful layers *)

Lemma BatchNorm2d_forward_ok (m : BatchNorm2d) (training : bool) (x : tensor elt)
    (st : state) b c h w :
  shape x = [b; c; h; w] -> c = num_features m ->
  (training = true -> b * h * w ≠ 1) ->
  BatchNorm2d_forward m training x st
  = (Ok (Tensor (shape x)
           (if training then bn_train_data m x else bn_eval_data m (buf st) x)),
     if training then mkState (rng st) (bn_train_buf m x (buf st)) else st).
Proof.
  intros Hs Hc Ht. unfold BatchNorm2d_forward. rewrite Hs.
  destruct training; simpl.
  - rewrite bool_decide_false by auto. by rewrite bool_decide_false by auto.
  - by rewrite bool_decide_false by auto.
Qed.

Lemma DWConv_init_inv name dim layer m :
  DWConv_init name dim layer = Ok m ->
  ∃ ks, DWConv_table !! layer = Some ks ∧ 0 < dim ∧ 2 * (ks / 2) = ks - 1 ∧
        m = mkDWConv ks (mkConv2d (name +:+ ".dwconv") dim dim (ks, ks) (1, 1)
                           (ks / 2, ks / 2) (1, 1) dim true).
Proof.
  unfold DWConv_init, dict_getitem. intros H.
  destruct (DWConv_table !! layer) as [ks|] eqn:Hk; [|done].
  rewrite bind_Ok in H.
  apply bind_Ok_inv in H as (cv & (-> & Hg & _)%nn_Conv2d_inv & H).
  exists ks. split; [done|]. split; [done|]. split; [|by inversion H].
  apply DWConv_table_inv in Hk as [[_ ->]|[_ ->]]; by compute.
Qed.

Lemma Mlp_init_inv name fin hid fout drop layer m :
  Mlp_init name fin hid fout drop layer = Ok m ->
  ∃ ks, DWConv_table !! layer = Some ks ∧ 0 < py_or hid fin ∧
        2 * (ks / 2) = ks - 1 ∧
        m = mkMlp
              (mkConv2d (name +:+ ".fc1") fin (py_or hid fin)
                 (1, 1) (1, 1) (0, 0) (1, 1) 1 true)
              (mkDWConv ks
                 (mkConv2d ((name +:+ ".dwconv") +:+ ".dwconv")
                    (py_or hid fin) (py_or hid fin) (ks, ks) (1, 1)
                    (ks / 2, ks / 2) (1, 1) (py_or hid fin) true))
              (mkConv2d (name +:+ ".fc2") (py_or hid fin) (py_or fout fin)
                 (1, 1) (1, 1) (0, 0) (1, 1) 1 true)
              (mkDropout drop) layer
              (if bool_decide (1 < layer)
               then Some (mkBatchNorm2d (name +:+ ".norm1") (py_or hid fin))
               else None)
              (mkBatchNorm2d (name +:+ ".norm2") (py_or hid fin)).
Proof.
  unfold Mlp_init. intros H.
  apply bind_Ok_inv in H as (fc1 & (-> & _)%nn_Conv2d_inv & H).
  apply bind_Ok_inv in H as (dw & (ks & Hk & Hh & Hks & ->)%DWConv_init_inv & H).
  apply bind_Ok_inv in H as (fc2 & (-> & _)%nn_Conv2d_inv & H).
  apply bind_Ok_inv in H as (dr & Hdr & H).
  unfold nn_Dropout in Hdr. destruct (_ && _); [|done]. injection Hdr as <-.
  exists ks. repeat (split; [done|]).
  case_bool_decide.
  - apply bind_Ok_inv in H as (n1 & Hn1 & H).
    apply bind_Ok_inv in Hn1 as (n1' & (-> & _)%nn_BatchNorm2d_inv & [= <-]).
    apply bind_Ok_inv in H as (n2 & (-> & _)%nn_BatchNorm2d_inv & H).
    by inversion H.
  - rewrite bind_Ok in H.
    apply bind_Ok_inv in H as (n2 & (-> & _)%nn_BatchNorm2d_inv & H).
    by inversion H.
Qed.

(** C6.  The Feed-Forward Unit on (B,C,H,W): pointwise conv1 from C to the
    hidden width; for a stage index above 1 batch-normalization and the
    activation, for stages 0 and 1 neither; the Depthwise Separable Unit on
    the hidden width, which is the convolution of the stage's kernel ks,
    padding ks/2 and one group per channel applied to the tensor (its result
    is that convolution's output, of the same shape);
    batch-normalization and activation; pointwise conv2 to the output width;
    dropout.  The output is (B,out,H,W), which is (B,C,H,W) when
    [out_features] is left to its default. *)
Theorem Mlp_forward_spec (name : string) (C : Z) (hid fout : option Z) (drop : Q)
    (layer : Z) (m : Mlp) (training : bool) (st : state) (x : tensor elt)
    (B H W : Z)
    (Hinit : Mlp_init name C hid fout drop layer = Ok m)
    (Hshape : shape x = [B; C; H; W]) (HH : 0 < H) (HW : 0 < W)
    (Htrain : training = true -> B * H * W ≠ 1) :
  let hidden := py_or hid C in
  let out := py_or fout C in
  mlp_fc1 m
  = mkConv2d (name +:+ ".fc1") C hidden (1, 1) (1, 1) (0, 0) (1, 1) 1 true ∧
  (∃ ks, DWConv_table !! layer = Some ks ∧
         dw_dwconv (mlp_dwconv m)
         = mkConv2d ((name +:+ ".dwconv") +:+ ".dwconv") hidden hidden (ks, ks)
             (1, 1) (ks / 2, ks / 2) (1, 1) hidden true) ∧
  mlp_fc2 m
  = mkConv2d (name +:+ ".fc2") hidden out (1, 1) (1, 1) (0, 0) (1, 1) 1 true ∧
  mlp_norm1 m
  = (if bool_decide (1 < layer)
     then Some (mkBatchNorm2d (name +:+ ".norm1") hidden) else None) ∧
  mlp_norm2 m = mkBatchNorm2d (name +:+ ".norm2") hidden ∧
  ∃ a1 a2 st1 d n st2 f y st3,
    Conv2d_forward (mlp_fc1 m) x = Ok a1 ∧ shape a1 = [B; hidden; H; W] ∧
    (if bool_decide (1 < layer)
     then ∃ bn n1, mlp_norm1 m = Some bn ∧
                   BatchNorm2d_forward bn training a1 st = (Ok n1, st1) ∧
                   a2 = nn_GELU n1
     else a2 = a1 ∧ st1 = st) ∧
    DWConv_forward (mlp_dwconv m) a2 = Ok d ∧ shape d = [B; hidden; H; W] ∧
    Conv2d_forward (dw_dwconv (mlp_dwconv m)) a2 = Ok d ∧
    d = Tensor [B; hidden; H; W] (conv2d_data (dw_dwconv (mlp_dwconv m)) a2) ∧
    BatchNorm2d_forward (mlp_norm2 m) training d st1 = (Ok n, st2) ∧
    Conv2d_forward (mlp_fc2 m) (nn_GELU n) = Ok f ∧ shape f = [B; out; H; W] ∧
    Dropout_forward (mlp_drop m) training f st2 = (Ok y, st3) ∧
    shape y = [B; out; H; W] ∧
    Mlp_forward m training x st = (Ok y, st3) ∧
    (fout = None -> shape y = shape x).
Proof.
  intros hidden out.
  apply Mlp_init_inv in Hinit as (ks & Hk & Hhid & Hks & ->). simpl.
  fold hidden. fold out.
  split; [done|]. split; [eauto|]. do 3 (split; [done|]).
  set (fc1 := mkConv2d (name +:+ ".fc1") _ _ _ _ _ _ _ _).
  set (dw := mkConv2d ((name +:+ ".dwconv") +:+ ".dwconv") _ _ _ _ _ _ _ _).
  set (fc2 := mkConv2d (name +:+ ".fc2") _ _ _ _ _ _ _ _).
  set (bn1 := mkBatchNorm2d (name +:+ ".norm1") hidden).
  set (bn2 := mkBatchNorm2d (name +:+ ".norm2") hidden).
  pose proof (Conv2d_forward_same fc1 x B C H W Hshape eq_refl eq_refl
                ltac:(simpl; lia) ltac:(simpl; lia) HH HW) as E1.
  set (a1 := Tensor [B; out_channels fc1; H; W] (conv2d_data fc1 x)) in E1.
  (* the stage-conditional normalization *)
  assert (Hmid : ∃ a2 st1,
    shape a2 = [B; hidden; H; W] ∧
    (if bool_decide (1 < layer)
     then ∃ bn n1, Some bn1 = Some bn ∧
                   BatchNorm2d_forward bn training a1 st = (Ok n1, st1) ∧
                   a2 = nn_GELU n1
     else a2 = a1 ∧ st1 = st) ∧
    ∀ (k : tensor elt -> M (tensor elt)),
      ((if bool_decide (1 < layer) then
          x ← lift (Conv2d_forward fc1 x);
          norm1 ← lift (req "norm1"
                          (if bool_decide (1 < layer) then Some bn1 else None));
          x ← BatchNorm2d_forward norm1 training x;
          mret (nn_GELU x)
        else lift (Conv2d_forward fc1 x)) ≫= k) st = k a2 st1).
  { case_bool_decide as Hl.
    - pose proof (BatchNorm2d_forward_ok bn1 training a1 st B hidden H W
                    eq_refl eq_refl Htrain) as Eb.
      eexists _, _. split; [|split; [eexists _, _; split; [done|split; [exact Eb|done]]|]].
      + done.
      + intros k. unfold mbind, M_bind, lift, mret, M_ret.
        rewrite E1. simpl. fold a1. by rewrite Eb.
    - exists a1, st. split; [done|]. split; [done|].
      intros k. unfold mbind, M_bind, lift. by rewrite E1. }
  destruct Hmid as (a2 & st1 & S2 & Hcase & Hrun).
  pose proof (Conv2d_forward_same dw a2 B hidden H W S2 eq_refl eq_refl
                ltac:(simpl; lia) ltac:(simpl; lia) HH HW) as E3.
  set (d := Tensor [B; out_channels dw; H; W] (conv2d_data dw a2)) in E3.
  pose proof (BatchNorm2d_forward_ok bn2 training d st1 B hidden H W
                eq_refl eq_refl Htrain) as E4.
  set (n := Tensor (shape d) _) in E4. set (st2 := if training then _ else st1) in E4.
  pose proof (Conv2d_forward_same fc2 (nn_GELU n) B hidden H W eq_refl eq_refl eq_refl
                ltac:(simpl; lia) ltac:(simpl; lia) HH HW) as E5.
  set (f := Tensor [B; out_channels fc2; H; W] _) in E5.
  exists a1, a2, st1, d, n, st2, f.
  destruct (Dropout_forward (mkDropout drop) training f st2) as [ry st3] eqn:E6.
  assert (Hy : ∃ y, ry = Ok y ∧ shape y = [B; out; H; W]).
  { unfold Dropout_forward in E6. destruct training; inversion E6; eauto. }
  destruct Hy as (y & -> & Sy).
  exists y, st3. repeat split; try done.
  - revert Hcase. by case_bool_decide.
  - unfold Mlp_forward.
    cbn [mlp_layer mlp_fc1 mlp_norm1 mlp_dwconv mlp_norm2 mlp_fc2 mlp_drop].
    rewrite Hrun.
    unfold mbind, M_bind, lift, mret, M_ret, DWConv_forward. simpl.
    rewrite E3. fold d. rewrite E4. fold n. rewrite E5. by rewrite E6.
  - intros ->. by rewrite Sy, Hshape.
Qed.

(** ** The overlapping patch embedding, stages 1-3 *)

Lemma tensor_binop_batch {E} (f : E -> E -> E) (x y : tensor E) b c h w :
  shape x = [b; c; h; w] -> shape y = [1; c; h; w] ->
  ∃ z, tensor_binop f x y = Ok z ∧ shape z = [b; c; h; w] ∧
       ∀ ib ic iy ix,
         valid_index [b; c; h; w] [ib; ic; iy; ix] ->
         data z [ib; ic; iy; ix]
         = f (data x [ib; ic; iy; ix]) (data y [0; ic; iy; ix]).
Proof.
  intros Hx Hy. unfold tensor_binop, broadcast_shapes. rewrite Hx, Hy.
  assert (Hb : broadcast_rev (reverse [b; c; h; w]) (reverse [1; c; h; w])
               = Ok (reverse [b; c; h; w])).
  { cbn. rewrite !bool_decide_true by done. cbn.
    repeat case_bool_decide; try done; congruence. }
  rewrite Hb. cbn [fmap result_fmap]. rewrite reverse_involutive, bind_Ok.
  eexists; split; [reflexivity|]. split; [reflexivity|].
  intros ib ic iy ix Hv. cbn [data].
  rewrite bidx_valid by done.
  assert (Hv' : valid_index [c; h; w] [ic; iy; ix]) by (by inversion Hv).
  pose proof (bidx_valid _ _ Hv') as Hb'.
  unfold bidx in *. cbn in *. by rewrite Hb'.
Qed.

Lemma OverlapPatchEmbed_init_inv name img patch st inc emb layer c cout h w ks m :
  PatchEmbed_table !! layer = Some (c, cout, h, w, ks) ->
  OverlapPatchEmbed_init name img patch st inc emb layer = Ok m ->
  st ≠ 0 ∧
  m = mkOverlapPatchEmbed img layer None
        (mkConv2d (name +:+ ".proj2") c cout (ks, ks) (1, 1) (ks / 2, ks / 2)
           (1, 1) 1 true)
        None (mkBatchNorm2d (name +:+ ".norm2") cout)
        c (Some cout) h w (Some ks) (img / st) (img / st)
        (<["pos_embed" +:+ pretty (layer + 1) :=
             mkParam (name +:+ ".pos_embed" +:+ pretty (layer + 1))
               [1; cout; h * 2; w * 2]]> ∅).
Proof.
  intros Ht. unfold OverlapPatchEmbed_init.
  assert (layer ≠ 0) as Hl.
  { intros ->. by rewrite PatchEmbed_table_outside in Ht by lia. }
  rewrite bool_decide_false by done.
  rewrite (dict_getitem_Some _ _ _ Ht), bind_Ok. intros H.
  apply bind_Ok_inv in H as (p2 & (-> & _)%nn_Conv2d_inv & H).
  apply bind_Ok_inv in H as (n2 & (-> & _)%nn_BatchNorm2d_inv & H).
  unfold floordiv in H. case_bool_decide as Hst; [done|].
  rewrite !bind_Ok in H.
  apply bind_Ok_inv in H as (pos & Hpos & H).
  unfold nn_Parameter in Hpos. case_bool_decide; [|done]. injection Hpos as <-.
  split; [done|]. by inversion H.
Qed.

(** C4.  For stages 1-3 the Overlapping Patch Embedding rearranges the
    incoming (B, c*h*w, N1, N2) tensor to (B, c, N1*h, N2*w) with the stage's
    (c,h,w), applies a convolution from c to cout channels with the stage's
    kernel, adds the positional bias of shape (1, cout, 2h, 2w) tiled by
    [repeat] over the feature map, normalizes, and rearranges forward with
    the factors (h*2, w*2): the result is (B, cout*2h*2w, N1/2, N2/2). *)
Theorem OverlapPatchEmbed_forward_spec (name : string)
    (img patch st inc emb layer c cout h w ks : Z) (m : OverlapPatchEmbed)
    (training : bool) (s0 : state) (x : tensor elt) (B N1 N2 : Z)
    (Hstage : PatchEmbed_table !! layer = Some (c, cout, h, w, ks))
    (Hinit : OverlapPatchEmbed_init name img patch st inc emb layer = Ok m)
    (Hshape : shape x = [B; c * h * w; N1; N2])
    (HN1 : N1 = 2 * pe_H m) (HN2 : N2 = 2 * pe_W m)
    (Hpos1 : 0 < N1) (Hpos2 : 0 < N2)
    (Htrain : training = true -> B * (N1 * h) * (N2 * w) ≠ 1) :
  1 <= layer <= 3 ∧
  pe_proj2 m
  = mkConv2d (name +:+ ".proj2") c cout (ks, ks) (1, 1) (ks / 2, ks / 2) (1, 1) 1 true ∧
  ∃ x1 p pos r s n s1 out,
    rearrange_c2s h w x = Ok x1 ∧ shape x1 = [B; c; N1 * h; N2 * w] ∧
    Conv2d_forward (pe_proj2 m) x1 = Ok p ∧ shape p = [B; cout; N1 * h; N2 * w] ∧
    pe_params m !! ("pos_embed" +:+ pretty (layer + 1)) = Some pos ∧
    p_shape pos = [1; cout; h * 2; w * 2] ∧
    tensor_repeat [1; 1; pe_H m; pe_W m] (param_tensor pos) = Ok r ∧
    shape r = [1; cout; N1 * h; N2 * w] ∧
    tadd p r = Ok s ∧ shape s = shape p ∧
    (∀ ib ic iy ix,
       valid_index (shape p) [ib; ic; iy; ix] ->
       data s [ib; ic; iy; ix]
       = fadd (data p [ib; ic; iy; ix])
              (param_data pos [0; ic `mod` cout; iy `mod` (h * 2); ix `mod` (w * 2)])) ∧
    BatchNorm2d_forward (pe_norm2 m) training s s0 = (Ok n, s1) ∧
    shape n = shape p ∧
    rearrange_s2c (h * 2) (w * 2) n = Ok out ∧
    shape out = [B; cout * (h * 2) * (w * 2); N1 / 2; N2 / 2] ∧
    2 * (N1 / 2) = N1 ∧ 2 * (N2 / 2) = N2 ∧
    OverlapPatchEmbed_forward m training x s0 = (Ok (out, N1 / 2, N2 / 2), s1).
Proof.
  destruct (OverlapPatchEmbed_init_inv _ _ _ _ _ _ _ _ _ _ _ _ _ Hstage Hinit)
    as [Hst ->].
  cbn [pe_H pe_W pe_proj2 pe_params pe_norm2] in *.
  set (Hh := img / st) in *.
  assert (Hfacts : 1 <= layer <= 3 ∧ 0 < h ∧ 0 < w ∧ 0 < cout ∧
                   2 * (ks / 2) = ks - 1).
  { apply PatchEmbed_table_inv in Hstage.
    destruct Hstage as [[-> [= -> -> -> -> ->]]|[[-> [= -> -> -> -> ->]]|
                       [-> [= -> -> -> -> ->]]]]; by compute. }
  destruct Hfacts as (Hl & Hh0 & Hw0 & Hc0 & Hks).
  split; [done|]. split; [done|].
  assert (Hd1 : N1 / 2 = Hh) by (rewrite HN1, Z.mul_comm; apply Z.div_mul; lia).
  assert (Hd2 : N2 / 2 = Hh) by (rewrite HN2, Z.mul_comm; apply Z.div_mul; lia).
  rewrite Hd1, Hd2.
  destruct (rearrange_c2s_shape h w x B c N1 N2 Hh0 Hw0 Hshape) as (x1 & E1 & S1 & _).
  set (proj2 := mkConv2d (name +:+ ".proj2") _ _ _ _ _ _ _ _).
  pose proof (Conv2d_forward_same proj2 x1 B c (N1 * h) (N2 * w) S1 eq_refl eq_refl
                ltac:(simpl; lia) ltac:(simpl; lia) ltac:(lia) ltac:(lia)) as E2.
  set (p := Tensor [B; out_channels proj2; N1 * h; N2 * w] _) in E2.
  set (pname := "pos_embed" +:+ pretty (layer + 1)).
  set (pos := mkParam (name +:+ ".pos_embed" +:+ pretty (layer + 1)) _).
  assert (E3 : tensor_repeat [1; 1; Hh; Hh] (param_tensor pos)
               = Ok (Tensor [1; cout; N1 * h; N2 * w]
                       (fun idx => param_data pos (zip_with Z.modulo idx (p_shape pos))))).
  { unfold tensor_repeat. cbn.
    case_bool_decide; [done|].
    case_bool_decide as He;
      [exfalso; revert He; rewrite !Exists_cons, Exists_nil; lia|].
    do 2 f_equal. rewrite Z.mul_1_r. repeat (f_equal; try lia). }
  set (r := Tensor [1; cout; N1 * h; N2 * w] _) in E3.
  destruct (tensor_binop_batch fadd p r B cout (N1 * h) (N2 * w) eq_refl eq_refl)
    as (s & E4 & S4 & D4).
  pose proof (BatchNorm2d_forward_ok (mkBatchNorm2d (name +:+ ".norm2") cout)
                training s s0 B cout (N1 * h) (N2 * w) S4 eq_refl Htrain) as E5.
  set (n := Tensor (shape s) _) in E5. set (s1 := if training then _ else s0) in E5.
  assert (S5 : shape n = [B; cout; Hh * (h * 2); Hh * (w * 2)]).
  { unfold n. cbn [shape]. rewrite S4. repeat (f_equal; try lia). }
  destruct (rearrange_s2c_shape (h * 2) (w * 2) n B cout Hh Hh
              ltac:(lia) ltac:(lia) S5) as (out & E6 & S6 & _).
  exists x1, p, pos, r, s, n, s1, out.
  repeat split; try done.
  - apply lookup_insert_eq.
  - unfold OverlapPatchEmbed_forward, pos_embed_repeat.
    cbn [pe_layer pe_h pe_w pe_proj2 pe_params pe_norm2 pe_H pe_W].
    rewrite bool_decide_false by lia.
    unfold mbind, M_bind, lift. rewrite E1, E2.
    fold pname. rewrite lookup_insert_eq. cbn [req result_bind].
    fold pos. rewrite E3. unfold tadd. rewrite E4, E5, E6.
    unfold shape_HW. rewrite S6. reflexivity.
Qed.

End Shapes.

Lemma Attention_forward_wrong_channels_witness :
  Attention_table !! 0 = Some (16, 2, 2, 1) ∧
  shape (sample_tensor [2; 30; 4; 4]) = [2; 30; 4; 4] ∧
  30 ≠ 16 * 2 * 2 ∧
  ∃ m, Attention_init "attn" 64 0 = Ok m ∧
       Attention_forward (RT := ZRuntime) m (sample_tensor [2; 30; 4; 4]) = Err EinopsError.
Proof.
  set (x := sample_tensor [2; 30; 4; 4]).
  split; [reflexivity|]. split; [reflexivity|]. split; [lia|].
  eexists.
  assert (Hinit : Attention_init "attn" 64 0 = Ok ?[m]) by reflexivity.
  split; [exact Hinit|].
  destruct (Attention_forward_wrong_channels (RT := ZRuntime) "attn" 0 16 2 2 1 64 _ x
              2 30 4 4 eq_refl Hinit eq_refl ltac:(lia))
    as [(_ & _ & Hf)|(Hm & _)]; [exact Hf|discriminate Hm].
Defined.

(** C7 as the specification states it does not hold: with 32
    channels at stage 0 (where c*h*w = 64) the rearrange succeeds, yielding 8
    channels, and the error is the channel check of the convolution. *)
Lemma Attention_rearrange_accepts_other_width :
  Attention_table !! 0 = Some (16, 2, 2, 1) ∧ 32 ≠ 16 * 2 * 2 ∧
  ∃ m x1, Attention_init "block1.0.attn" 32 0 = Ok m ∧
          rearrange_c2s (att_h m) (att_w m) (sample_tensor [2; 32; 56; 56]) = Ok x1 ∧
          shape x1 = [2; 8; 112; 112] ∧
          Attention_forward (RT := ZRuntime) m (sample_tensor [2; 32; 56; 56])
          = Err (RuntimeError (ChannelMismatch 16 8)).
Proof.
  set (x := sample_tensor [2; 32; 56; 56]).
  split; [reflexivity|]. split; [lia|].
  eexists. eexists. split; [reflexivity|]. split; [reflexivity|].
  split; reflexivity.
Qed.

Lemma Attention_forward_spec_witness :
  Attention_table !! 0 = Some (16, 2, 2, 1) ∧
  shape (sample_tensor [1; 64; 3; 3]) = [1; 16 * 2 * 2; 3; 3] ∧ 0 < 3 ∧
  ∃ m out, Attention_init "attn" (16 * 2 * 2) 0 = Ok m ∧
           Attention_forward (RT := ZRuntime) m (sample_tensor [1; 64; 3; 3]) = Ok out ∧
           shape out = shape (sample_tensor [1; 64; 3; 3]).
Proof.
  set (x := sample_tensor [1; 64; 3; 3]).
  split; [reflexivity|]. split; [reflexivity|]. split; [lia|].
  eexists. 
  assert (Hinit : Attention_init "attn" (16 * 2 * 2) 0 = Ok ?[m]) by reflexivity.
  destruct (Attention_forward_spec (RT := ZRuntime) "attn" 0 16 2 2 1 _ x 1 3 3
              eq_refl Hinit eq_refl ltac:(lia) ltac:(lia))
    as (_ & _ & _ & x1 & x2 & x3 & p & s & g & q & out & Hrest).
  exists out. split; [exact Hinit|].
  destruct Hrest as (_ & _ & _ & _ & _ & _ & _ & _ & _ & _ & _ & _ & _ & _ & _ & _ & Hf & Hs & _).
  split; assumption.
Defined.

(** ** Evaluation mode *)

Section Eval.
Context `{RT : Runtime}.

Lemma eval_pure_ret {A} (a : A) : eval_pure (mret a).
Proof. by intros st. Qed.

Lemma eval_pure_lift {A} (r : result A) : eval_pure (lift r).
Proof. by intros st. Qed.

Lemma eval_pure_bind {A B} (m : M A) (k : A -> M B) :
  eval_pure m -> (∀ a, eval_pure (k a)) -> eval_pure (m ≫= k).
Proof.
  intros Hm Hk st. unfold mbind, M_bind.
  destruct (Hm st) as [Hst Hr].
  destruct (m st) as [r st1] eqn:E. simpl in Hst. subst st1.
  split.
  - destruct r as [a|e]; [apply Hk|done].
  - intros st' Hb. specialize (Hr st' Hb).
    destruct (Hm st') as [Hst' _].
    destruct (m st') as [r' st1'] eqn:E'. simpl in *. subst st1' r'.
    destruct r as [a|e]; [by apply Hk|done].
Qed.

Lemma eval_pure_if {A} (b : bool) (m1 m2 : M A) :
  eval_pure m1 -> eval_pure m2 -> eval_pure (if b then m1 else m2).
Proof. by destruct b. Qed.

Lemma BatchNorm2d_forward_eval m x : eval_pure (BatchNorm2d_forward m false x).
Proof.
  intros st. unfold BatchNorm2d_forward.
  destruct (shape x) as [|b [|c [|h [|w [|? ?]]]]]; simpl; try done.
  case_bool_decide; [done|]. split; [done|]. by intros st' ->.
Qed.

Lemma Dropout_forward_eval m x st : Dropout_forward m false x st = (Ok x, st).
Proof. reflexivity. Qed.

Lemma DropPath_forward_eval m x st : DropPath_forward m false x st = (Ok x, st).
Proof.
  unfold DropPath_forward. destruct m as [p|]; [|done].
  by rewrite orb_true_r.
Qed.

Lemma Dropout_forward_pure m x : eval_pure (Dropout_forward m false x).
Proof. by intros st. Qed.

Lemma DropPath_forward_pure m x : eval_pure (DropPath_forward m false x).
Proof.
  intros st. rewrite DropPath_forward_eval. split; [done|].
  intros st' _. by rewrite DropPath_forward_eval.
Qed.

Create HintDb eval_pure.
#[local] Hint Resolve eval_pure_ret eval_pure_lift BatchNorm2d_forward_eval
  Dropout_forward_pure DropPath_forward_pure : eval_pure.

Ltac eval_pure_step :=
  repeat first
    [ apply eval_pure_bind; [|intros ?]
    | apply eval_pure_if
    | solve [auto with eval_pure] ].

Lemma Mlp_forward_eval m x : eval_pure (Mlp_forward m false x).
Proof. unfold Mlp_forward. eval_pure_step. Qed.

Lemma Block_forward_eval m x : eval_pure (Block_forward m false x).
Proof. unfold Block_forward. eval_pure_step. Qed.

Lemma blocks_forward_eval l x : eval_pure (blocks_forward l false x).
Proof.
  revert x. induction l as [|b l IH]; intros x; simpl.
  - apply eval_pure_ret.
  - apply eval_pure_bind; [apply Block_forward_eval|done].
Qed.

Lemma OverlapPatchEmbed_forward_eval m x :
  eval_pure (OverlapPatchEmbed_forward m false x).
Proof.
  unfold OverlapPatchEmbed_forward.
  apply eval_pure_bind; [eval_pure_step|intros y].
  apply eval_pure_bind; [apply eval_pure_lift|intros [H W]].
  apply eval_pure_ret.
Qed.

Lemma stage_forward_eval self ns B i x :
  eval_pure (stage_forward self ns B false i x).
Proof.
  unfold stage_forward.
  do 3 (apply eval_pure_bind; [apply eval_pure_lift|intros ?]).
  destruct a as [| | |pe| | | |]; try apply eval_pure_lift.
  destruct a0 as [| | | |bl| | |]; try apply eval_pure_lift.
  destruct a1 as [| | | | |nm| |]; try apply eval_pure_lift.
  apply eval_pure_bind; [apply OverlapPatchEmbed_forward_eval|].
  intros [[y H] W].
  apply eval_pure_bind; [apply blocks_forward_eval|intros ?].
  eval_pure_step.
Qed.

Lemma stages_forward_eval self ns B l x :
  eval_pure (stages_forward self ns B false l x).
Proof.
  revert x. induction l as [|i l IH]; intros x; simpl.
  - apply eval_pure_ret.
  - apply eval_pure_bind; [apply stage_forward_eval|done].
Qed.

Lemma VAN_forward_eval self x : eval_pure (VAN_forward self false x).
Proof.
  unfold VAN_forward, VAN_forward_features.
  apply eval_pure_bind.
  - apply eval_pure_bind; [apply eval_pure_lift|intros B].
    apply eval_pure_bind; [apply eval_pure_lift|intros ns].
    destruct ns; try apply eval_pure_lift.
    apply eval_pure_bind; [apply stages_forward_eval|intros ?].
    apply eval_pure_lift.
  - intros y. apply eval_pure_bind; [apply eval_pure_lift|intros hd].
    destruct hd as [| | | | | |[l|]|]; auto with eval_pure.
Qed.

(** C8.  In evaluation mode DropPath and dropout return their input and
    leave the runtime state alone; a forward call of the model leaves the
    state (random generator and batch-norm buffers) unchanged, its outcome
    does not depend on the random generator, and two successive calls on the
    same input return the same outcome. *)
Theorem eval_forward_deterministic (self : VAN) (x : tensor elt) (st : state)
    (rng' : Rng) :
  (∀ dp y s, DropPath_forward dp false y s = (Ok y, s)) ∧
  (∀ d y s, Dropout_forward d false y s = (Ok y, s)) ∧
  ∃ r, VAN_forward self false x st = (r, st) ∧
       VAN_forward self false x (mkState rng' (buf st)) = (r, mkState rng' (buf st)) ∧
       two_calls self false x st = (r, r).
Proof.
  split; [apply DropPath_forward_eval|]. split; [apply Dropout_forward_eval|].
  destruct (VAN_forward_eval self x st) as [Hst Hr].
  destruct (VAN_forward_eval self x (mkState rng' (buf st))) as [Hst' _].
  specialize (Hr (mkState rng' (buf st)) eq_refl).
  destruct (VAN_forward self false x st) as [r s1] eqn:E1.
  destruct (VAN_forward self false x (mkState rng' (buf st))) as [r' s2] eqn:E2.
  simpl in *. subst s1 s2 r'.
  exists r. split; [done|]. split; [done|].
  unfold two_calls. by rewrite !E1.
Qed.

End Eval.

(** ** The classifier head *)

Lemma foldM_inv {A S} (P : S -> Prop) (f : A -> S -> result S) l s s' :
  (∀ a s s', P s -> f a s = Ok s' -> P s') ->
  P s -> foldM f l s = Ok s' -> P s'.
Proof.
  intros Hf. revert s. induction l as [|a l IH]; intros s Hs; simpl.
  - by intros [= <-].
  - intros (s1 & H1 & H2)%bind_Ok_inv. eauto.
Qed.

Lemma VAN_init_stage_embed_dim a dpr i acc acc' :
  acc.1 !! "embed_dim" = None ->
  VAN_init_stage a dpr i acc = Ok acc' ->
  acc'.1 !! "embed_dim" = None.
Proof.
  destruct acc as [self cur]. unfold VAN_init_stage. simpl. intros Hs H.
  apply bind_Ok_inv in H as (prev & _ & H).
  apply bind_Ok_inv in H as (dim & _ & H).
  apply bind_Ok_inv in H as (pe & _ & H).
  apply bind_Ok_inv in H as (depth & _ & H).
  apply bind_Ok_inv in H as (block & _ & H).
  apply bind_Ok_inv in H as (norm & _ & H).
  injection H as <-. simpl.
  by rewrite !lookup_insert_ne by done.
Qed.

Lemma VAN_init_no_embed_dim a m : VAN_init a = Ok m -> m !! "embed_dim" = None.
Proof.
  unfold VAN_init. intros H.
  apply bind_Ok_inv in H as ([self cur] & Hloop & H).
  apply bind_Ok_inv in H as (head & _ & H). injection H as <-.
  rewrite lookup_insert_ne by done.
  apply (foldM_inv (fun acc : VAN * nat => acc.1 !! "embed_dim" = None)) in Hloop;
    [done| |].
  - intros i acc acc'. apply VAN_init_stage_embed_dim.
  - simpl. destruct (flag a); simpl;
      by rewrite !lookup_insert_ne, lookup_empty by done.
Qed.

Lemma constructed_no_embed_dim m : constructed m -> m !! "embed_dim" = None.
Proof.
  intros [[a H]|(dims & ratios & ds & kw & H)].
  - by eapply VAN_init_no_embed_dim.
  - unfold preset in H. apply bind_Ok_inv in H as (m0 & H0 & [= <-]).
    rewrite lookup_insert_ne by done. by eapply VAN_init_no_embed_dim.
Qed.

(** C10.  On every model the constructor (directly or through a preset)
    returns, [reset_classifier] with a positive [num_classes] raises
    AttributeError for [embed_dim], an attribute no constructor path sets
    (the assignment to [num_classes] has already happened); with
    [num_classes <= 0] it succeeds and installs the identity head. *)
Theorem reset_classifier_spec (m : VAN) (nc : Z) (Hm : constructed m) :
  m !! "embed_dim" = None ∧
  (0 < nc ->
   reset_classifier m nc
   = (Err (AttributeError "embed_dim"), <["num_classes" := AInt nc]> m)) ∧
  (nc <= 0 ->
   reset_classifier m nc
   = (Ok (), <["head" := AHead HeadIdentity]> (<["num_classes" := AInt nc]> m))).
Proof.
  pose proof (constructed_no_embed_dim m Hm) as He.
  split; [done|]. unfold reset_classifier, getattr. split; intros Hn.
  - rewrite bool_decide_true by done.
    by rewrite lookup_insert_ne, He by done.
  - by rewrite bool_decide_false by lia.
Qed.

Lemma van_small_model_eq : van_small default_kwargs = Ok van_small_model.
Proof. vm_compute. reflexivity. Qed.

Lemma van_tiny_model_eq : van_tiny default_kwargs = Ok van_tiny_model.
Proof. vm_compute. reflexivity. Qed.

Lemma reset_classifier_spec_witness :
  constructed van_small_model ∧
  (reset_classifier van_small_model 10).1 = Err (AttributeError "embed_dim") ∧
  (reset_classifier van_small_model 0).1 = Ok ().
Proof.
  assert (Hc : constructed van_small_model).
  { right. eexists _, _, _, _. exact van_small_model_eq. }
  split; [exact Hc|].
  destruct (reset_classifier_spec van_small_model 10 Hc) as (_ & H1 & _).
  destruct (reset_classifier_spec van_small_model 0 Hc) as (_ & _ & H2).
  rewrite H1 by lia. rewrite H2 by lia. split; reflexivity.
Defined.

(** ** The presets on a 224x224 input *)

(** The three presets sharing the widths [64, 128, 320, 512] run: for
    [van_small] a batch of two 3x224x224 images yields a (2, 1000) output in
    both modes. *)
Lemma van_small_forward_shape `{RT : Runtime} (training : bool) (st : state)
    (d : list Z -> elt) :
  shape <$> (VAN_forward van_small_model training (Tensor [2; 3; 224; 224] d) st).1
  = Ok [2; 1000].
Proof. destruct training; vm_compute; reflexivity. Qed.

(** Where the [van_tiny] forward call stops: the stage-0 patch embedding
    returns (2, 32, 56, 56), and the first block of stage 0 raises on every
    tensor of that shape. *)
Lemma van_tiny_first_block_fails `{RT : Runtime} (training : bool) (st : state)
    (d : list Z -> elt) :
  ∃ pe blk rest,
    van_tiny_model !! "patch_embed1" = Some (APatchEmbed pe) ∧
    van_tiny_model !! "block1" = Some (ABlocks (blk :: rest)) ∧
    (fun r => shape r.1.1)
      <$> (OverlapPatchEmbed_forward pe training (Tensor [2; 3; 224; 224] d) st).1
    = Ok [2; 32; 56; 56] ∧
    ∀ y st', shape y = [2; 32; 56; 56] ->
             (Block_forward blk training y st').1
             = Err (RuntimeError (ChannelMismatch 16 8)).
Proof.
  eexists _, _, _. split; [vm_compute; reflexivity|].
  split; [vm_compute; reflexivity|].
  split; [destruct training; vm_compute; reflexivity|].
  intros [s dy] st' Hs. simpl in Hs. subst s.
  destruct training; vm_compute; reflexivity.
Qed.

(** C1 (the source departs from it).  [van_tiny(img_size=224,
    num_classes=1000)] is constructed, with block depths [3,3,5,2] and the
    widths [32,64,160,256] in every stage's blocks and norm, but its forward
    call on an input of shape (2,3,224,224) raises in the first block: the
    Attention rearrange of stage 0 leaves 32/(2*2) = 8 channels and the
    convolution built from the table entry (16,2,2,1) expects 16. *)
Theorem van_tiny_forward_channel_error `{RT : Runtime} (training : bool)
    (st : state) (d : list Z -> elt) :
  ∃ m, van_tiny (mkKwargs 224 3 1000 0 0 4 false) = Ok m ∧
       m !! "depths" = Some (ADepths [3; 3; 5; 2]%nat) ∧
       stage_depth m <$> [1; 2; 3; 4]%nat = [Ok 3; Ok 3; Ok 5; Ok 2]%nat ∧
       stage_width m <$> [1; 2; 3; 4]%nat
       = [Ok (32, [32; 32; 32]); Ok (64, [64; 64; 64]);
          Ok (160, [160; 160; 160; 160; 160]); Ok (256, [256; 256])] ∧
       (VAN_forward m training (Tensor [2; 3; 224; 224] d) st).1
       = Err (RuntimeError (ChannelMismatch 16 8)).
Proof.
  exists van_tiny_model. split; [exact van_tiny_model_eq|].
  split; [vm_compute; reflexivity|].
  split; [vm_compute; reflexivity|].
  split; [vm_compute; reflexivity|].
  destruct training; vm_compute; reflexivity.
Qed.

(** ** The theorems above at concrete inputs *)

Lemma LKA_forward_spec_witness :
  shape (sample_tensor [1; 4; 3; 3]) = [1; 4; 3; 3] ∧ 0 < 3 ∧
  ∃ m out, LKA_init "lka" 4 = Ok m ∧
           LKA_forward (RT := ZRuntime) m (sample_tensor [1; 4; 3; 3]) = Ok out ∧
           shape out = shape (sample_tensor [1; 4; 3; 3]).
Proof.
  set (x := sample_tensor [1; 4; 3; 3]).
  split; [reflexivity|]. split; [lia|].
  eexists.
  assert (Hinit : LKA_init "lka" 4 = Ok ?[m]) by reflexivity.
  destruct (LKA_forward_spec (RT := ZRuntime) "lka" 4 _ x 1 3 3
              Hinit eq_refl ltac:(lia) ltac:(lia))
    as (_ & _ & _ & a0 & a1 & attn & out & _ & _ & _ & _ & _ & _ & Hf & Hs & _).
  exists out. split; [exact Hinit|]. split; assumption.
Defined.

Lemma Mlp_forward_spec_witness :
  shape (sample_tensor [1; 4; 3; 3]) = [1; 4; 3; 3] ∧ 0 < 3 ∧ 1 * 3 * 3 ≠ 1 ∧
  ∃ m y st', Mlp_init "mlp" 4 (Some 8) None 0 2 = Ok m ∧
             Mlp_forward (RT := ZRuntime) m true (sample_tensor [1; 4; 3; 3])
               sample_state = (Ok y, st') ∧
             shape y = shape (sample_tensor [1; 4; 3; 3]).
Proof.
  set (x := sample_tensor [1; 4; 3; 3]).
  split; [reflexivity|]. split; [lia|]. split; [lia|].
  eexists.
  assert (Hinit : Mlp_init "mlp" 4 (Some 8) None 0 2 = Ok ?[m]) by reflexivity.
  destruct (Mlp_forward_spec (RT := ZRuntime) "mlp" 4 (Some 8) None 0 2 _ true
              sample_state x 1 3 3 Hinit eq_refl ltac:(lia) ltac:(lia)
              (fun _ => ltac:(lia)))
    as (_ & _ & _ & _ & _ & a1 & a2 & st1 & d & n & st2 & f & y & st3 & Hrest).
  exists y, st3. split; [exact Hinit|].
  destruct Hrest as (_ & _ & _ & _ & _ & _ & _ & _ & _ & _ & _ & _ & Hf & Hs).
  split; [exact Hf|]. apply Hs. reflexivity.
Defined.

Lemma OverlapPatchEmbed_forward_spec_witness :
  PatchEmbed_table !! 1 = Some (16, 8, 2, 2, 5) ∧
  shape (sample_tensor [1; 64; 56; 56]) = [1; 16 * 2 * 2; 56; 56] ∧
  0 < 56 ∧ 1 * (56 * 2) * (56 * 2) ≠ 1 ∧
  ∃ m out st', OverlapPatchEmbed_init "patch_embed2" 56 3 2 64 128 1 = Ok m ∧
               56 = 2 * pe_H m ∧ 56 = 2 * pe_W m ∧
               OverlapPatchEmbed_forward (RT := ZRuntime) m true
                 (sample_tensor [1; 64; 56; 56]) sample_state
               = (Ok (out, 56 / 2, 56 / 2), st') ∧
               shape out = [1; 8 * (2 * 2) * (2 * 2); 56 / 2; 56 / 2].
Proof.
  set (x := sample_tensor [1; 64; 56; 56]).
  split; [reflexivity|]. split; [reflexivity|].
  split; [lia|]. split; [lia|].
  eexists.
  assert (Hinit : OverlapPatchEmbed_init "patch_embed2" 56 3 2 64 128 1 = Ok ?[m])
    by reflexivity.
  destruct (OverlapPatchEmbed_forward_spec (RT := ZRuntime) "patch_embed2"
              56 3 2 64 128 1 16 8 2 2 5 _ true sample_state x 1 56 56
              eq_refl Hinit eq_refl eq_refl eq_refl ltac:(lia) ltac:(lia)
              (fun _ => ltac:(lia)))
    as (_ & _ & x1 & p & pos & r & s & n & s1 & out & Hrest).
  exists out, s1. split; [exact Hinit|].
  split; [reflexivity|]. split; [reflexivity|].
  destruct Hrest as (_ & _ & _ & _ & _ & _ & _ & _ & _ & _ & _ & _ & _ & _ & Hs & _ & _ & Hf).
  split; [exact Hf|exact Hs].
Defined.

(** In training mode the same model draws from the random generator and
    updates the batch-norm buffers: the state after a forward call differs
    from the state before it. *)
Example training_forward_changes_state :
  (VAN_forward (RT := ZRuntime) van_small_model true
     (sample_tensor [2; 3; 224; 224]) sample_state).2
  = mkState (RT := ZRuntime) 10%nat 41%nat.
Proof. vm_compute. reflexivity. Qed.


(** * Further properties of the source *)

(** ** The residual block *)

Lemma tensor_binop_scale {E} (f : E -> E -> E) (s a : tensor E) dim b h w :
  shape s = [dim; 1; 1] -> shape a = [b; dim; h; w] ->
  ∃ z, tensor_binop f s a = Ok z ∧ shape z = [b; dim; h; w] ∧
       ∀ ib ic iy ix,
         valid_index [b; dim; h; w] [ib; ic; iy; ix] ->
         data z [ib; ic; iy; ix] = f (data s [ic; 0; 0]) (data a [ib; ic; iy; ix]).
Proof.
  intros Hs Ha. unfold tensor_binop, broadcast_shapes. rewrite Hs, Ha.
  assert (Hb : broadcast_rev (reverse [dim; 1; 1]) (reverse [b; dim; h; w])
               = Ok (reverse [b; dim; h; w])).
  { cbn. rewrite (bool_decide_true (dim = dim)) by done. cbn.
    repeat case_bool_decide; cbn; try done; congruence. }
  rewrite Hb. cbn [fmap result_fmap]. rewrite reverse_involutive, bind_Ok.
  eexists; split; [reflexivity|]. split; [reflexivity|].
  intros ib ic iy ix Hv. cbn [data].
  rewrite (bidx_valid [b; dim; h; w]) by done.
  f_equal. unfold bidx. cbn.
  assert (0 <= ic < dim) by (inversion Hv as [|? ? ? ? _ Hv']; by inversion Hv').
  do 2 f_equal. case_bool_decide; lia.
Qed.

Section Blocks.
Context `{RT : Runtime}.

Lemma DropPath_forward_shape (m : DropPathModule) training (x : tensor elt) st :
  ∃ y st', DropPath_forward m training x st = (Ok y, st') ∧ shape y = shape x.
Proof.
  unfold DropPath_forward. destruct m as [p|]; [|eauto].
  destruct (Qeq_bool p 0 || negb training); eauto.
Qed.

(** The successful run of [Mlp.forward], as far as shapes go. *)
Lemma Mlp_forward_shape name C hid fout drop layer m training st
    (x : tensor elt) B H W :
  Mlp_init name C hid fout drop layer = Ok m ->
  shape x = [B; C; H; W] -> 0 < H -> 0 < W ->
  (training = true -> B * H * W ≠ 1) ->
  ∃ y st', Mlp_forward m training x st = (Ok y, st') ∧
           shape y = [B; py_or fout C; H; W].
Proof.
  intros Hinit Hshape HH HW Htrain.
  apply Mlp_init_inv in Hinit as (ks & Hk & Hhid & Hks & ->).
  set (hidden := py_or hid C). set (out := py_or fout C).
  set (fc1 := mkConv2d (name +:+ ".fc1") _ _ _ _ _ _ _ _).
  set (dw := mkConv2d ((name +:+ ".dwconv") +:+ ".dwconv") _ _ _ _ _ _ _ _).
  set (fc2 := mkConv2d (name +:+ ".fc2") _ _ _ _ _ _ _ _).
  set (bn1 := mkBatchNorm2d (name +:+ ".norm1") hidden).
  set (bn2 := mkBatchNorm2d (name +:+ ".norm2") hidden).
  pose proof (Conv2d_forward_same fc1 x B C H W Hshape eq_refl eq_refl
                ltac:(simpl; lia) ltac:(simpl; lia) HH HW) as E1.
  set (a1 := Tensor [B; out_channels fc1; H; W] (conv2d_data fc1 x)) in E1.
  unfold Mlp_forward.
  cbn [mlp_layer mlp_fc1 mlp_norm1 mlp_dwconv mlp_norm2 mlp_fc2 mlp_drop].
  assert (Hmid : ∃ a2 st1,
    shape a2 = [B; hidden; H; W] ∧
    ∀ (k : tensor elt -> M (tensor elt)),
      ((if bool_decide (1 < layer) then
          x ← lift (Conv2d_forward fc1 x);
          norm1 ← lift (req "norm1"
                          (if bool_decide (1 < layer) then Some bn1 else None));
          x ← BatchNorm2d_forward norm1 training x;
          mret (nn_GELU x)
        else lift (Conv2d_forward fc1 x)) ≫= k) st = k a2 st1).
  { case_bool_decide as Hl.
    - pose proof (BatchNorm2d_forward_ok bn1 training a1 st B hidden H W
                    eq_refl eq_refl Htrain) as Eb.
      eexists _, _. split; [|intros k; unfold mbind, M_bind, lift, mret, M_ret;
                              rewrite E1; simpl; fold a1; by rewrite Eb].
      done.
    - exists a1, st. split; [done|].
      intros k. unfold mbind, M_bind, lift. by rewrite E1. }
  destruct Hmid as (a2 & st1 & S2 & Hrun). rewrite Hrun.
  pose proof (Conv2d_forward_same dw a2 B hidden H W S2 eq_refl eq_refl
                ltac:(simpl; lia) ltac:(simpl; lia) HH HW) as E3.
  set (d := Tensor [B; out_channels dw; H; W] (conv2d_data dw a2)) in E3.
  pose proof (BatchNorm2d_forward_ok bn2 training d st1 B hidden H W
                eq_refl eq_refl Htrain) as E4.
  set (n := Tensor (shape d) _) in E4. set (st2 := if training then _ else st1) in E4.
  pose proof (Conv2d_forward_same fc2 (nn_GELU n) B hidden H W eq_refl eq_refl eq_refl
                ltac:(simpl; lia) ltac:(simpl; lia) HH HW) as E5.
  set (f := Tensor [B; out_channels fc2; H; W] _) in E5.
  unfold mbind, M_bind, lift, mret, M_ret, DWConv_forward. simpl.
  rewrite E3. fold d. rewrite E4. fold n. rewrite E5.
  unfold Dropout_forward. destruct training; eauto.
Qed.

Lemma Block_init_inv name dim ratio drop dp layer blk :
  Block_init name dim ratio drop dp layer = Ok blk ->
  blk_norm1 blk = mkBatchNorm2d (name +:+ ".norm1") dim ∧
  Attention_init (name +:+ ".attn") dim layer = Ok (blk_attn blk) ∧
  blk_drop_path blk = (if negb (Qle_bool dp 0) then DropPath dp else Identity) ∧
  blk_norm2 blk = mkBatchNorm2d (name +:+ ".norm2") dim ∧
  Mlp_init (name +:+ ".mlp") dim (Some (dim * ratio)) None drop layer
  = Ok (blk_mlp blk) ∧
  blk_layer_scale_1 blk = mkParam (name +:+ ".layer_scale_1") [dim] ∧
  blk_layer_scale_2 blk = mkParam (name +:+ ".layer_scale_2") [dim].
Proof.
  unfold Block_init. intros H.
  apply bind_Ok_inv in H as (n1 & (-> & _)%nn_BatchNorm2d_inv & H).
  apply bind_Ok_inv in H as (attn & Hattn & H).
  apply bind_Ok_inv in H as (n2 & (-> & _)%nn_BatchNorm2d_inv & H).
  apply bind_Ok_inv in H as (mlp & Hmlp & H).
  apply bind_Ok_inv in H as (l1 & Hl1 & H).
  apply bind_Ok_inv in H as (l2 & Hl2 & H).
  unfold nn_Parameter in Hl1, Hl2.
  case_bool_decide; [|done]. injection Hl1 as <-. injection Hl2 as <-.
  injection H as <-. by simpl.
Qed.

Lemma layer_scale_shape dim name :
  shape (layer_scale (mkParam name [dim])) = [dim; 1; 1] ∧
  ∀ ic, data (layer_scale (mkParam name [dim])) [ic; 0; 0]
        = param_data (mkParam name [dim]) [ic].
Proof. split; reflexivity. Qed.

(** The successful run of [Block.forward], step by step. *)
Lemma Block_forward_ok name dim ratio drop dp layer c h w ks blk training st
    (x : tensor elt) B H W :
  Attention_table !! layer = Some (c, h, w, ks) -> dim = c * h * w ->
  Block_init name dim ratio drop dp layer = Ok blk ->
  shape x = [B; dim; H; W] -> 0 < H -> 0 < W ->
  (training = true -> B * H * W ≠ 1) ->
  ∃ n1 s1 a sa d1 s2 x1 n2 s3 f s4 sf d2 s5 y,
    BatchNorm2d_forward (blk_norm1 blk) training x st = (Ok n1, s1) ∧
    Attention_forward (blk_attn blk) n1 = Ok a ∧
    tmul (layer_scale (blk_layer_scale_1 blk)) a = Ok sa ∧
    DropPath_forward (blk_drop_path blk) training sa s1 = (Ok d1, s2) ∧
    tadd x d1 = Ok x1 ∧
    BatchNorm2d_forward (blk_norm2 blk) training x1 s2 = (Ok n2, s3) ∧
    Mlp_forward (blk_mlp blk) training n2 s3 = (Ok f, s4) ∧
    tmul (layer_scale (blk_layer_scale_2 blk)) f = Ok sf ∧
    DropPath_forward (blk_drop_path blk) training sf s4 = (Ok d2, s5) ∧
    tadd x1 d2 = Ok y ∧
    Block_forward blk training x st = (Ok y, s5) ∧
    shape a = shape x ∧ shape x1 = shape x ∧ shape f = shape x ∧
    shape y = shape x ∧
    (∀ ib ic iy ix, valid_index (shape x) [ib; ic; iy; ix] ->
       data sa [ib; ic; iy; ix]
       = fmul (param_data (blk_layer_scale_1 blk) [ic]) (data a [ib; ic; iy; ix])) ∧
    (∀ idx, valid_index (shape x) idx ->
       data x1 idx = fadd (data x idx) (data d1 idx)) ∧
    (∀ ib ic iy ix, valid_index (shape x) [ib; ic; iy; ix] ->
       data sf [ib; ic; iy; ix]
       = fmul (param_data (blk_layer_scale_2 blk) [ic]) (data f [ib; ic; iy; ix])) ∧
    (∀ idx, valid_index (shape x) idx ->
       data y idx = fadd (data x1 idx) (data d2 idx)).
Proof.
  intros Ht Hdim Hinit Hs HH HW Htrain.
  destruct (Block_init_inv _ _ _ _ _ _ _ Hinit)
    as (Hn1 & Hattn & _ & Hn2 & Hmlp & Hl1 & Hl2).
  unfold Block_forward. rewrite Hn1, Hn2, Hl1, Hl2.
  pose proof (BatchNorm2d_forward_ok (mkBatchNorm2d (name +:+ ".norm1") dim)
                training x st B dim H W Hs eq_refl Htrain) as E1.
  set (n1 := Tensor (shape x) _) in E1. set (s1 := if training then _ else st) in E1.
  subst dim.
  destruct (Attention_forward_ok _ _ _ _ _ _ _ n1 B H W Ht Hattn Hs HH HW)
    as (ax1 & ax2 & ax3 & ap & asum & ag & aq & a & _ & _ & _ & _ & _ & _ & _ & _
        & _ & _ & _ & _ & _ & _ & _ & _ & Ea & Sa & _).
  clear ax1 ax2 ax3 ap asum ag aq.
  change (shape n1) with (shape x) in Sa.
  destruct (layer_scale_shape (c * h * w) (name +:+ ".layer_scale_1")) as [Sl1 Dl1].
  destruct (layer_scale_shape (c * h * w) (name +:+ ".layer_scale_2")) as [Sl2 Dl2].
  destruct (tensor_binop_scale fmul _ a _ B H W Sl1 ltac:(by rewrite Sa))
    as (sa & Esa & Ssa & Dsa).
  destruct (DropPath_forward_shape (blk_drop_path blk) training sa s1)
    as (d1 & s2 & Ed1 & Sd1).
  destruct (tensor_binop_same fadd x d1 ltac:(by rewrite Sd1, Ssa))
    as (x1 & Ex1 & Sx1 & Dx1).
  pose proof (BatchNorm2d_forward_ok (mkBatchNorm2d (name +:+ ".norm2") (c * h * w))
                training x1 s2 B (c * h * w) H W ltac:(by rewrite Sx1)
                eq_refl Htrain) as E2.
  set (n2 := Tensor (shape x1) _) in E2. set (s3 := if training then _ else s2) in E2.
  destruct (Mlp_forward_shape _ _ _ _ _ _ _ training s3 n2 B H W Hmlp
              ltac:(by (simpl; rewrite Sx1)) HH HW Htrain)
    as (f & s4 & Ef & Sf).
  simpl in Sf.
  destruct (tensor_binop_scale fmul _ f _ B H W Sl2 Sf) as (sf & Esf & Ssf & Dsf).
  destruct (DropPath_forward_shape (blk_drop_path blk) training sf s4)
    as (d2 & s5 & Ed2 & Sd2).
  destruct (tensor_binop_same fadd x1 d2 ltac:(by rewrite Sd2, Ssf, Sx1))
    as (y & Ey & Sy & Dy).
  exists n1, s1, a, sa, d1, s2, x1, n2, s3, f, s4, sf, d2, s5, y.
  unfold tmul, tadd.
  repeat split; try done.
  - unfold mbind, M_bind, lift, mret, M_ret.
    rewrite E1, Ea. unfold tmul. rewrite Esa, Ed1. unfold tadd. rewrite Ex1, E2, Ef.
    by rewrite Esf, Ed2, Ey.
  - by rewrite Sf, Hs.
  - by rewrite Sy, Sx1.
  - intros ib ic iy ix Hv. rewrite Dsa by (by rewrite <- Hs). by rewrite Dl1.
  - intros ib ic iy ix Hv. rewrite Dsf by (by rewrite <- Hs). by rewrite Dl2.
  - intros idx Hv. apply Dy. by rewrite Sx1.
Qed.

(** [Block.forward] computes [x1 = x + scale1 * attn(norm1(x))] and then
    [x1 + scale2 * mlp(norm2(x1))], each scale being one learned factor per
    channel: on an input (B, c*h*w, H, W) of the block's stage the call
    returns a tensor of the input's shape, and in evaluation mode (where
    DropPath passes its input on) the state is untouched and every element
    of the two residual sums is the stated combination. *)
Theorem Block_forward_residual (name : string) (dim ratio : Z) (drop dp : Q)
    (layer c h w ks : Z) (blk : Block) (training : bool) (st : state)
    (x : tensor elt) (B H W : Z)
    (Hstage : Attention_table !! layer = Some (c, h, w, ks))
    (Hdim : dim = c * h * w)
    (Hinit : Block_init name dim ratio drop dp layer = Ok blk)
    (Hshape : shape x = [B; dim; H; W]) (HH : 0 < H) (HW : 0 < W)
    (Htrain : training = true -> B * H * W ≠ 1) :
  ∃ y st',
    Block_forward blk training x st = (Ok y, st') ∧ shape y = shape x ∧
    (training = false ->
     st' = st ∧
     ∃ n1 a x1 n2 f,
       BatchNorm2d_forward (blk_norm1 blk) false x st = (Ok n1, st) ∧
       Attention_forward (blk_attn blk) n1 = Ok a ∧
       (∀ ib ic iy ix, valid_index (shape x) [ib; ic; iy; ix] ->
          data x1 [ib; ic; iy; ix]
          = fadd (data x [ib; ic; iy; ix])
                 (fmul (param_data (blk_layer_scale_1 blk) [ic])
                       (data a [ib; ic; iy; ix]))) ∧
       BatchNorm2d_forward (blk_norm2 blk) false x1 st = (Ok n2, st) ∧
       Mlp_forward (blk_mlp blk) false n2 st = (Ok f, st) ∧
       (∀ ib ic iy ix, valid_index (shape x) [ib; ic; iy; ix] ->
          data y [ib; ic; iy; ix]
          = fadd (data x1 [ib; ic; iy; ix])
                 (fmul (param_data (blk_layer_scale_2 blk) [ic])
                       (data f [ib; ic; iy; ix])))).
Proof.
  destruct (Block_forward_ok name dim ratio drop dp layer c h w ks blk training st
              x B H W Hstage Hdim Hinit Hshape HH HW Htrain)
    as (n1 & s1 & a & sa & d1 & s2 & x1 & n2 & s3 & f & s4 & sf & d2 & s5 & y
        & E1 & Ea & Esa & Ed1 & Ex1 & E2 & Ef & Esf & Ed2 & Ey & Efw
        & Sa & Sx1 & Sf & Sy & Dsa & Dx1 & Dsf & Dy).
  exists y, s5. split; [done|]. split; [done|].
  intros ->.
  rewrite DropPath_forward_eval in Ed1, Ed2.
  injection Ed1 as <- <-. injection Ed2 as <- <-.
  pose proof (proj1 (BatchNorm2d_forward_eval (blk_norm1 blk) x st)) as P1.
  rewrite E1 in P1. simpl in P1. subst s1.
  pose proof (proj1 (BatchNorm2d_forward_eval (blk_norm2 blk) x1 st)) as P2.
  rewrite E2 in P2. simpl in P2. subst s3.
  pose proof (proj1 (Mlp_forward_eval (blk_mlp blk) n2 st)) as P3.
  rewrite Ef in P3. simpl in P3. subst s4.
  split; [done|]. exists n1, a, x1, n2, f.
  repeat split; try done.
  - intros ib ic iy ix Hv. rewrite Dx1 by done. by rewrite Dsa.
  - intros ib ic iy ix Hv. rewrite Dy by done. by rewrite Dsf.
Qed.

Lemma BatchNorm2d_forward_inv (m : BatchNorm2d) training (x y : tensor elt) st st' :
  BatchNorm2d_forward m training x st = (Ok y, st') ->
  ∃ b h w, shape x = [b; num_features m; h; w] ∧ shape y = shape x.
Proof.
  unfold BatchNorm2d_forward.
  destruct (shape x) as [|b [|c [|h [|w [|? ?]]]]] eqn:Hs; try done.
  destruct (training && _); [done|].
  case_bool_decide as Hc; [done|].
  assert (c = num_features m) as -> by (destruct (decide (c = num_features m)); tauto).
  destruct training; intros [= <- _]; by exists b, h, w.
Qed.

Lemma Attention_forward_wrong_err name layer c h w ks d_model m (x : tensor elt)
    B C H W :
  Attention_table !! layer = Some (c, h, w, ks) ->
  Attention_init name d_model layer = Ok m ->
  shape x = [B; C; H; W] -> C ≠ c * h * w ->
  Attention_forward m x = Err EinopsError ∨
  Attention_forward m x = Err (RuntimeError (ChannelMismatch c (C / (h * w)))).
Proof.
  intros Hstage Hinit Hshape HC.
  destruct (Attention_init_inv _ _ _ _ _ _ _ _ Hstage Hinit) as [Hd ->].
  assert (Hpos : 0 < h ∧ 0 < w).
  { apply Attention_table_inv in Hstage.
    destruct Hstage as [[_ [= -> -> -> ->]]|[[_ [= -> -> -> ->]]|
                       [[_ [= -> -> -> ->]]|[_ [= -> -> -> ->]]]]]; by compute. }
  destruct Hpos as [Hh Hw].
  unfold Attention_forward, clone. simpl.
  unfold rearrange_c2s. rewrite Hshape.
  destruct (decide (C `mod` (h * w) = 0)) as [Hm|Hm].
  - right. rewrite bool_decide_true by done. rewrite bind_Ok.
    unfold Conv2d_forward. simpl.
    case_bool_decide as Hq; [done|]. exfalso. apply HC.
    assert (Hq' : C / (h * w) = c)
      by (destruct (decide (C / (h * w) = c)); [done|by destruct Hq]).
    rewrite (Z.div_mod C (h * w)) by lia. rewrite Hq', Hm. lia.
  - left. rewrite bool_decide_false by tauto. done.
Qed.

Lemma Block_forward_wrong_err name dim ratio drop dp layer c h w ks blk training st
    (x : tensor elt) :
  Attention_table !! layer = Some (c, h, w, ks) ->
  Block_init name dim ratio drop dp layer = Ok blk ->
  dim ≠ c * h * w ->
  ∃ e, (Block_forward blk training x st).1 = Err e.
Proof.
  intros Hstage Hinit Hdim.
  destruct (Block_init_inv _ _ _ _ _ _ _ Hinit) as (Hn1 & Hattn & _).
  unfold Block_forward, mbind, M_bind, lift.
  destruct (BatchNorm2d_forward (blk_norm1 blk) training x st) as [[n1|e] s1] eqn:E1;
    [|by exists e].
  apply BatchNorm2d_forward_inv in E1 as (b & hh & ww & Hs & Sn).
  rewrite Hn1 in Hs. simpl in Hs. rewrite Hs in Sn.
  destruct (Attention_forward_wrong_err _ _ _ _ _ _ _ _ n1 b dim hh ww
              Hstage Hattn Sn Hdim) as [-> | ->]; eauto.
Qed.

(** A block whose width is not the c*h*w of its stage never returns a
    tensor: whatever the input, the mode and the state, [Block.forward]
    raises (in norm1 when the input does not fit the block's width,
    otherwise in the attention rearrange or its c-to-c convolution). *)
Theorem Block_forward_wrong_width (name : string) (dim ratio : Z) (drop dp : Q)
    (layer c h w ks : Z) (blk : Block) (training : bool) (st : state)
    (x : tensor elt)
    (Hstage : Attention_table !! layer = Some (c, h, w, ks))
    (Hinit : Block_init name dim ratio drop dp layer = Ok blk)
    (Hdim : dim ≠ c * h * w) :
  ∃ e, (Block_forward blk training x st).1 = Err e.
Proof. by eapply Block_forward_wrong_err. Qed.

End Blocks.

Lemma Block_forward_residual_witness :
  Attention_table !! 0 = Some (16, 2, 2, 1) ∧ 64 = 16 * 2 * 2 ∧
  shape (sample_tensor [1; 64; 2; 2]) = [1; 64; 2; 2] ∧ 1 * 2 * 2 ≠ 1 ∧
  ∃ blk y st', Block_init "block1.0" 64 8 0 0 0 = Ok blk ∧
               Block_forward (RT := ZRuntime) blk true (sample_tensor [1; 64; 2; 2])
                 sample_state = (Ok y, st') ∧
               shape y = shape (sample_tensor [1; 64; 2; 2]).
Proof.
  split; [reflexivity|]. split; [lia|]. split; [reflexivity|]. split; [lia|].
  eexists.
  assert (Hinit : Block_init "block1.0" 64 8 0 0 0 = Ok ?[blk]) by reflexivity.
  destruct (Block_forward_residual (RT := ZRuntime) "block1.0" 64 8 0 0 0 16 2 2 1 _
              true sample_state (sample_tensor [1; 64; 2; 2]) 1 2 2
              eq_refl ltac:(lia) Hinit eq_refl ltac:(lia) ltac:(lia)
              (fun _ => ltac:(lia)))
    as (y & st' & Hf & Hs & _).
  exists y, st'. split; [exact Hinit|]. split; [exact Hf|exact Hs].
Defined.

Lemma Block_forward_wrong_width_witness :
  Attention_table !! 0 = Some (16, 2, 2, 1) ∧ 32 ≠ 16 * 2 * 2 ∧
  ∃ blk e, Block_init "block1.0" 32 8 0 0 0 = Ok blk ∧
           (Block_forward (RT := ZRuntime) blk false (sample_tensor [2; 32; 56; 56])
              sample_state).1 = Err e.
Proof.
  split; [reflexivity|]. split; [lia|].
  eexists.
  assert (Hinit : Block_init "block1.0" 32 8 0 0 0 = Ok ?[blk]) by reflexivity.
  destruct (Block_forward_wrong_width (RT := ZRuntime) "block1.0" 32 8 0 0 0 16 2 2 1 _
              false sample_state (sample_tensor [2; 32; 56; 56])
              eq_refl Hinit ltac:(lia))
    as (e & He).
  exists e. split; [exact Hinit|exact He].
Defined.

(** ** The overlapping patch embedding, stage 0 *)

Ltac zdiv := Z.div_mod_to_equations; lia.

Lemma broadcast_shapes_mismatch b c h w p q :
  h ≠ p -> h ≠ 1 -> p ≠ 1 ->
  broadcast_shapes [b; c; h; w] [1; c; p; q]
  = Err (RuntimeError (BroadcastMismatch h p)).
Proof.
  intros H1 H2 H3. unfold broadcast_shapes. cbn.
  rewrite (bool_decide_true (c = c)) by done.
  repeat (case_bool_decide; cbn; try done).
Qed.

Lemma broadcast_shapes_empty b c :
  broadcast_shapes [b; c; 1; 1] [1; c; 0; 0] = Ok [b; c; 0; 0].
Proof.
  unfold broadcast_shapes. cbn.
  rewrite (bool_decide_true (c = c)) by done.
  repeat (case_bool_decide; cbn; try done); congruence.
Qed.

Section Stage0.
Context `{RT : Runtime}.

Lemma Conv2d_forward_inv (m : Conv2d) (x y : tensor elt) b c h w :
  shape x = [b; c; h; w] -> Conv2d_forward m x = Ok y ->
  c = in_channels m ∧ y = Conv2d_out m x b h w.
Proof.
  intros Hs. unfold Conv2d_forward. rewrite Hs.
  case_bool_decide; [done|]. case_bool_decide as Hc; [done|].
  case_bool_decide; [done|]. intros [= <-]. split; [|done].
  destruct (decide (c = in_channels m)); tauto.
Qed.

Lemma OverlapPatchEmbed0_init_inv name img patch st inc emb m :
  OverlapPatchEmbed_init name img patch st inc emb 0 = Ok m ->
  st ≠ 0 ∧ 0 <= emb ∧
  m = mkOverlapPatchEmbed img 0
        (Some (mkConv2d (name +:+ ".proj1") inc emb (patch, patch) (st, st)
                 (patch / 2, patch / 2) (1, 1) 1 true))
        (mkConv2d (name +:+ ".proj2") emb (emb / 4) (3, 3) (1, 1) (3 / 2, 3 / 2)
           (1, 1) 1 true)
        (Some (mkBatchNorm2d (name +:+ ".norm1") emb))
        (mkBatchNorm2d (name +:+ ".norm2") (emb / 4))
        16 None 2 2 None (img / (2 * st)) (img / (2 * st))
        (<["pos_embed1" := mkParam (name +:+ ".pos_embed1") [1; emb; 2; 2]]> ∅).
Proof.
  unfold OverlapPatchEmbed_init. rewrite bool_decide_true by done. intros H.
  apply bind_Ok_inv in H as (p1 & (-> & _ & _ & _ & _ & He)%nn_Conv2d_inv & H).
  apply bind_Ok_inv in H as (p2 & (-> & _)%nn_Conv2d_inv & H).
  apply bind_Ok_inv in H as (n1 & (-> & _)%nn_BatchNorm2d_inv & H).
  apply bind_Ok_inv in H as (n2 & (-> & _)%nn_BatchNorm2d_inv & H).
  unfold floordiv in H. case_bool_decide as Hst; [done|].
  rewrite !bind_Ok in H.
  apply bind_Ok_inv in H as (pos & Hpos & H).
  unfold nn_Parameter in Hpos. case_bool_decide; [|done]. injection Hpos as <-.
  split; [lia|]. split; [done|]. by inversion H.
Qed.

(** The stage-0 embedding as [VAN.__init__] builds it (patch 5, stride 2), on
    an input whose side is the [img_size] it was built for. *)
Lemma OverlapPatchEmbed0_forward_ok name inc emb k m training st
    (x : tensor elt) B :
  OverlapPatchEmbed_init name (4 * k) 5 2 inc emb 0 = Ok m ->
  shape x = [B; inc; 4 * k; 4 * k] -> 0 < k ->
  ∃ p r s n1 s1 q n2 s2 out,
    Conv2d_forward (mkConv2d (name +:+ ".proj1") inc emb (5, 5) (2, 2) (2, 2)
                      (1, 1) 1 true) x = Ok p ∧
    shape p = [B; emb; 2 * k; 2 * k] ∧
    pos_embed_repeat m "pos_embed1" = Ok r ∧ shape r = [1; emb; 2 * k; 2 * k] ∧
    (∀ ic iy ix, data r [0; ic; iy; ix]
                 = param_data (mkParam (name +:+ ".pos_embed1") [1; emb; 2; 2])
                     [0; ic `mod` emb; iy `mod` 2; ix `mod` 2]) ∧
    tadd p r = Ok s ∧
    BatchNorm2d_forward (mkBatchNorm2d (name +:+ ".norm1") emb) training s st
    = (Ok n1, s1) ∧
    Conv2d_forward (pe_proj2 m) (nn_GELU n1) = Ok q ∧
    shape q = [B; emb / 4; 2 * k; 2 * k] ∧
    BatchNorm2d_forward (pe_norm2 m) training q s1 = (Ok n2, s2) ∧
    rearrange_s2c 2 2 n2 = Ok out ∧
    shape out = [B; emb / 4 * 2 * 2; k; k] ∧
    OverlapPatchEmbed_forward m training x st = (Ok (out, k, k), s2).
Proof.
  intros Hinit Hs Hk.
  apply OverlapPatchEmbed0_init_inv in Hinit as (_ & Hemb & ->).
  replace (4 * k / (2 * 2)) with k by zdiv.
  set (proj1 := mkConv2d (name +:+ ".proj1") _ _ _ _ _ _ _ _).
  set (proj2 := mkConv2d (name +:+ ".proj2") _ _ _ _ _ _ _ _).
  set (bn1 := mkBatchNorm2d (name +:+ ".norm1") emb).
  set (bn2 := mkBatchNorm2d (name +:+ ".norm2") (emb / 4)).
  set (pos := mkParam (name +:+ ".pos_embed1") [1; emb; 2; 2]).
  assert (E1 : Conv2d_forward proj1 x
               = Ok (Tensor [B; emb; 2 * k; 2 * k] (conv2d_data proj1 x))).
  { unfold Conv2d_forward, Conv2d_out, conv_out. rewrite Hs. simpl.
    case_bool_decide; [done|]. case_bool_decide; [lia|].
    replace ((4 * k + 2 * 2 - 1 * (5 - 1) - 1) / 2 + 1) with (2 * k) by zdiv.
    done. }
  set (p := Tensor [B; emb; 2 * k; 2 * k] _) in E1.
  assert (E2 : tensor_repeat [1; 1; k; k] (param_tensor pos)
               = Ok (Tensor [1; emb; 2 * k; 2 * k]
                       (fun idx => param_data pos (zip_with Z.modulo idx (p_shape pos))))).
  { unfold tensor_repeat. cbn.
    case_bool_decide; [done|].
    case_bool_decide as He;
      [exfalso; revert He; rewrite !Exists_cons, Exists_nil; lia|].
    rewrite !Z.mul_1_r. done. }
  set (r := Tensor [1; emb; 2 * k; 2 * k] _) in E2.
  destruct (tensor_binop_batch fadd p r B emb (2 * k) (2 * k) eq_refl eq_refl)
    as (s & E3 & S3 & _).
  pose proof (BatchNorm2d_forward_ok bn1 training s st B emb (2 * k) (2 * k) S3
                eq_refl ltac:(intros _; nia)) as E4.
  set (n1 := Tensor (shape s) _) in E4. set (s1 := if training then _ else st) in E4.
  pose proof (Conv2d_forward_same proj2 (nn_GELU n1) B emb (2 * k) (2 * k)
                S3 eq_refl eq_refl eq_refl eq_refl ltac:(lia) ltac:(lia)) as E5.
  set (q := Tensor [B; out_channels proj2; 2 * k; 2 * k] _) in E5.
  pose proof (BatchNorm2d_forward_ok bn2 training q s1 B (emb / 4) (2 * k) (2 * k)
                eq_refl eq_refl ltac:(intros _; nia)) as E6.
  set (n2 := Tensor (shape q) _) in E6. set (s2 := if training then _ else s1) in E6.
  destruct (rearrange_s2c_shape 2 2 n2 B (emb / 4) k k ltac:(lia) ltac:(lia))
    as (out & E7 & S7 & _).
  { unfold n2, q. cbn [shape]. do 2 f_equal. f_equal; [lia|f_equal; lia]. }
  assert (Er : pos_embed_repeat
                 (mkOverlapPatchEmbed (4 * k) 0 (Some proj1) proj2 (Some bn1) bn2
                    16 None 2 2 None k k (<["pos_embed1" := pos]> ∅))
                 "pos_embed1" = Ok r).
  { unfold pos_embed_repeat. cbn [pe_params pe_H pe_W].
    rewrite lookup_insert_eq. cbn [req]. by rewrite bind_Ok. }
  exists p, r, s, n1, s1, q, n2, s2, out.
  repeat split; try done.
  unfold OverlapPatchEmbed_forward.
  cbn [pe_layer pe_h pe_w pe_proj1 pe_proj2 pe_norm1 pe_norm2].
  rewrite bool_decide_true by done.
  unfold mbind, M_bind, lift. cbn [req]. rewrite E1, Er.
  unfold tadd. rewrite E3, E4, E5, E6, E7.
  unfold shape_HW. rewrite S7. reflexivity.
Qed.

(** Stage 0 of the embedding as [VAN.__init__] builds it: convolution 5x5
    of stride 2, positional bias (1, E, 2, 2) tiled over the feature map,
    batch norm, GELU, convolution 3x3 from E to E//4 channels, batch norm,
    and the rearrange with factors (2, 2).  On an input whose side 4k is the
    [img_size] of the constructor the call returns ((B, (E//4)*4, k, k), k, k),
    in both modes. *)
Theorem OverlapPatchEmbed0_forward_spec (name : string) (inc emb k : Z)
    (m : OverlapPatchEmbed) (training : bool) (st : state) (x : tensor elt) (B : Z)
    (Hinit : OverlapPatchEmbed_init name (4 * k) 5 2 inc emb 0 = Ok m)
    (Hshape : shape x = [B; inc; 4 * k; 4 * k]) (Hk : 0 < k) :
  ∃ p r s n1 s1 q n2 s2 out,
    Conv2d_forward (mkConv2d (name +:+ ".proj1") inc emb (5, 5) (2, 2) (2, 2)
                      (1, 1) 1 true) x = Ok p ∧
    shape p = [B; emb; 2 * k; 2 * k] ∧
    pos_embed_repeat m "pos_embed1" = Ok r ∧ shape r = [1; emb; 2 * k; 2 * k] ∧
    (∀ ic iy ix, data r [0; ic; iy; ix]
                 = param_data (mkParam (name +:+ ".pos_embed1") [1; emb; 2; 2])
                     [0; ic `mod` emb; iy `mod` 2; ix `mod` 2]) ∧
    tadd p r = Ok s ∧
    BatchNorm2d_forward (mkBatchNorm2d (name +:+ ".norm1") emb) training s st
    = (Ok n1, s1) ∧
    Conv2d_forward (pe_proj2 m) (nn_GELU n1) = Ok q ∧
    shape q = [B; emb / 4; 2 * k; 2 * k] ∧
    BatchNorm2d_forward (pe_norm2 m) training q s1 = (Ok n2, s2) ∧
    rearrange_s2c 2 2 n2 = Ok out ∧
    shape out = [B; emb / 4 * 2 * 2; k; k] ∧
    (emb `mod` 4 = 0 -> shape out = [B; emb; k; k]) ∧
    OverlapPatchEmbed_forward m training x st = (Ok (out, k, k), s2).
Proof.
  destruct (OverlapPatchEmbed0_forward_ok name inc emb k m training st x B
              Hinit Hshape Hk)
    as (p & r & s & n1 & s1 & q & n2 & s2 & out & H1 & H2 & H3 & H4 & H5 & H6
        & H7 & H8 & H9 & H10 & H11 & H12 & H13).
  exists p, r, s, n1, s1, q, n2, s2, out.
  repeat split; try done.
  intros Hm. rewrite H12. do 2 f_equal. zdiv.
Qed.

(** When the image side is not a multiple of 4 the stage-0 embedding raises
    on an input of that side: for a side of at least 3 the convolution output
    (side (S-1)//2+1) and the tiled positional bias (side 2*(S//4)) cannot be
    added. *)
Theorem OverlapPatchEmbed0_forward_bad_size (name : string) (inc emb S : Z)
    (m : OverlapPatchEmbed) (training : bool) (st : state) (x : tensor elt) (B : Z)
    (Hinit : OverlapPatchEmbed_init name S 5 2 inc emb 0 = Ok m)
    (Hshape : shape x = [B; inc; S; S]) (HS : 0 < S) (Hmod : S `mod` 4 ≠ 0) :
  ∃ e, (OverlapPatchEmbed_forward m training x st).1 = Err e ∧
       (3 <= S ->
        e = RuntimeError (BroadcastMismatch ((S - 1) / 2 + 1) (2 * (S / 4)))).
Proof.
  apply OverlapPatchEmbed0_init_inv in Hinit as (_ & Hemb & ->).
  unfold OverlapPatchEmbed_forward, pos_embed_repeat.
  cbn [pe_layer pe_h pe_w pe_proj1 pe_proj2 pe_norm1 pe_norm2 pe_params pe_H pe_W].
  rewrite bool_decide_true by done.
  unfold mbind, M_bind, lift. cbn [req].
  rewrite lookup_insert_eq. cbn [req result_bind].
  unfold Conv2d_forward, Conv2d_out, conv_out. rewrite Hshape.
  cbn [stride padding dilation kernel_size in_channels out_channels fst snd].
  case_bool_decide as H0; [exfalso; lia|].
  case_bool_decide as H1; [exfalso; by apply H1|].
  case_bool_decide as H2; [exfalso; zdiv|].
  unfold tensor_repeat, param_tensor. cbn [shape p_shape length].
  case_bool_decide as H3; [exfalso; by apply H3|].
  case_bool_decide as H4;
    [exfalso; revert H4; rewrite !Exists_cons, Exists_nil; zdiv|].
  set (proj1 := mkConv2d (name +:+ ".proj1") _ _ _ _ _ _ _ _).
  cbn [zip_with].
  replace ((S + 2 * (5 / 2) - 1 * (5 - 1) - 1) / 2 + 1) with ((S - 1) / 2 + 1)
    by zdiv.
  replace (2 * (S / (2 * 2))) with (2 * (S / 4)) by zdiv.
  rewrite !Z.mul_1_r.
  unfold tadd, tensor_binop. cbn [shape].
  destruct (decide (3 <= S)) as [HS3|HS3].
  - rewrite broadcast_shapes_mismatch by zdiv.
    eexists. split; [reflexivity|done].
  - assert (HS12 : (S - 1) / 2 + 1 = 1 ∧ 2 * (S / 4) = 0) by zdiv.
    destruct HS12 as [-> ->]. rewrite broadcast_shapes_empty.
    rewrite bind_Ok. unfold BatchNorm2d_forward, Conv2d_forward. cbn [shape].
    destruct training; cbn;
      repeat (case_bool_decide; cbn; try (exfalso; zdiv));
      eexists; (split; [reflexivity|intros; lia]).
Qed.

End Stage0.

Lemma OverlapPatchEmbed0_forward_spec_witness :
  shape (sample_tensor [1; 3; 4 * 2; 4 * 2]) = [1; 3; 4 * 2; 4 * 2] ∧ 0 < 2 ∧
  ∃ m out st', OverlapPatchEmbed_init "patch_embed1" (4 * 2) 5 2 3 64 0 = Ok m ∧
               OverlapPatchEmbed_forward (RT := ZRuntime) m true
                 (sample_tensor [1; 3; 4 * 2; 4 * 2]) sample_state
               = (Ok (out, 2, 2), st') ∧
               shape out = [1; 64; 2; 2].
Proof.
  split; [reflexivity|]. split; [lia|].
  eexists.
  assert (Hinit : OverlapPatchEmbed_init "patch_embed1" (4 * 2) 5 2 3 64 0 = Ok ?[m])
    by reflexivity.
  destruct (OverlapPatchEmbed0_forward_spec (RT := ZRuntime) "patch_embed1" 3 64 2 _
              true sample_state (sample_tensor [1; 3; 4 * 2; 4 * 2]) 1
              Hinit eq_refl ltac:(lia))
    as (p & r & s & n1 & s1 & q & n2 & s2 & out & Hrest).
  exists out, s2. split; [exact Hinit|].
  destruct Hrest as (_ & _ & _ & _ & _ & _ & _ & _ & _ & _ & _ & _ & Hs & Hf).
  split; [exact Hf|]. apply Hs. reflexivity.
Defined.

Lemma OverlapPatchEmbed0_forward_bad_size_witness :
  shape (sample_tensor [1; 3; 6; 6]) = [1; 3; 6; 6] ∧ 0 < 6 ∧ 6 `mod` 4 ≠ 0 ∧
  ∃ m, OverlapPatchEmbed_init "patch_embed1" 6 5 2 3 64 0 = Ok m ∧
       ∃ e, (OverlapPatchEmbed_forward (RT := ZRuntime) m false
               (sample_tensor [1; 3; 6; 6]) sample_state).1 = Err e ∧
            (3 <= 6 -> e = RuntimeError (BroadcastMismatch ((6 - 1) / 2 + 1)
                                           (2 * (6 / 4)))).
Proof.
  split; [reflexivity|]. split; [lia|]. split; [done|].
  eexists.
  assert (Hinit : OverlapPatchEmbed_init "patch_embed1" 6 5 2 3 64 0 = Ok ?[m])
    by reflexivity.
  split; [exact Hinit|].
  exact (OverlapPatchEmbed0_forward_bad_size (RT := ZRuntime) "patch_embed1" 3 64 6 _
           false sample_state (sample_tensor [1; 3; 6; 6]) 1
           Hinit eq_refl ltac:(lia) ltac:(done)).
Defined.

(** ** Token sequences between the stages *)

Lemma ravel_bound (s idx : list Z) :
  valid_index s idx -> 0 <= ravel s idx < numel s.
Proof.
  induction 1 as [|d k s idx Hk Hv IH]; simpl; [lia|].
  fold (numel s). nia.
Qed.

Lemma unravel_ravel (s idx : list Z) :
  valid_index s idx -> unravel s (ravel s idx) = idx.
Proof.
  induction 1 as [|d k s idx Hk Hv IH]; simpl; [done|].
  pose proof (ravel_bound s idx Hv) as Hb.
  destruct (tile_index k (ravel s idx) (numel s) Hb) as [-> ->].
  by rewrite IH.
Qed.

Lemma flatten2_spec {E} (x : tensor E) B C H W :
  shape x = [B; C; H; W] -> 0 < W ->
  ∃ f, flatten2 x = Ok f ∧ shape f = [B; C; H * W] ∧
       ∀ b c k, 0 <= b < B -> 0 <= c < C -> 0 <= k < H * W ->
                data f [b; c; k] = data x [b; c; k / W; k `mod` W].
Proof.
  intros Hs HW. unfold flatten2. rewrite Hs.
  eexists. split; [reflexivity|]. split.
  { cbn. do 3 f_equal. lia. }
  intros b c k Hb Hc Hk. cbn [data].
  assert (Hv : valid_index [B; C; H; W] [b; c; k / W; k `mod` W]).
  { repeat constructor; try lia.
    - apply Z.div_pos; lia.
    - apply Z.div_lt_upper_bound; lia.
    - apply Z.mod_pos_bound; lia.
    - apply Z.mod_pos_bound; lia. }
  f_equal. etrans; [|apply (unravel_ravel _ _ Hv)]. f_equal.
  cbn. pose proof (Z.div_mod k W ltac:(lia)). nia.
Qed.

Lemma transpose12_spec {E} (x : tensor E) B N C :
  shape x = [B; N; C] ->
  ∃ t, transpose12 x = Ok t ∧ shape t = [B; C; N] ∧
       ∀ b i j, data t [b; i; j] = data x [b; j; i].
Proof.
  intros Hs. unfold transpose12. rewrite Hs.
  eexists. split; [reflexivity|]. split; reflexivity.
Qed.

Lemma reshape_tokens_spec {E} (t : tensor E) B H W C :
  shape t = [B; H * W; C] -> 0 < B -> 0 < H -> 0 < W ->
  ∃ r, reshape_infer_last [B; H; W] t = Ok r ∧ shape r = [B; H; W; C] ∧
       ∀ b h w c, 0 <= b < B -> 0 <= h < H -> 0 <= w < W -> 0 <= c < C ->
                  data r [b; h; w; c] = data t [b; h * W + w; c].
Proof.
  intros Hs HB HH HW. unfold reshape_infer_last. rewrite Hs.
  case_bool_decide as He;
    [exfalso; revert He; rewrite !Exists_cons, Exists_nil; lia|].
  assert (Hk : numel [B; H; W] = B * H * W) by (cbn; lia).
  assert (Hn : numel [B; H * W; C] = C * (B * H * W)) by (cbn; lia).
  rewrite Hk, Hn.
  case_bool_decide; [nia|].
  rewrite bool_decide_false by (rewrite Z.mod_mul; [tauto|nia]).
  rewrite Z.div_mul by nia.
  eexists. split; [reflexivity|]. split; [reflexivity|].
  intros b h w c Hb Hh Hw Hc. cbn [data].
  assert (Hv : valid_index [B; H * W; C] [b; h * W + w; c]).
  { repeat constructor; try lia; nia. }
  f_equal. etrans; [|apply (unravel_ravel _ _ Hv)]. f_equal.
  cbn. lia.
Qed.

Lemma permute0312_spec {E} (r : tensor E) B H W C :
  shape r = [B; H; W; C] ->
  ∃ y, permute0312 r = Ok y ∧ shape y = [B; C; H; W] ∧
       ∀ b c h w, data y [b; c; h; w] = data r [b; h; w; c].
Proof.
  intros Hs. unfold permute0312. rewrite Hs.
  eexists. split; [reflexivity|]. split; reflexivity.
Qed.

(** [x.flatten(2).transpose(1, 2)] lays the feature map (B, C, H, W) out as
    H*W tokens of width C, token h*W+w being the pixel (h, w); and
    [x.reshape(B, H, W, -1).permute(0, 3, 1, 2)] undoes it: applied one after
    the other they give back the shape and every element of the feature map. *)
Theorem tokens_roundtrip {E} (x : tensor E) (B C H W : Z)
    (Hshape : shape x = [B; C; H; W]) (HB : 0 < B) (HH : 0 < H) (HW : 0 < W) :
  ∃ f t r y,
    flatten2 x = Ok f ∧ transpose12 f = Ok t ∧ shape t = [B; H * W; C] ∧
    (∀ b h w c, 0 <= b < B -> 0 <= h < H -> 0 <= w < W -> 0 <= c < C ->
                data t [b; h * W + w; c] = data x [b; c; h; w]) ∧
    reshape_infer_last [B; H; W] t = Ok r ∧ permute0312 r = Ok y ∧
    shape y = shape x ∧
    (∀ idx, valid_index (shape x) idx -> data y idx = data x idx) ∧
    to_list y = to_list x.
Proof.
  destruct (flatten2_spec x B C H W Hshape HW) as (f & Ef & Sf & Df).
  destruct (transpose12_spec f B C (H * W) Sf) as (t & Et & St & Dt).
  destruct (reshape_tokens_spec t B H W C St HB HH HW) as (r & Er & Sr & Dr).
  destruct (permute0312_spec r B H W C Sr) as (y & Ey & Sy & Dy).
  assert (Htok : ∀ b h w c, 0 <= b < B -> 0 <= h < H -> 0 <= w < W -> 0 <= c < C ->
                            data t [b; h * W + w; c] = data x [b; c; h; w]).
  { intros b h w c Hb Hh Hw Hc. rewrite Dt, Df by (try lia; nia).
    by destruct (tile_index h w W Hw) as [-> ->]. }
  assert (Hval : ∀ idx, valid_index (shape x) idx -> data y idx = data x idx).
  { intros idx Hv. rewrite Hshape in Hv.
    apply Forall2_cons_inv_l in Hv as (b & r1 & Hb & Hv & ->).
    apply Forall2_cons_inv_l in Hv as (c & r2 & Hc & Hv & ->).
    apply Forall2_cons_inv_l in Hv as (h & r3 & Hh & Hv & ->).
    apply Forall2_cons_inv_l in Hv as (w & r4 & Hw & Hv & ->).
    apply Forall2_nil_inv_l in Hv as ->.
    rewrite Dy, Dr by done. by apply Htok. }
  exists f, t, r, y. repeat split; try done.
  - by rewrite Sy, Hshape.
  - apply to_list_ext; [by rewrite Sy, Hshape|done].
Qed.

Lemma tokens_roundtrip_witness :
  shape (sample_tensor [2; 3; 2; 2]) = [2; 3; 2; 2] ∧ 0 < 2 ∧
  ∃ f t r y,
    flatten2 (sample_tensor [2; 3; 2; 2]) = Ok f ∧ transpose12 f = Ok t ∧
    reshape_infer_last [2; 2; 2] t = Ok r ∧ permute0312 r = Ok y ∧
    to_list t = [0; 4; 8; 1; 5; 9; 2; 6; 10; 3; 7; 11;
                 12; 16; 20; 13; 17; 21; 14; 18; 22; 15; 19; 23] ∧
    to_list y = to_list (sample_tensor [2; 3; 2; 2]).
Proof.
  split; [reflexivity|]. split; [lia|].
  destruct (tokens_roundtrip (sample_tensor [2; 3; 2; 2]) 2 3 2 2 eq_refl
              ltac:(lia) ltac:(lia) ltac:(lia))
    as (f & t & r & y & Ef & Et & St & Dt & Er & Ey & Sy & Dy & Hl).
  exists f, t, r, y. repeat split; try done.
  injection Ef as <-. injection Et as <-. reflexivity.
Defined.

(** ** What the constructor of the backbone leaves in the object *)

Lemma mapM_Ok_inv {A B} (f : A -> result B) (l : list A) (k : list B) :
  mapM f l = Ok k -> Forall2 (fun x y => f x = Ok y) l k.
Proof.
  revert k. induction l as [|x l IH]; intros k; simpl.
  - intros [= <-]. constructor.
  - intros (y & Hy & H)%bind_Ok_inv.
    apply bind_Ok_inv in H as (k' & Hk' & [= <-]).
    constructor; [done|]. by apply IH.
Qed.

Lemma list_getitem_Some {V} (l : list V) i v :
  list_getitem l i = Ok v -> l !! i = Some v.
Proof. unfold list_getitem. destruct (l !! i); [by intros [= ->]|done]. Qed.

Lemma VAN_init_stage_inv a dpr i self cur acc' :
  VAN_init_stage a dpr i (self, cur) = Ok acc' ->
  ∃ pe bl nm,
    stage_built a i pe bl nm ∧
    acc' = (<["norm" +:+ pretty (i + 1)%nat := ANorm nm]>
              (<["block" +:+ pretty (i + 1)%nat := ABlocks bl]>
                 (<["patch_embed" +:+ pretty (i + 1)%nat := APatchEmbed pe]> self)),
            (cur + length bl)%nat).
Proof.
  unfold VAN_init_stage. intros H.
  apply bind_Ok_inv in H as (prev & Hprev & H).
  apply bind_Ok_inv in H as (dim & Hdim%list_getitem_Some & H).
  apply bind_Ok_inv in H as (pe & Hpe & H).
  apply bind_Ok_inv in H as (depth & Hdepth%list_getitem_Some & H).
  apply bind_Ok_inv in H as (bl & Hbl%mapM_Ok_inv & H).
  apply bind_Ok_inv in H as (nm & Hnm & H).
  assert (Hlen : length bl = depth).
  { apply Forall2_length in Hbl. by rewrite length_seq in Hbl. }
  injection H as <-. exists pe, bl, nm. split; [|by rewrite Hlen].
  assert (Hstride : (if bool_decide (i = 0%nat) then 2 else 2) = 2)
    by by case_bool_decide.
  rewrite Hstride in Hpe.
  exists prev, dim, depth. repeat split; try done.
  - case_bool_decide; [by injection Hprev as <-|].
    destruct (list_getitem (embed_dims a) (i - 1)) as [e|] eqn:He; [|done].
    apply list_getitem_Some in He. injection Hprev as <-. eauto.
  - clear Hlen. induction Hbl as [|j b js bs Hb _ IH]; constructor; [|done].
    apply bind_Ok_inv in Hb as (ratio & _ & Hb).
    apply bind_Ok_inv in Hb as (dp & _ & Hb). eauto.
Qed.

Lemma stage_name_inj (i j : nat) :
  (("patch_embed" +:+ pretty (i + 1)%nat = "patch_embed" +:+ pretty (j + 1)%nat) ∨
   ("block" +:+ pretty (i + 1)%nat = "block" +:+ pretty (j + 1)%nat) ∨
   ("norm" +:+ pretty (i + 1)%nat = "norm" +:+ pretty (j + 1)%nat)) ->
  i = j.
Proof.
  intros [H|[H|H]]; simpl in H; simplify_eq; lia.
Qed.

Lemma VAN_init_loop_inv a dpr n : ∀ s self cur self' cur',
  foldM (VAN_init_stage a dpr) (seq s n) (self, cur) = Ok (self', cur') ->
  (∀ i, (s <= i < s + n)%nat ->
     ∃ pe bl nm,
       stage_built a i pe bl nm ∧
       self' !! ("patch_embed" +:+ pretty (i + 1)%nat) = Some (APatchEmbed pe) ∧
       self' !! ("block" +:+ pretty (i + 1)%nat) = Some (ABlocks bl) ∧
       self' !! ("norm" +:+ pretty (i + 1)%nat) = Some (ANorm nm)) ∧
  (∀ key,
     (∀ i, (s <= i < s + n)%nat ->
        key ≠ "patch_embed" +:+ pretty (i + 1)%nat ∧
        key ≠ "block" +:+ pretty (i + 1)%nat ∧
        key ≠ "norm" +:+ pretty (i + 1)%nat) ->
     self' !! key = self !! key).
Proof.
  induction n as [|n IH]; intros s self cur self' cur'; simpl.
  - intros [= <- <-]. split; [intros i Hi; lia|done].
  - intros (acc1 & H1 & H2)%bind_Ok_inv.
    apply VAN_init_stage_inv in H1 as (pe & bl & nm & Hb & ->).
    apply IH in H2 as [HA HB].
    split.
    + intros i Hi. destruct (decide (i = s)) as [->|Hne].
      * exists pe, bl, nm. split; [done|].
        rewrite !HB.
        -- rewrite lookup_insert_eq.
           rewrite (lookup_insert_ne _ _ ("block" +:+ pretty (s + 1)%nat)) by done.
           rewrite lookup_insert_eq.
           rewrite !(lookup_insert_ne _ _ ("patch_embed" +:+ pretty (s + 1)%nat))
             by done.
           by rewrite lookup_insert_eq.
        -- intros j Hj. repeat split; try done.
           intros E. assert (s = j) by (apply stage_name_inj; auto). lia.
        -- intros j Hj. repeat split; try done.
           intros E. assert (s = j) by (apply stage_name_inj; auto). lia.
        -- intros j Hj. repeat split; try done.
           intros E. assert (s = j) by (apply stage_name_inj; auto). lia.
      * apply HA. lia.
    + intros key Hkey. rewrite HB by (intros i Hi; apply Hkey; lia).
      destruct (Hkey s ltac:(lia)) as (K1 & K2 & K3).
      by rewrite !lookup_insert_ne by done.
Qed.

Lemma VAN_init_inv (a : VAN_args) (m : VAN) :
  VAN_init a = Ok m ->
  m !! "num_stages" = Some (ANat (num_stages a)) ∧
  m !! "depths" = Some (ADepths (depths a)) ∧
  m !! "num_classes" = (if flag a then None else Some (AInt (num_classes a))) ∧
  (∃ head, m !! "head" = Some (AHead head) ∧
     if bool_decide (0 < num_classes a)
     then ∃ e l, embed_dims a !! 3%nat = Some e ∧
                 nn_Linear "head" e (num_classes a) = Ok l ∧ head = HeadLinear l
     else head = HeadIdentity) ∧
  (∀ i, (i < num_stages a)%nat ->
     ∃ pe bl nm,
       stage_built a i pe bl nm ∧
       m !! ("patch_embed" +:+ pretty (i + 1)%nat) = Some (APatchEmbed pe) ∧
       m !! ("block" +:+ pretty (i + 1)%nat) = Some (ABlocks bl) ∧
       m !! ("norm" +:+ pretty (i + 1)%nat) = Some (ANorm nm)) ∧
  (∀ key,
     key ≠ "head" -> key ≠ "num_stages" -> key ≠ "depths" -> key ≠ "num_classes" ->
     (∀ i, (i < num_stages a)%nat ->
        key ≠ "patch_embed" +:+ pretty (i + 1)%nat ∧
        key ≠ "block" +:+ pretty (i + 1)%nat ∧
        key ≠ "norm" +:+ pretty (i + 1)%nat) ->
     m !! key = None).
Proof.
  unfold VAN_init. intros H.
  apply bind_Ok_inv in H as ([self cur] & Hloop & H).
  apply bind_Ok_inv in H as (head & Hhead & H). injection H as <-.
  apply VAN_init_loop_inv in Hloop as [HA HB].
  assert (Hbase : ∀ key, key ≠ "head" ->
            (∀ i, (i < num_stages a)%nat ->
               key ≠ "patch_embed" +:+ pretty (i + 1)%nat ∧
               key ≠ "block" +:+ pretty (i + 1)%nat ∧
               key ≠ "norm" +:+ pretty (i + 1)%nat) ->
            <["head" := AHead head]> self !! key
            = (<["num_stages" := ANat (num_stages a)]>
                 (<["depths" := ADepths (depths a)]>
                    (if negb (flag a)
                     then <["num_classes" := AInt (num_classes a)]> ∅
                     else ∅)) : VAN) !! key).
  { intros key Hk Hs. rewrite lookup_insert_ne by done.
    apply HB. intros i Hi. apply Hs. lia. }
  split; [|split; [|split; [|split; [|split]]]].
  - rewrite Hbase by done. by rewrite lookup_insert_eq.
  - rewrite Hbase by done.
    rewrite lookup_insert_ne by done. by rewrite lookup_insert_eq.
  - rewrite Hbase by done.
    rewrite !lookup_insert_ne by done.
    destruct (flag a); simpl; [done|by rewrite lookup_insert_eq].
  - exists head. split; [by rewrite lookup_insert_eq|].
    case_bool_decide; [|by injection Hhead as <-].
    apply bind_Ok_inv in Hhead as (e & He%list_getitem_Some & Hl).
    destruct (nn_Linear "head" e (num_classes a)) as [l|] eqn:El; [|done].
    injection Hl as <-. eauto.
  - intros i Hi. destruct (HA i ltac:(lia)) as (pe & bl & nm & Hb & H1 & H2 & H3).
    exists pe, bl, nm. by rewrite !lookup_insert_ne by done.
  - intros key K1 K2 K3 K4 Hs. rewrite Hbase by done.
    rewrite !lookup_insert_ne by done.
    destruct (flag a); simpl; [done|].
    by rewrite lookup_insert_ne by done.
Qed.

(** [VAN.__init__] leaves exactly these attributes in the object:
    [num_stages] and [depths] as passed, [num_classes] only when [flag] is
    false, [head] (a Linear from [embed_dims[3]] to [num_classes] when
    [num_classes > 0], whatever [num_stages] is, the identity otherwise),
    and for every stage i below [num_stages] the three attributes
    [patch_embed{i+1}], [block{i+1}] and [norm{i+1}], built from
    [embed_dims[i]], [depths[i]] and the previous width; no other name is
    set. *)
Theorem VAN_init_attributes (a : VAN_args) (m : VAN) (Hinit : VAN_init a = Ok m) :
  m !! "num_stages" = Some (ANat (num_stages a)) ∧
  m !! "depths" = Some (ADepths (depths a)) ∧
  m !! "num_classes" = (if flag a then None else Some (AInt (num_classes a))) ∧
  (∃ head, m !! "head" = Some (AHead head) ∧
     if bool_decide (0 < num_classes a)
     then ∃ e l, embed_dims a !! 3%nat = Some e ∧
                 nn_Linear "head" e (num_classes a) = Ok l ∧ head = HeadLinear l
     else head = HeadIdentity) ∧
  (∀ i, (i < num_stages a)%nat ->
     ∃ pe bl nm,
       stage_built a i pe bl nm ∧
       m !! ("patch_embed" +:+ pretty (i + 1)%nat) = Some (APatchEmbed pe) ∧
       m !! ("block" +:+ pretty (i + 1)%nat) = Some (ABlocks bl) ∧
       m !! ("norm" +:+ pretty (i + 1)%nat) = Some (ANorm nm)) ∧
  (∀ key,
     key ≠ "head" -> key ≠ "num_stages" -> key ≠ "depths" -> key ≠ "num_classes" ->
     (∀ i, (i < num_stages a)%nat ->
        key ≠ "patch_embed" +:+ pretty (i + 1)%nat ∧
        key ≠ "block" +:+ pretty (i + 1)%nat ∧
        key ≠ "norm" +:+ pretty (i + 1)%nat) ->
     m !! key = None).
Proof. by apply VAN_init_inv. Qed.

Lemma sample_model_eq : VAN_init sample_args = Ok sample_model.
Proof. vm_compute. reflexivity. Qed.

Lemma VAN_init_attributes_witness :
  VAN_init sample_args = Ok sample_model ∧
  sample_model !! "num_stages" = Some (ANat 4) ∧
  sample_model !! "num_classes" = Some (AInt 10) ∧
  sample_model !! "embed_dim" = None.
Proof.
  split; [exact sample_model_eq|].
  destruct (VAN_init_attributes sample_args sample_model sample_model_eq)
    as (H1 & H2 & H3 & H4 & H5 & H6).
  split; [exact H1|]. split; [exact H3|].
  apply H6; try done.
Defined.

(** ** More stages than the tables have entries *)

Lemma foldM_app {A S} (f : A -> S -> result S) l1 l2 s :
  foldM f (l1 ++ l2) s = (foldM f l1 s ≫= foldM f l2).
Proof.
  revert s. induction l1 as [|x l1 IH]; intros s; simpl; [done|].
  destruct (f x s); simpl; [apply IH|done].
Qed.

Lemma VAN_init_stage_indep a dpr i self cur self' cur' self2 :
  VAN_init_stage a dpr i (self, cur) = Ok (self', cur') ->
  ∃ self2', VAN_init_stage a dpr i (self2, cur) = Ok (self2', cur').
Proof.
  unfold VAN_init_stage. intros H.
  apply bind_Ok_inv in H as (prev & Hprev & H). rewrite Hprev, bind_Ok.
  apply bind_Ok_inv in H as (dim & Hdim & H). rewrite Hdim, bind_Ok.
  apply bind_Ok_inv in H as (pe & Hpe & H). rewrite Hpe, bind_Ok.
  apply bind_Ok_inv in H as (depth & Hdepth & H). rewrite Hdepth, bind_Ok.
  apply bind_Ok_inv in H as (bl & Hbl & H). rewrite Hbl, bind_Ok.
  apply bind_Ok_inv in H as (nm & Hnm & H). rewrite Hnm, bind_Ok.
  injection H as _ <-. eauto.
Qed.

Lemma VAN_init_loop_indep a dpr l : ∀ self cur self' cur' self2,
  foldM (VAN_init_stage a dpr) l (self, cur) = Ok (self', cur') ->
  ∃ self2', foldM (VAN_init_stage a dpr) l (self2, cur) = Ok (self2', cur').
Proof.
  induction l as [|i l IH]; intros self cur self' cur' self2; cbn [foldM].
  - intros [= _ <-]. eauto.
  - intros ([s1 c1] & H1 & H2)%bind_Ok_inv.
    destruct (VAN_init_stage_indep _ _ _ _ _ _ _ self2 H1) as (s2 & E2).
    rewrite E2, bind_Ok. eauto.
Qed.

Lemma OverlapPatchEmbed_init_outside name img patch st inc emb layer :
  layer < 0 ∨ 3 < layer ->
  OverlapPatchEmbed_init name img patch st inc emb layer = Err (KeyError layer).
Proof.
  intros Hl. unfold OverlapPatchEmbed_init.
  rewrite bool_decide_false by lia.
  by rewrite dict_getitem_None by (apply PatchEmbed_table_outside; lia).
Qed.

Lemma list_getitem_Ok {V} (l : list V) i v :
  l !! i = Some v -> list_getitem l i = Ok v.
Proof. unfold list_getitem. by intros ->. Qed.

Lemma list_getitem_Err {V} (l : list V) i :
  l !! i = None -> list_getitem l i = Err IndexError.
Proof. unfold list_getitem. by intros ->. Qed.

Lemma VAN_init_stage4_err a dpr self cur :
  (∃ e3, embed_dims a !! 3%nat = Some e3) ->
  VAN_init_stage a dpr 4 (self, cur)
  = Err (if bool_decide (length (embed_dims a) <= 4)%nat
         then IndexError else KeyError 4).
Proof.
  intros [e3 H3]. unfold VAN_init_stage.
  rewrite (bool_decide_false (4%nat = 0%nat)) by done.
  change (4 - 1)%nat with 3%nat.
  rewrite (list_getitem_Ok _ _ _ H3).
  change ((fun e : Z => e / 1) <$> Ok e3) with (Ok (e3 / 1)). rewrite bind_Ok.
  case_bool_decide as Hlen.
  - by rewrite (list_getitem_Err (embed_dims a) 4)
      by (apply lookup_ge_None_2; lia).
  - destruct (lookup_lt_is_Some_2 (embed_dims a) 4 ltac:(lia)) as [d Hd].
    rewrite (list_getitem_Ok _ _ _ Hd), bind_Ok.
    by rewrite OverlapPatchEmbed_init_outside by (simpl; lia).
Qed.

Lemma VAN_init_too_many_err (a : VAN_args) :
  (4 < num_stages a)%nat ->
  ∃ e, VAN_init a = Err e ∧
       (∀ m4, VAN_init (with_num_stages a 4) = Ok m4 ->
              e = if bool_decide (length (embed_dims a) <= 4)%nat
                  then IndexError else KeyError 4).
Proof.
  intros Hn.
  destruct (VAN_init a) as [m|e] eqn:E.
  - exfalso. apply VAN_init_inv in E as (_ & _ & _ & _ & Hst & _).
    destruct (Hst 4%nat Hn) as (pe & bl & nm & Hb & _).
    destruct Hb as (prev & dim & depth & _ & _ & Hpe & _).
    by rewrite OverlapPatchEmbed_init_outside in Hpe by (simpl; lia).
  - exists e. split; [done|]. intros m4 H4.
    pose proof (VAN_init_inv _ _ H4) as (_ & _ & _ & _ & Hst & _).
    destruct (Hst 3%nat ltac:(simpl; lia)) as (pe & bl & nm & Hb & _).
    destruct Hb as (prev & dim & depth & _ & Hd3 & _). simpl in Hd3.
    unfold VAN_init in H4, E. cbn [with_num_stages num_stages flag num_classes
      depths drop_path_rate embed_dims] in H4.
    apply bind_Ok_inv in H4 as ([s4 c4] & Hloop & _).
    change (VAN_init_stage (with_num_stages a 4)) with (VAN_init_stage a) in Hloop.
    set (self0 := <["num_stages" := ANat (num_stages a)]> _) in E.
    destruct (VAN_init_loop_indep _ _ _ _ _ _ _ self0 Hloop) as (s4' & Hloop').
    replace (num_stages a) with (4 + S (num_stages a - 5))%nat in E by lia.
    rewrite seq_app, foldM_app, Hloop', bind_Ok in E.
    cbn [seq foldM Nat.add] in E. rewrite VAN_init_stage4_err in E by eauto.
    rewrite bind_Err in E. by injection E as <-.
Qed.

(** The loop of [VAN.__init__] runs over [range(num_stages)] and every
    stage reads the per-stage tables, which end at stage 3: with
    [num_stages >= 5] the constructor never returns a model.  When the same
    arguments with [num_stages = 4] do construct, the exception is the
    IndexError of [embed_dims[4]] if [embed_dims] has only four entries and
    otherwise the KeyError of the table lookup for stage 4. *)
Theorem VAN_init_too_many_stages (a : VAN_args) (Hn : (4 < num_stages a)%nat) :
  ∃ e, VAN_init a = Err e ∧
       (∀ m4, VAN_init (with_num_stages a 4) = Ok m4 ->
              e = if bool_decide (length (embed_dims a) <= 4)%nat
                  then IndexError else KeyError 4).
Proof. by apply VAN_init_too_many_err. Qed.

Lemma VAN_init_too_many_stages_witness :
  (4 < num_stages (with_num_stages sample_args 5))%nat ∧
  VAN_init (with_num_stages sample_args 5) = Err IndexError.
Proof.
  split; [simpl; lia|].
  destruct (VAN_init_too_many_stages (with_num_stages sample_args 5)
              ltac:(simpl; lia)) as (e & He & Hk).
  rewrite He. f_equal. exact (Hk sample_model sample_model_eq).
Defined.

(** ** The whole network on the widths the tables were written for *)

Section Network.
Context `{RT : Runtime}.

(** Stages 1-3 of the embedding: the shape of the result. *)
Lemma OverlapPatchEmbed_forward_shape name img patch st inc emb layer c cout h w ks
    (m : OverlapPatchEmbed) training s0 (x : tensor elt) B N :
  PatchEmbed_table !! layer = Some (c, cout, h, w, ks) ->
  OverlapPatchEmbed_init name img patch st inc emb layer = Ok m ->
  shape x = [B; c * h * w; N; N] -> N = 2 * (img / st) -> 0 < N ->
  (training = true -> B * (N * h) * (N * w) ≠ 1) ->
  ∃ out s1,
    OverlapPatchEmbed_forward m training x s0 = (Ok (out, N / 2, N / 2), s1) ∧
    shape out = [B; cout * (h * 2) * (w * 2); N / 2; N / 2].
Proof.
  intros Hstage Hinit Hshape HN Hpos Htrain.
  destruct (OverlapPatchEmbed_init_inv _ _ _ _ _ _ _ _ _ _ _ _ _ Hstage Hinit)
    as [Hst ->].
  set (Hh := img / st) in *.
  assert (Hfacts : 1 <= layer <= 3 ∧ 0 < h ∧ 0 < w ∧ 0 < cout ∧
                   2 * (ks / 2) = ks - 1).
  { apply PatchEmbed_table_inv in Hstage.
    destruct Hstage as [[-> [= -> -> -> -> ->]]|[[-> [= -> -> -> -> ->]]|
                       [-> [= -> -> -> -> ->]]]]; by compute. }
  destruct Hfacts as (Hl & Hh0 & Hw0 & Hc0 & Hks).
  assert (Hd1 : N / 2 = Hh) by (rewrite HN, Z.mul_comm; apply Z.div_mul; lia).
  rewrite Hd1.
  destruct (rearrange_c2s_shape h w x B c N N Hh0 Hw0 Hshape) as (x1 & E1 & S1 & _).
  set (proj2 := mkConv2d (name +:+ ".proj2") _ _ _ _ _ _ _ _).
  pose proof (Conv2d_forward_same proj2 x1 B c (N * h) (N * w) S1 eq_refl eq_refl
                ltac:(simpl; lia) ltac:(simpl; lia) ltac:(lia) ltac:(lia)) as E2.
  set (p := Tensor [B; out_channels proj2; N * h; N * w] _) in E2.
  set (pname := "pos_embed" +:+ pretty (layer + 1)).
  set (pos := mkParam (name +:+ ".pos_embed" +:+ pretty (layer + 1)) _).
  assert (E3 : tensor_repeat [1; 1; Hh; Hh] (param_tensor pos)
               = Ok (Tensor [1; cout; N * h; N * w]
                       (fun idx => param_data pos (zip_with Z.modulo idx (p_shape pos))))).
  { unfold tensor_repeat. cbn.
    case_bool_decide; [done|].
    case_bool_decide as He;
      [exfalso; revert He; rewrite !Exists_cons, Exists_nil; lia|].
    do 2 f_equal. rewrite Z.mul_1_r. repeat (f_equal; try lia). }
  set (r := Tensor [1; cout; N * h; N * w] _) in E3.
  destruct (tensor_binop_batch fadd p r B cout (N * h) (N * w) eq_refl eq_refl)
    as (s & E4 & S4 & D4).
  pose proof (BatchNorm2d_forward_ok (mkBatchNorm2d (name +:+ ".norm2") cout)
                training s s0 B cout (N * h) (N * w) S4 eq_refl Htrain) as E5.
  set (n := Tensor (shape s) _) in E5. set (s1 := if training then _ else s0) in E5.
  assert (S5 : shape n = [B; cout; Hh * (h * 2); Hh * (w * 2)]).
  { unfold n. cbn [shape]. rewrite S4. repeat (f_equal; try lia). }
  destruct (rearrange_s2c_shape (h * 2) (w * 2) n B cout Hh Hh
              ltac:(lia) ltac:(lia) S5) as (out & E6 & S6 & _).
  exists out, s1. split; [|done].
  unfold OverlapPatchEmbed_forward, pos_embed_repeat.
  cbn [pe_layer pe_h pe_w pe_proj2 pe_params pe_norm2 pe_H pe_W].
  rewrite bool_decide_false by lia.
  unfold mbind, M_bind, lift. rewrite E1, E2.
  fold pname. rewrite lookup_insert_eq. cbn [req result_bind].
  fold pos. fold Hh. rewrite E3. unfold tadd. rewrite E4, E5, E6.
  unfold shape_HW. rewrite S6. reflexivity.
Qed.

Lemma blocks_forward_shape dim drop layer c h w ks (bl : list Block) training
    (B H W : Z) :
  Attention_table !! layer = Some (c, h, w, ks) -> dim = c * h * w ->
  Forall (fun b => ∃ name ratio dp, Block_init name dim ratio drop dp layer = Ok b) bl ->
  0 < H -> 0 < W -> (training = true -> B * H * W ≠ 1) ->
  ∀ (x : tensor elt) st, shape x = [B; dim; H; W] ->
    ∃ y st', blocks_forward bl training x st = (Ok y, st') ∧ shape y = [B; dim; H; W].
Proof.
  intros Ht Hdim Hall HH HW Htrain.
  induction Hall as [|b bl (name & ratio & dp & Hb) _ IH]; intros x st Hs; simpl.
  - by exists x, st.
  - destruct (Block_forward_ok name dim ratio drop dp layer c h w ks b training st
                x B H W Ht Hdim Hb Hs HH HW Htrain)
      as (n1 & s1 & a & sa & d1 & s2 & x1 & n2 & s3 & f & s4 & sf & d2 & s5 & y
          & _ & _ & _ & _ & _ & _ & _ & _ & _ & _ & Efw & _ & _ & _ & Sy & _).
    unfold mbind, M_bind. rewrite Efw.
    apply IH. by rewrite Sy.
Qed.

(** What follows the blocks in one iteration of [forward_features]. *)
Lemma stage_tail_shape (nm : LayerNorm) (ns i : nat) (x : tensor elt) st B C H W :
  shape x = [B; C; H; W] -> normalized_shape nm = C ->
  0 < B -> 0 < H -> 0 < W ->
  ∃ y,
    (x ← lift (flatten2 x);
     x ← lift (transpose12 x);
     x ← lift (LayerNorm_forward nm x);
     if bool_decide (Z.of_nat i ≠ Z.of_nat ns - 1)
     then x ← lift (reshape_infer_last [B; H; W] x); lift (permute0312 x)
     else mret x) st = (Ok y, st) ∧
    shape y = if bool_decide (Z.of_nat i ≠ Z.of_nat ns - 1)
              then [B; C; H; W] else [B; H * W; C].
Proof.
  intros Hs Hn HB HH HW.
  destruct (flatten2_spec x B C H W Hs HW) as (f & Ef & Sf & _).
  destruct (transpose12_spec f B C (H * W) Sf) as (t & Et & St & _).
  assert (El : LayerNorm_forward nm t = Ok (Tensor (shape t) (layer_norm_data nm t))).
  { unfold LayerNorm_forward. rewrite St. simpl. by rewrite bool_decide_true. }
  set (l := Tensor (shape t) _) in El.
  assert (Sl : shape l = [B; H * W; C]) by done.
  unfold mbind, M_bind, lift. rewrite Ef, Et, El.
  case_bool_decide.
  - destruct (reshape_tokens_spec l B H W C Sl HB HH HW) as (r & Er & Sr & _).
    destruct (permute0312_spec r B H W C Sr) as (y & Ey & Sy & _).
    rewrite Er, Ey. by exists y.
  - by exists l.
Qed.

(** One iteration of [forward_features], given what the embedding of the
    stage returns. *)
Lemma stage_forward_shape (self : VAN) (ns i : nat) B training (x : tensor elt) st
    pe bl nm dim drop c h w ks H :
  self !! ("patch_embed" +:+ pretty (i + 1)%nat) = Some (APatchEmbed pe) ->
  self !! ("block" +:+ pretty (i + 1)%nat) = Some (ABlocks bl) ->
  self !! ("norm" +:+ pretty (i + 1)%nat) = Some (ANorm nm) ->
  (∃ out s1, OverlapPatchEmbed_forward pe training x st = (Ok (out, H, H), s1) ∧
             shape out = [B; dim; H; H]) ->
  Attention_table !! Z.of_nat i = Some (c, h, w, ks) -> dim = c * h * w ->
  Forall (fun b => ∃ name ratio dp,
                     Block_init name dim ratio drop dp (Z.of_nat i) = Ok b) bl ->
  normalized_shape nm = dim -> 0 < B -> 0 < H ->
  (training = true -> B * H * H ≠ 1) ->
  ∃ y st', stage_forward self ns B training i x st = (Ok y, st') ∧
           shape y = if bool_decide (Z.of_nat i ≠ Z.of_nat ns - 1)
                     then [B; dim; H; H] else [B; H * H; dim].
Proof.
  intros Lpe Lbl Lnm (out & s1 & Epe & Sout) Ht Hdim Hall Hn HB HH Htrain.
  destruct (blocks_forward_shape dim drop (Z.of_nat i) c h w ks bl training B H H
              Ht Hdim Hall HH HH Htrain out s1 Sout) as (y1 & s2 & Ebl & Sy1).
  destruct (stage_tail_shape nm ns i y1 s2 B dim H H Sy1 Hn HB HH HH)
    as (y & Ey & Sy).
  exists y, s2. split; [|done].
  unfold stage_forward, getattr. rewrite Lpe, Lbl, Lnm.
  unfold mbind at 1 2 3, M_bind at 1 2 3, lift at 1 2 3.
  unfold mbind at 1, M_bind at 1. rewrite Epe.
  unfold mbind at 1, M_bind at 1. rewrite Ebl.
  exact Ey.
Qed.

(** One iteration of [forward_features] for a stage after the first, on a
    model the constructor built. *)
Lemma stage_next_shape (a : VAN_args) (m : VAN) (ns i : nat) B training
    (x : tensor elt) st pe bl nm c cout h w ks c' h' w' ks' dim N :
  (1 <= i)%nat -> stage_built a i pe bl nm ->
  m !! ("patch_embed" +:+ pretty (i + 1)%nat) = Some (APatchEmbed pe) ->
  m !! ("block" +:+ pretty (i + 1)%nat) = Some (ABlocks bl) ->
  m !! ("norm" +:+ pretty (i + 1)%nat) = Some (ANorm nm) ->
  embed_dims a !! i = Some dim ->
  PatchEmbed_table !! Z.of_nat i = Some (c, cout, h, w, ks) ->
  Attention_table !! Z.of_nat i = Some (c', h', w', ks') ->
  dim = cout * (h * 2) * (w * 2) -> dim = c' * h' * w' ->
  (∀ name d n, norm_layer a name d = Ok n -> normalized_shape n = d) ->
  shape x = [B; c * h * w; N; N] ->
  N = 2 * (img_size a / 2 ^ (Z.of_nat i + 1) / 2) -> 0 < N -> 0 < B ->
  (training = true -> B * (N / 2) * (N / 2) ≠ 1) ->
  ∃ y st', stage_forward m ns B training i x st = (Ok y, st') ∧
           shape y = if bool_decide (Z.of_nat i ≠ Z.of_nat ns - 1)
                     then [B; dim; N / 2; N / 2] else [B; N / 2 * (N / 2); dim].
Proof.
  intros Hi (prev & dim0 & depth & _ & Hd & Hpe & _ & _ & Hall & Hnm)
    Lpe Lbl Lnm Hdim Hpt Hat Hdim1 Hdim2 Hnorm Hs HN HN0 HB Htrain.
  rewrite Hdim in Hd. injection Hd as <-.
  rewrite (bool_decide_false (i = 0%nat)) in Hpe by lia.
  assert (Hhw : 0 < h ∧ 0 < w).
  { apply PatchEmbed_table_inv in Hpt.
    destruct Hpt as [[_ [= _ _ -> -> _]]|[[_ [= _ _ -> -> _]]|
                    [_ [= _ _ -> -> _]]]]; lia. }
  destruct (OverlapPatchEmbed_forward_shape _ _ _ _ _ _ _ _ _ _ _ _ pe training st
              x B N Hpt Hpe Hs HN HN0 ltac:(intros _; nia))
    as (out & s1 & Epe & Sout).
  apply (stage_forward_shape m ns i B training x st pe bl nm dim (drop_rate a)
           c' h' w' ks' (N / 2)); try done.
  - exists out, s1. split; [done|]. by rewrite Hdim1.
  - by eapply Hnorm.
  - zdiv.
Qed.

(** The forward pass of a model built with the widths [64, 128, 320, 512],
    possibly with further attributes ([default_cfg]) set by a preset. *)
Lemma network_forward_ok (a : VAN_args) (m0 m : VAN) training (x : tensor elt)
    st B k :
  VAN_init a = Ok m0 ->
  (∀ key, key ≠ "default_cfg" -> m !! key = m0 !! key) ->
  embed_dims a = [64; 128; 320; 512] -> num_stages a = 4%nat ->
  img_size a = 32 * k -> 0 < k ->
  (∀ name d n, norm_layer a name d = Ok n -> normalized_shape n = d) ->
  shape x = [B; in_chans a; 32 * k; 32 * k] -> 0 < B ->
  (training = true -> B * k * k ≠ 1) ->
  ∃ f y st',
    VAN_forward_features m training x st = (Ok f, st') ∧ shape f = [B; 512] ∧
    VAN_forward m training x st = (Ok y, st') ∧
    shape y = (if bool_decide (0 < num_classes a)
               then [B; num_classes a] else [B; 512]).
Proof.
  intros Hinit Hm Hdims Hns Himg Hk Hnorm Hs HB Htrain.
  destruct (VAN_init_inv _ _ Hinit) as (Lns & _ & _ & (head & Lhead & Hhead) & Hst & _).
  rewrite Hns in Lns.
  destruct (Hst 0%nat ltac:(lia)) as (pe0 & bl0 & nm0 & Hb0 & Lp0 & Lb0 & Ln0).
  destruct (Hst 1%nat ltac:(lia)) as (pe1 & bl1 & nm1 & Hb1 & Lp1 & Lb1 & Ln1).
  destruct (Hst 2%nat ltac:(lia)) as (pe2 & bl2 & nm2 & Hb2 & Lp2 & Lb2 & Ln2).
  destruct (Hst 3%nat ltac:(lia)) as (pe3 & bl3 & nm3 & Hb3 & Lp3 & Lb3 & Ln3).
  rewrite <- Hm in Lns, Lhead, Lp0, Lb0, Ln0, Lp1, Lb1, Ln1, Lp2, Lb2, Ln2,
    Lp3, Lb3, Ln3 by done.
  (* stage 0 *)
  assert (H0 : ∃ y st', stage_forward m 4 B training 0 x st = (Ok y, st') ∧
                        shape y = [B; 64; 8 * k; 8 * k]).
  { destruct Hb0 as (prev & dim & depth & Hprev & Hd & Hpe & _ & _ & Hall & Hnm).
    rewrite Hdims in Hd. injection Hd as <-.
    rewrite (bool_decide_true (0%nat = 0%nat)) in Hprev, Hpe by done.
    subst prev. rewrite Himg in Hpe.
    replace (32 * k) with (4 * (8 * k)) in Hpe, Hs by lia.
    destruct (OverlapPatchEmbed0_forward_ok _ _ _ _ _ training st x B Hpe Hs
                ltac:(lia))
      as (p & r & s & n1 & s1 & q & n2 & s2 & out & _ & _ & _ & _ & _ & _ & _
          & _ & _ & _ & _ & Sout & Epe).
    destruct (stage_forward_shape m 4 0 B training x st pe0 bl0 nm0 64 (drop_rate a)
                16 2 2 1 (8 * k) Lp0 Lb0 Ln0) as (y & st' & Ey & Sy); try done.
    - by exists out, s2.
    - by eapply Hnorm.
    - lia.
    - intros _. nia.
    - exists y, st'. split; [done|].
      by rewrite bool_decide_true in Sy by (simpl; lia). }
  destruct H0 as (y0 & s0 & E0 & S0).
  (* stage 1 *)
  destruct (stage_next_shape a m 4 1 B training y0 s0 pe1 bl1 nm1 16 8 2 2 5
              8 4 4 3 128 (8 * k)) as (y1 & s1 & E1 & S1); try done.
  { by rewrite Hdims. }
  { rewrite Himg. change (2 ^ (Z.of_nat 1 + 1)) with 4. zdiv. }
  { lia. }
  { intros _. replace (8 * k / 2) with (4 * k) by zdiv. nia. }
  rewrite bool_decide_true in S1 by (simpl; lia).
  replace (8 * k / 2) with (4 * k) in S1 by zdiv.
  (* stage 2 *)
  destruct (stage_next_shape a m 4 2 B training y1 s1 pe2 bl2 nm2 8 5 4 4 7
              5 8 8 5 320 (4 * k)) as (y2 & s2 & E2 & S2); try done.
  { lia. }
  { by rewrite Hdims. }
  { rewrite Himg. change (2 ^ (Z.of_nat 2 + 1)) with 8. zdiv. }
  { lia. }
  { intros _. replace (4 * k / 2) with (2 * k) by zdiv. nia. }
  rewrite bool_decide_true in S2 by (simpl; lia).
  replace (4 * k / 2) with (2 * k) in S2 by zdiv.
  (* stage 3 *)
  destruct (stage_next_shape a m 4 3 B training y2 s2 pe3 bl3 nm3 5 2 8 8 9
              2 16 16 7 512 (2 * k)) as (y3 & s3 & E3 & S3); try done.
  { lia. }
  { by rewrite Hdims. }
  { rewrite Himg. change (2 ^ (Z.of_nat 3 + 1)) with 16. zdiv. }
  { lia. }
  { replace (2 * k / 2) with k by zdiv. intros Ht. specialize (Htrain Ht). nia. }
  rewrite bool_decide_false in S3 by (simpl; lia).
  replace (2 * k / 2) with k in S3 by zdiv.
  (* the loop, the mean and the head *)
  set (f := Tensor [B; 512]
              (fun idx => match idx with
                          | ib :: r =>
                              fmean ((fun j => data y3 (ib :: j :: r))
                                       <$> seqZ 0 (k * k))
                          | [] => fmean []
                          end)).
  assert (Ef : VAN_forward_features m training x st = (Ok f, s3)).
  { unfold VAN_forward_features, getattr, shape0. rewrite Hs, Lns.
    change ((stages_forward m 4 B training [0; 1; 2; 3]%nat x
             ≫= fun x0 => lift (mean1 x0)) st = (Ok f, s3)).
    cbn [stages_forward].
    unfold mbind, M_bind, lift, mret, M_ret. rewrite E0, E1, E2, E3.
    unfold mean1. by rewrite S3. }
  exists f.
  unfold VAN_forward, getattr. unfold mbind at 1, M_bind at 1. rewrite Ef.
  rewrite Lhead. unfold mbind, M_bind, lift.
  case_bool_decide as Hnc.
  - destruct Hhead as (e & l & He & Hl & ->).
    rewrite Hdims in He. injection He as <-.
    unfold nn_Linear in Hl. case_bool_decide; [done|]. injection Hl as <-.
    unfold Linear_forward. cbn [shape f last in_features out_features].
    rewrite bool_decide_true by done.
    eexists _, s3. repeat split; reflexivity.
  - subst head. exists f, s3. repeat split; reflexivity.
Qed.

End Network.

Lemma nn_LayerNorm_shape e name d n :
  nn_LayerNorm e name d = Ok n -> normalized_shape n = d.
Proof. unfold nn_LayerNorm. case_bool_decide; [done|]. by intros [= <-]. Qed.

Lemma preset_forward_ok `{RT : Runtime} (ratios : list Z) (ds : list nat)
    (kw : kwargs) (m : VAN) training (x : tensor elt) st B k :
  preset [64; 128; 320; 512] ratios ds kw = Ok m ->
  kw_num_stages kw = 4%nat -> kw_img_size kw = 32 * k -> 0 < k ->
  shape x = [B; kw_in_chans kw; 32 * k; 32 * k] -> 0 < B ->
  (training = true -> B * k * k ≠ 1) ->
  ∃ y st',
    VAN_forward m training x st = (Ok y, st') ∧
    shape y = (if bool_decide (0 < kw_num_classes kw)
               then [B; kw_num_classes kw] else [B; 512]).
Proof.
  intros Hm Hns Himg Hk Hs HB Htrain. unfold preset in Hm.
  apply bind_Ok_inv in Hm as (m0 & Hinit & [= <-]).
  destruct (network_forward_ok _ m0 (<["default_cfg" := ACfg]> m0) training x st B k
              Hinit) as (f & y & st' & _ & _ & Ey & Sy); try done.
  - intros key Hkey. by rewrite lookup_insert_ne.
  - intros name d n. apply nn_LayerNorm_shape.
  - by exists y, st'.
Qed.

(** A model built by [VAN.__init__] with the widths [64, 128, 320, 512],
    four stages and an image side 32k (any depths, ratios, rates and input
    channels; a norm layer built over the width it is given) runs on every
    batch of B > 0 images of that side, in training mode provided the last
    stage sees more than one value per channel: [forward_features] returns
    (B, 512) and [forward] returns (B, num_classes), or (B, 512) through the
    identity head when [num_classes <= 0]; in evaluation mode the state is
    left as it was. *)
Theorem VAN_forward_shape `{RT : Runtime} (a : VAN_args) (m : VAN)
    (training : bool) (x : tensor elt) (st : state) (B k : Z)
    (Hinit : VAN_init a = Ok m)
    (Hdims : embed_dims a = [64; 128; 320; 512]) (Hns : num_stages a = 4%nat)
    (Himg : img_size a = 32 * k) (Hk : 0 < k)
    (Hnorm : ∀ name d n, norm_layer a name d = Ok n -> normalized_shape n = d)
    (Hshape : shape x = [B; in_chans a; 32 * k; 32 * k]) (HB : 0 < B)
    (Htrain : training = true -> B * k * k ≠ 1) :
  ∃ f y st',
    VAN_forward_features m training x st = (Ok f, st') ∧ shape f = [B; 512] ∧
    VAN_forward m training x st = (Ok y, st') ∧
    shape y = (if bool_decide (0 < num_classes a)
               then [B; num_classes a] else [B; 512]) ∧
    (training = false -> st' = st).
Proof.
  destruct (network_forward_ok a m m training x st B k Hinit ltac:(done) Hdims Hns
              Himg Hk Hnorm Hshape HB Htrain) as (f & y & st' & Ef & Sf & Ey & Sy).
  exists f, y, st'. repeat split; try done.
  intros ->. pose proof (proj1 (VAN_forward_eval m x st)) as P.
  by rewrite Ey in P.
Qed.

Lemma VAN_forward_shape_witness :
  VAN_init sample_args = Ok sample_model ∧
  shape (sample_tensor [2; 3; 32; 32]) = [2; in_chans sample_args; 32 * 1; 32 * 1] ∧
  2 * 1 * 1 ≠ 1 ∧
  ∃ y st', VAN_forward (RT := ZRuntime) sample_model true
             (sample_tensor [2; 3; 32; 32]) sample_state = (Ok y, st') ∧
           shape y = [2; 10].
Proof.
  split; [exact sample_model_eq|]. split; [reflexivity|]. split; [lia|].
  destruct (VAN_forward_shape (RT := ZRuntime) sample_args sample_model true
              (sample_tensor [2; 3; 32; 32]) sample_state 2 1
              sample_model_eq eq_refl eq_refl eq_refl ltac:(lia)
              (nn_LayerNorm_shape (1 # 1000000)) eq_refl ltac:(lia)
              (fun _ => ltac:(lia)))
    as (f & y & st' & _ & _ & Ey & Sy & _).
  exists y, st'. split; [exact Ey|exact Sy].
Defined.

(** The presets [van_small], [van_base] and [van_large] (the three that
    pass the widths [64, 128, 320, 512]), called with any keyword arguments
    that keep four stages and give an image side 32k, return a model that
    runs on every batch of B > 0 images of that side and returns
    (B, num_classes), or (B, 512) when [num_classes <= 0]; in training mode
    provided the last stage sees more than one value per channel. *)
Theorem presets_forward_shape `{RT : Runtime} (kw : kwargs) (m : VAN)
    (training : bool) (x : tensor elt) (st : state) (B k : Z)
    (Hm : van_small kw = Ok m ∨ van_base kw = Ok m ∨ van_large kw = Ok m)
    (Hns : kw_num_stages kw = 4%nat) (Himg : kw_img_size kw = 32 * k) (Hk : 0 < k)
    (Hshape : shape x = [B; kw_in_chans kw; 32 * k; 32 * k]) (HB : 0 < B)
    (Htrain : training = true -> B * k * k ≠ 1) :
  ∃ y st',
    VAN_forward m training x st = (Ok y, st') ∧
    shape y = (if bool_decide (0 < kw_num_classes kw)
               then [B; kw_num_classes kw] else [B; 512]).
Proof.
  destruct Hm as [Hm|[Hm|Hm]];
    by eapply (preset_forward_ok _ _ kw m training x st B k Hm).
Qed.

Lemma presets_forward_shape_witness :
  kw_img_size default_kwargs = 32 * 7 ∧ 1 * 7 * 7 ≠ 1 ∧
  ∃ y st', VAN_forward (RT := ZRuntime) van_small_model true
             (sample_tensor [1; 3; 224; 224]) sample_state = (Ok y, st') ∧
           shape y = [1; 1000].
Proof.
  split; [reflexivity|]. split; [lia|].
  destruct (presets_forward_shape (RT := ZRuntime) default_kwargs van_small_model
              true (sample_tensor [1; 3; 224; 224]) sample_state 1 7
              (or_introl van_small_model_eq) eq_refl eq_refl ltac:(lia) eq_refl
              ltac:(lia) (fun _ => ltac:(lia)))
    as (y & st' & Ey & Sy).
  exists y, st'. split; [exact Ey|exact Sy].
Defined.

(** ** A width the tables do not fit *)

Section WrongWidth.
Context `{RT : Runtime}.

Lemma stage_forward_wrong (m : VAN) (ns i : nat) B training (x : tensor elt) st
    pe b rest nm :
  m !! ("patch_embed" +:+ pretty (i + 1)%nat) = Some (APatchEmbed pe) ->
  m !! ("block" +:+ pretty (i + 1)%nat) = Some (ABlocks (b :: rest)) ->
  m !! ("norm" +:+ pretty (i + 1)%nat) = Some (ANorm nm) ->
  (∀ y s, ∃ e, (Block_forward b training y s).1 = Err e) ->
  ∃ e, (stage_forward m ns B training i x st).1 = Err e.
Proof.
  intros Lpe Lbl Lnm Hb.
  unfold stage_forward, getattr. rewrite Lpe, Lbl, Lnm.
  unfold mbind at 1 2 3, M_bind at 1 2 3, lift at 1 2 3.
  unfold mbind at 1, M_bind at 1.
  destruct (OverlapPatchEmbed_forward pe training x st) as [[[[out H] W]|e] s1];
    [|by exists e].
  unfold mbind at 1, M_bind at 1. cbn [blocks_forward].
  unfold mbind at 1, M_bind at 1.
  destruct (Hb out s1) as [e He].
  destruct (Block_forward b training out s1) as [[y|e'] s2]; [done|].
  by exists e'.
Qed.

Lemma stages_forward_wrong (m : VAN) (ns i : nat) B training (l : list nat) :
  i ∈ l ->
  (∀ (x : tensor elt) st, ∃ e, (stage_forward m ns B training i x st).1 = Err e) ->
  ∀ (x : tensor elt) st, ∃ e, (stages_forward m ns B training l x st).1 = Err e.
Proof.
  intros Hi Hf. induction l as [|j l IH]; intros x st.
  - by apply elem_of_nil in Hi.
  - cbn [stages_forward]. unfold mbind, M_bind.
    destruct (stage_forward m ns B training j x st) as [[y|e] s] eqn:E;
      [|by exists e].
    apply elem_of_cons in Hi as [->|Hi].
    + destruct (Hf x st) as [e He]. by rewrite E in He.
    + by apply IH.
Qed.

Lemma VAN_forward_wrong_err (a : VAN_args) (m0 m : VAN) (i n : nat)
    (d c h w ks : Z) training (x : tensor elt) st :
  VAN_init a = Ok m0 -> m = m0 ∨ m = <["default_cfg" := ACfg]> m0 ->
  (i < num_stages a)%nat ->
  embed_dims a !! i = Some d -> depths a !! i = Some (S n) ->
  Attention_table !! Z.of_nat i = Some (c, h, w, ks) -> d ≠ c * h * w ->
  ∃ e, (VAN_forward m training x st).1 = Err e.
Proof.
  intros Hinit Hm Hi Hd Hdep Ht Hne.
  assert (Hkey : ∀ key, key ≠ "default_cfg" -> m !! key = m0 !! key).
  { intros key Hk. destruct Hm as [->| ->]; [done|]. by rewrite lookup_insert_ne. }
  destruct (VAN_init_inv _ _ Hinit) as (Lns & _ & _ & _ & Hst & _).
  destruct (Hst i Hi) as (pe & bl & nm & Hb & Lpe & Lbl & Lnm).
  rewrite <- Hkey in Lns, Lpe, Lbl, Lnm by done.
  destruct Hb as (prev & dim & depth & _ & Hd' & _ & Hdep' & Hlen & Hall & _).
  rewrite Hd in Hd'. injection Hd' as <-.
  rewrite Hdep in Hdep'. injection Hdep' as <-.
  destruct bl as [|b rest]; [done|].
  apply Forall_cons in Hall as [(name & ratio & dp & Hb) _].
  unfold VAN_forward, VAN_forward_features, getattr. rewrite Lns.
  unfold mbind at 1, M_bind at 1. unfold mbind at 1, M_bind at 1.
  unfold lift at 1.
  destruct (shape0 x) as [B|e]; [|by exists e].
  unfold mbind at 1, M_bind at 1, lift at 1.
  unfold mbind at 1, M_bind at 1.
  destruct (stages_forward_wrong m (num_stages a) i B training
              (seq 0 (num_stages a))) with (x := x) (st := st) as [e He].
  - apply elem_of_seq. lia.
  - intros x' st'. eapply stage_forward_wrong; [done..|].
    intros y s. by eapply Block_forward_wrong_err.
  - destruct (stages_forward m (num_stages a) B training (seq 0 (num_stages a)) x st)
      as [[y|e'] s]; [done|]. by exists e'.
Qed.

End WrongWidth.

(** A constructed model (directly or through a preset) with a stage whose
    width [embed_dims[i]] is not the c*h*w of the stage's table entry, and
    at least one block in that stage, never returns from [forward]: on every
    input, in both modes and from every state the call raises.  The tables
    fit the widths 64, 128, 320, 512; the defaults of [VAN.__init__]
    ([64, 128, 256, 512]) and [van_tiny] do not have them. *)
Theorem VAN_forward_wrong_width `{RT : Runtime} (a : VAN_args) (m0 m : VAN)
    (i n : nat) (d c h w ks : Z) (training : bool) (x : tensor elt) (st : state)
    (Hinit : VAN_init a = Ok m0)
    (Hm : m = m0 ∨ m = <["default_cfg" := ACfg]> m0)
    (Hi : (i < num_stages a)%nat)
    (Hd : embed_dims a !! i = Some d) (Hdep : depths a !! i = Some (S n))
    (Ht : Attention_table !! Z.of_nat i = Some (c, h, w, ks))
    (Hne : d ≠ c * h * w) :
  ∃ e, (VAN_forward m training x st).1 = Err e.
Proof. by eapply VAN_forward_wrong_err. Qed.

Lemma default_model_eq : VAN_init default_args = Ok default_model.
Proof. vm_compute. reflexivity. Qed.

Lemma VAN_forward_wrong_width_witness :
  VAN_init default_args = Ok default_model ∧
  embed_dims default_args !! 2%nat = Some 256 ∧
  Attention_table !! Z.of_nat 2 = Some (5, 8, 8, 5) ∧ 256 ≠ 5 * 8 * 8 ∧
  ∃ e, (VAN_forward (RT := ZRuntime) default_model false
          (sample_tensor [1; 3; 224; 224]) sample_state).1 = Err e.
Proof.
  split; [exact default_model_eq|]. split; [reflexivity|].
  split; [reflexivity|]. split; [lia|].
  exact (VAN_forward_wrong_width (RT := ZRuntime) default_args default_model
           default_model 2 5 256 5 8 8 5 false (sample_tensor [1; 3; 224; 224])
           sample_state default_model_eq (or_introl eq_refl) ltac:(simpl; lia)
           eq_refl eq_refl eq_refl ltac:(lia)).
Defined.

(** ** The stochastic depth schedule *)



Lemma sum_list_take_le (l : list nat) i : (sum_list (take i l) <= sum_list l)%nat.
Proof.
  rewrite <- (take_drop i l) at 2. rewrite sum_list_with_app. lia.
Qed.







(** ** The depthwise convolution *)

(** [DWConv.forward] is the convolution built by [DWConv.__init__] and
    nothing else: kernel ks of the stage's table entry, stride 1, padding
    ks/2 and one group per channel.  On an input (B, dim, H, W) it returns
    that convolution's output, of the input's shape; on an input with another
    channel count it raises the convolution's channel error. *)
Theorem DWConv_forward_spec `{RT : Runtime} (name : string) (dim layer : Z)
    (m : DWConv) (x : tensor elt) (B C H W : Z)
    (Hinit : DWConv_init name dim layer = Ok m)
    (Hshape : shape x = [B; C; H; W]) (HH : 0 < H) (HW : 0 < W) :
  ∃ ks, DWConv_table !! layer = Some ks ∧
        dw_dwconv m = mkConv2d (name +:+ ".dwconv") dim dim (ks, ks) (1, 1)
                        (ks / 2, ks / 2) (1, 1) dim true ∧
        DWConv_forward m x = Conv2d_forward (dw_dwconv m) x ∧
        (C = dim ->
         DWConv_forward m x
         = Ok (Tensor [B; dim; H; W] (conv2d_data (dw_dwconv m) x))) ∧
        (C ≠ dim ->
         DWConv_forward m x = Err (RuntimeError (ChannelMismatch dim C))).
Proof.
  apply DWConv_init_inv in Hinit as (ks & Hk & Hdim & Hks & ->).
  exists ks. split; [done|]. split; [done|]. split; [done|].
  unfold DWConv_forward. cbn [dw_dwconv]. split.
  - intros ->.
    set (dw := mkConv2d (name +:+ ".dwconv") _ _ _ _ _ _ _ _).
    exact (Conv2d_forward_same dw x B dim H W Hshape eq_refl eq_refl
             ltac:(simpl; lia) ltac:(simpl; lia) HH HW).
  - intros Hne. unfold Conv2d_forward. rewrite Hshape. simpl.
    by rewrite (bool_decide_true (C ≠ dim)).
Qed.

Lemma DWConv_forward_spec_witness :
  shape (sample_tensor [1; 4; 3; 3]) = [1; 4; 3; 3] ∧ 0 < 3 ∧
  ∃ m, DWConv_init "dwconv" 4 3 = Ok m ∧
       kernel_size (dw_dwconv m) = (3, 3) ∧ groups (dw_dwconv m) = 4 ∧
       DWConv_forward (RT := ZRuntime) m (sample_tensor [1; 4; 3; 3])
       = Ok (Tensor [1; 4; 3; 3]
               (conv2d_data (Runtime := ZRuntime) (dw_dwconv m)
                  (sample_tensor [1; 4; 3; 3]))).
Proof.
  split; [reflexivity|]. split; [lia|].
  eexists.
  assert (Hinit : DWConv_init "dwconv" 4 3 = Ok ?[m]) by reflexivity.
  split; [exact Hinit|]. split; [reflexivity|]. split; [reflexivity|].
  destruct (DWConv_forward_spec (RT := ZRuntime) "dwconv" 4 3 _
              (sample_tensor [1; 4; 3; 3]) 1 4 3 3 Hinit eq_refl ltac:(lia)
              ltac:(lia)) as (ks & _ & _ & _ & Hok & _).
  apply Hok. reflexivity.
Defined.
